(** * Verification of the etrendo ingestion jobs

    Shallow embedding of the harvesting jobs under [src/ingestion]:
    - [marketplace1_price_listing/fetch_marketplace1_price_listing.py]
    - [marketplace1_product_details/fetch_marketplace1_product_details.py]
    - [marketplace2_product_details/fetch_marketplace2_product_details.py]
    - [marketplace1_product_listing/fetch_marketplace1_product_listing.py]
      and [jobs/fetch_marketplace1_listing.py]

    Python values reaching the code from JSON (API responses, config) are
    [json] values; Python exceptions are [exn]; code that may raise runs in
    the [PyM] error monad.  The outside world (HTTP endpoints, environment,
    mounted files, secret store, SerpAPI, thread completion order) enters
    the functions as explicit arguments. *)

From Stdlib Require Import ZArith Ascii String Lia.
From stdpp Require Import base list gmap strings pretty.

Set Warnings "-register-all".
Open Scope Z_scope.

(* ------------------------------------------------------------------ *)
(** ** Python values, exceptions and the error monad *)

Module Py.

(** JSON-shaped Python values.  Numbers are integers: no code path below
    computes with numbers, it only tests their truthiness and copies them. *)
Inductive json : Type :=
| JNull
| JBool (b : bool)
| JInt (z : Z)
| JStr (s : string)
| JArr (l : list json)
| JObj (kv : list (string * json)).

(** Exception classes that the modelled code raises or catches. *)
Inductive exn_kind : Type :=
| ValueError | TypeError | KeyError | AttributeError | IndexError
| SystemExit.

(** [PyErr] is a builtin exception; [ReqErr] a [requests] exception
    carrying the status code of its [response] attribute, if any. *)
Inductive exn : Type :=
| PyErr (k : exn_kind) (msg : string)
| ReqErr (msg : string) (response_status : option Z).

(** [str(e)] *)
Definition exn_str (e : exn) : string :=
  match e with PyErr _ m => m | ReqErr m _ => m end.

(** [except Exception] does not catch [SystemExit] (a [BaseException]). *)
Definition is_Exception (e : exn) : bool :=
  match e with PyErr SystemExit _ => false | _ => true end.

Inductive PyM (A : Type) : Type :=
| Ret (a : A)
| Raise (e : exn).
Arguments Ret {A} a.
Arguments Raise {A} e.

Definition py_bind {A B} (m : PyM A) (f : A -> PyM B) : PyM B :=
  match m with Ret a => f a | Raise e => Raise e end.

Notation "x <- m ;; k" := (py_bind m (fun x => k))
  (at level 62, m at next level, right associativity).

(** [f] applied to the value of a computation that did not raise. *)
Definition py_map {A B} (f : A -> B) (m : PyM A) : PyM B :=
  match m with Ret a => Ret (f a) | Raise e => Raise e end.

(** [m] does not end in [SystemExit]. *)
Definition no_exit {A} (m : PyM A) : Prop :=
  match m with Raise (PyErr SystemExit _) => False | _ => True end.

(** [try: m  except Exception as e: h(e)] *)
Definition try_except {A} (m : PyM A) (h : exn -> PyM A) : PyM A :=
  match m with
  | Ret a => Ret a
  | Raise e => if is_Exception e then h e else Raise e
  end.

(** [sys.exit(msg)] *)
Definition sys_exit {A} (msg : string) : PyM A := Raise (PyErr SystemExit msg).

Definition is_nil {A} (l : list A) : bool :=
  match l with [] => true | _ => false end.

(** Truthiness of a value ([if x:], [x or y]). *)
Definition truthy (v : json) : bool :=
  match v with
  | JNull => false
  | JBool b => b
  | JInt z => negb (Z.eqb z 0)
  | JStr s => negb (String.eqb s EmptyString)
  | JArr l => negb (is_nil l)
  | JObj kv => negb (is_nil kv)
  end.

(** Python [a or b] on values. *)
Definition py_or (a b : json) : json := if truthy a then a else b.

Fixpoint assoc (k : string) (kv : list (string * json)) : option json :=
  match kv with
  | [] => None
  | (k', v) :: r => if String.eqb k k' then Some v else assoc k r
  end.

(** [d[k] = v] on a dict: replaces in place, or appends a new key. *)
Fixpoint assoc_set (k : string) (v : json) (kv : list (string * json))
  : list (string * json) :=
  match kv with
  | [] => [(k, v)]
  | (k', v') :: r =>
      if String.eqb k k' then (k', v) :: r else (k', v') :: assoc_set k v r
  end.

(** [d.update(e)] *)
Definition assoc_update (d e : list (string * json)) : list (string * json) :=
  fold_left (fun acc '(k, v) => assoc_set k v acc) e d.

(** [o.get(k, default)]: only dicts have [.get]. *)
Definition py_get_d (o : json) (k : string) (default : json) : PyM json :=
  match o with
  | JObj kv => Ret (match assoc k kv with Some v => v | None => default end)
  | _ => Raise (PyErr AttributeError "object has no attribute 'get'")
  end.

(** [o.get(k)] *)
Definition py_get (o : json) (k : string) : PyM json := py_get_d o k JNull.

(** [needle in hay] for a string needle. *)
Fixpoint str_prefix (p s : string) : bool :=
  match p, s with
  | EmptyString, _ => true
  | String a p', String b s' => Ascii.eqb a b && str_prefix p' s'
  | _, _ => false
  end.

Fixpoint str_contains (needle hay : string) : bool :=
  str_prefix needle hay ||
  match hay with EmptyString => false | String _ h => str_contains needle h end.

Definition py_in (k : string) (c : json) : PyM bool :=
  match c with
  | JStr s => Ret (str_contains k s)
  | JArr l => Ret (existsb (fun x => match x with JStr s => String.eqb s k | _ => false end) l)
  | JObj kv => Ret (match assoc k kv with Some _ => true | None => false end)
  | _ => Raise (PyErr TypeError "argument is not iterable")
  end.

(** [o[k]] with a string key. *)
Definition py_getitem (o : json) (k : string) : PyM json :=
  match o with
  | JObj kv => match assoc k kv with
               | Some v => Ret v
               | None => Raise (PyErr KeyError k)
               end
  | JArr _ | JStr _ => Raise (PyErr TypeError "indices must be integers")
  | _ => Raise (PyErr TypeError "object is not subscriptable")
  end.

Fixpoint str_chars (s : string) : list json :=
  match s with
  | EmptyString => []
  | String c r => JStr (String c EmptyString) :: str_chars r
  end.

(** [o[0]] *)
Definition py_index0 (o : json) : PyM json :=
  match o with
  | JArr (x :: _) => Ret x
  | JArr [] => Raise (PyErr IndexError "list index out of range")
  | JStr s => match str_chars s with
              | x :: _ => Ret x
              | [] => Raise (PyErr IndexError "string index out of range")
              end
  | JObj _ => Raise (PyErr KeyError "0")
  | _ => Raise (PyErr TypeError "object is not subscriptable")
  end.

(** The elements visited by [for x in o]. *)
Definition py_iter (o : json) : PyM (list json) :=
  match o with
  | JArr l => Ret l
  | JStr s => Ret (str_chars s)
  | JObj kv => Ret (map (fun '(k, _) => JStr k) kv)
  | _ => Raise (PyErr TypeError "object is not iterable")
  end.

(** [str.isspace] on one (ASCII) character. *)
Definition is_space (c : ascii) : bool :=
  let n := nat_of_ascii c in
  ((9 <=? n) && (n <=? 13))%nat || ((28 <=? n) && (n <=? 32))%nat.

Fixpoint lstrip (s : string) : string :=
  match s with
  | EmptyString => EmptyString
  | String c r => if is_space c then lstrip r else s
  end.

Definition rstrip (s : string) : string :=
  string_of_list_ascii (rev (list_ascii_of_string (lstrip
    (string_of_list_ascii (rev (list_ascii_of_string s)))))).

(** [s.strip()] *)
Definition strip (s : string) : string := rstrip (lstrip s).

(** [s.upper()] on ASCII letters. *)
Definition upper_char (c : ascii) : ascii :=
  let n := nat_of_ascii c in
  if ((97 <=? n) && (n <=? 122))%nat then ascii_of_nat (n - 32) else c.

Fixpoint str_map (f : ascii -> ascii) (s : string) : string :=
  match s with
  | EmptyString => EmptyString
  | String c r => String (f c) (str_map f r)
  end.

Definition upper (s : string) : string := str_map upper_char s.

(** [s.replace(a, b)] for single characters. *)
Definition replace_char (a b : ascii) (s : string) : string :=
  str_map (fun c => if Ascii.eqb c a then b else c) s.

End Py.

Import Py.

(* ------------------------------------------------------------------ *)
(** ** The outside world seen by the jobs *)

Module World.

(** What [load_secret] observes: [os.getenv], the mounted secret files
    ([Path(p).exists()] and [read_text()]), [gcp_config.get("project_id")]
    and the Secret Manager ([access_secret_version] on
    [(project, name, version)], decoded as UTF-8). *)
Record secrets_env : Type := {
  getenv : string -> option string;
  mounted_file : string -> option string;
  project_id : json;
  secret_store : json -> string -> string -> PyM string
}.

(** An HTTP response: status code and body ([None] when the body is not
    JSON, so that [resp.json()] raises). *)
Record response : Type := {
  status_code : Z;
  body : option json
}.

(** [requests.post(endpoint, auth=(u, p), json=payload, timeout=30)] and
    [requests.get(url, headers=h, timeout=30)]; transport errors are
    [requests] exceptions without a response. *)
Record http : Type := {
  post : string -> string * string -> json -> PyM response;
  get : string -> list (string * string) -> PyM response
}.

(** [resp.raise_for_status()] *)
Definition raise_for_status (r : response) : PyM unit :=
  if ((400 <=? status_code r) && (status_code r <? 600))%Z
  then Raise (ReqErr "HTTP Error" (Some (status_code r)))
  else Ret tt.

(** [resp.json()]: [requests.JSONDecodeError] has no response attached. *)
Definition resp_json (r : response) : PyM json :=
  match body r with
  | Some j => Ret j
  | None => Raise (ReqErr "Expecting value" None)
  end.

(** [hasattr(e, "response") and e.response is not None] gives the status. *)
Definition exn_status (e : exn) : json :=
  match e with
  | ReqErr _ (Some c) => JInt c
  | _ => JNull
  end.

(** The dict returned by the adapters' [except] branch:
    [{"error": str(e), "status_code": status_code}]. *)
Definition error_dict (e : exn) : json :=
  JObj [("error", JStr (exn_str e)); ("status_code", exn_status e)].

(** The network never ends the process: its calls raise ordinary
    exceptions at worst. *)
Definition http_no_exit (net : http) : Prop :=
  (forall e a p, no_exit (post net e a p)) /\ (forall u h, no_exit (get net u h)).

End World.

Import World.

(* ------------------------------------------------------------------ *)
(** ** Secret loading (shared by the three jobs) *)

Module Secrets.

(** [Path("/etc/secrets") / secret_name] for a plain file name. *)
Definition mount_path (secret_name : string) : string :=
  ("/etc/secrets/" ++ secret_name)%string.

(** The file and Secret Manager tiers, lines 42-55 of the price job and
    the whole of [load_secret] in the details job. *)
Definition file_then_store (w : secrets_env) (secret_name : string) : PyM string :=
  match mounted_file w (mount_path secret_name) with
  | Some text => Ret (strip text)
  | None =>
      if truthy (project_id w)
      then s <- secret_store w (project_id w) secret_name "latest";; Ret (strip s)
      else Raise (PyErr ValueError "GCP 'project_id' missing in gcp_config.yaml.")
  end.

(** [env_candidates] of the price job's [load_secret]. *)
Definition env_candidates (secret_name : string) : list string :=
  [replace_char "-" "_" (upper secret_name)]
  ++ (if str_contains "username" secret_name then ["OXYLABS_USERNAME"] else [])
  ++ (if str_contains "password" secret_name then ["OXYLABS_PASSWORD"] else []).

(** [for env_name in env_candidates: val = os.getenv(env_name); if val: return val] *)
Fixpoint first_env (w : secrets_env) (names : list string) : option string :=
  match names with
  | [] => None
  | n :: r =>
      match getenv w n with
      | Some v => if String.eqb v EmptyString then first_env w r else Some v
      | None => first_env w r
      end
  end.

End Secrets.

(* ------------------------------------------------------------------ *)
(** ** Shared helpers: monadic loops, rows, worker count *)

Module Common.

(** A row of a DataFrame, as the dict it was built from. *)
Definition row : Type := list (string * json).

(** [for i, x in enumerate(l, start=s): ...] collecting the results. *)
Fixpoint mapM_idx {A B} (f : Z -> A -> PyM B) (i : Z) (l : list A) : PyM (list B) :=
  match l with
  | [] => Ret []
  | x :: r => y <- f i x;; ys <- mapM_idx f (i + 1) r;; Ret (y :: ys)
  end.

Fixpoint mapM {A B} (f : A -> PyM B) (l : list A) : PyM (list B) :=
  match l with
  | [] => Ret []
  | x :: r => y <- f x;; ys <- mapM f r;; Ret (y :: ys)
  end.

(** [x < 1] for the worker count (ints and bools compare, the rest raise). *)
Definition lt_one (v : json) : PyM bool :=
  match v with
  | JInt z => Ret (z <? 1)
  | JBool b => Ret (negb b)
  | _ => Raise (PyErr TypeError "'<' not supported")
  end.

(** [max_workers = args.max_workers or cfg.get("max_workers") or default;
     if max_workers < 1: max_workers = 1] *)
Definition effective_max_workers (default : Z) (cli : option Z) (cfg_max_workers : json)
  : PyM json :=
  let cli_v := match cli with Some z => JInt z | None => JNull end in
  let mw := py_or cli_v (py_or cfg_max_workers (JInt default)) in
  b <- lt_one mw;; Ret (if b then JInt 1 else mw).

(** How a [main] ends: returning without output, or writing the rows. *)
Inductive run_end : Type :=
| NoOutput
| Written (rows : list row).

End Common.

Import Common.

(* ------------------------------------------------------------------ *)
(** ** [fetch_marketplace1_price_listing.py] *)

Module Price.

(** [load_secret] (lines 29-55). *)
Definition load_secret (w : secrets_env) (secret_name : string) : PyM string :=
  match Secrets.first_env w (Secrets.env_candidates secret_name) with
  | Some v => Ret v
  | None => Secrets.file_then_store w secret_name
  end.

(** [call_oxylabs(username, password, domain, asin, source, endpoint)] *)
Definition call_oxylabs (net : http) (username password : string) (domain : json)
    (asin : string) (source : json) (endpoint : string) : PyM json :=
  let payload := JObj [("source", source); ("domain", domain);
                       ("query", JStr asin); ("parse", JBool true)] in
  try_except
    (resp <- post net endpoint (username, password) payload;;
     _ <- raise_for_status resp;;
     resp_json resp)
    (fun e => Ret (error_dict e)).

(** [extract_content(api_response)]; [None] is [JNull]. *)
Definition extract_content (api_response : json) : json :=
  match try_except
          (results <- py_get_d api_response "results" (JArr []);;
           if negb (truthy results) then Ret JNull
           else (r0 <- py_index0 results;; py_get r0 "content"))
          (fun _ => Ret JNull) with
  | Ret v => v
  | Raise _ => JNull
  end.

(** One row of [flatten_pricing] for an offer and a delivery option. *)
Definition offer_row (content offer : json) (category_label extracted_at node_label : json)
    (offer_idx delivery_idx : Z) (d : json) : PyM row :=
  asin <- py_get content "asin";;
  title <- py_get content "title";;
  url <- py_get content "url";;
  review_count <- py_get content "review_count";;
  seller <- py_get offer "seller";;
  price <- py_get offer "price";;
  currency <- py_get offer "currency";;
  price_shipping <- py_get offer "price_shipping";;
  condition <- py_get offer "condition";;
  rating_count <- py_get offer "rating_count";;
  seller_id <- py_get offer "seller_id";;
  seller_link <- py_get offer "seller_link";;
  delivery <- py_get offer "delivery";;
  delivery_type <- (if truthy d then py_get d "type" else Ret JNull);;
  delivery_date <- (if truthy d
                   then (dt <- py_get_d d "date" (JObj []);; py_get dt "by")
                   else Ret JNull);;
  Ret [("asin", asin); ("title", title); ("url", url);
       ("review_count", review_count); ("seller", seller); ("price", price);
       ("currency", currency); ("price_shipping", price_shipping);
       ("condition", condition); ("rating_count", rating_count);
       ("seller_id", seller_id); ("seller_link", seller_link);
       ("delivery", delivery); ("delivery_type", delivery_type);
       ("delivery_date", delivery_date); ("offer_position", JInt offer_idx);
       ("delivery_option_position", if truthy d then JInt delivery_idx else JNull);
       ("category_label", category_label); ("node_label", node_label);
       ("extracted_at", extracted_at); ("pricing_status", JStr "offer")].

(** [flatten_pricing(content, category_label, extracted_at, node_label)];
    the empty list is [pd.DataFrame()]. *)
Definition flatten_pricing (content : json) (category_label extracted_at node_label : json)
  : PyM (list row) :=
  if negb (truthy content) then Ret [] else
  has_pricing <- py_in "pricing" content;;
  if negb has_pricing then Ret [] else
  pricing <- py_get_d content "pricing" (JArr []);;
  offers <- py_iter pricing;;
  groups <- mapM_idx (fun offer_idx offer =>
              delivery_opts <- py_get_d offer "delivery_options" (JArr [JNull]);;
              ds <- py_iter delivery_opts;;
              mapM_idx (offer_row content offer category_label extracted_at node_label offer_idx)
                       1 ds) 1 offers;;
  Ret (concat groups).

(** [build_no_pricing_row(asin, content, category_label, extracted_at, node_label)] *)
Definition build_no_pricing_row (asin : string) (content0 : json)
    (category_label extracted_at node_label : json) : PyM (list row) :=
  let content := py_or content0 (JObj []) in
  a <- py_get content "asin";;
  title <- py_get content "title";;
  url <- py_get content "url";;
  review_count <- py_get content "review_count";;
  Ret [[("asin", py_or a (JStr asin)); ("title", title); ("url", url);
        ("review_count", review_count); ("seller", JNull); ("price", JNull);
        ("currency", JNull); ("price_shipping", JNull); ("condition", JNull);
        ("rating_count", JNull); ("seller_id", JNull); ("seller_link", JNull);
        ("delivery", JNull); ("delivery_type", JNull); ("delivery_date", JNull);
        ("offer_position", JNull); ("delivery_option_position", JNull);
        ("category_label", category_label); ("node_label", node_label);
        ("extracted_at", extracted_at); ("pricing_status", JStr "no_offers")]].

(** [build_error_row(asin, category_label, extracted_at, node_label, error_message)] *)
Definition build_error_row (asin : string) (category_label extracted_at node_label : json)
    (error_message : json) : list row :=
  [[("asin", JStr asin); ("title", JNull); ("url", JNull);
    ("review_count", JNull); ("seller", JNull); ("price", JNull);
    ("currency", JNull); ("price_shipping", JNull); ("condition", JNull);
    ("rating_count", JNull); ("seller_id", JNull); ("seller_link", JNull);
    ("delivery", JNull); ("delivery_type", JNull); ("delivery_date", JNull);
    ("offer_position", JNull); ("delivery_option_position", JNull);
    ("category_label", category_label); ("node_label", node_label);
    ("extracted_at", extracted_at); ("pricing_status", JStr "error");
    ("error_message", error_message)]].

(** [process_asin(asin, username, password, domain, oxylabs_source, endpoint,
    category_label, node_label, extracted_at, throttle_min, throttle_max)];
    [throttle] is [time.sleep(random.uniform(throttle_min, throttle_max))].
    The second component is the returned error ([None] is [JNull]). *)
Definition process_asin (net : http) (throttle : PyM unit) (asin username password : string)
    (domain oxylabs_source : json) (endpoint : string)
    (category_label node_label extracted_at : json) : PyM (list row * json) :=
  try_except
    (resp <- call_oxylabs net username password domain asin oxylabs_source endpoint;;
     has_err <- py_in "error" resp;;
     is_err <- (if has_err
                then (has_res <- py_in "results" resp;; Ret (negb has_res))
                else Ret false);;
     if is_err then
       _ <- throttle;;
       err_msg <- py_get_d resp "error" (JStr "Oxylabs error");;
       Ret (build_error_row asin category_label extracted_at node_label err_msg, err_msg)
     else
       let content := extract_content resp in
       df_offer <- flatten_pricing content category_label extracted_at node_label;;
       df_offer <- (if is_nil df_offer
                    then build_no_pricing_row asin content category_label extracted_at node_label
                    else Ret df_offer);;
       _ <- throttle;;
       Ret (df_offer, JNull))
    (fun exc =>
       Ret (build_error_row asin category_label extracted_at node_label (JStr (exn_str exc)),
            JStr (exn_str exc))).

(** The [as_completed] loop of [main] (lines 403-419).  [order] lists the
    input positions in completion order; [result k] is what
    [future.result()] gives for the future of [inputs[k]].  It returns
    [all_dfs], each DataFrame tagged with the position of its item, and
    [failures]. *)
Fixpoint collect (inputs : list string) (result : nat -> PyM (list row * json))
    (order : list nat) (all_dfs : list (nat * list row)) (failures : list string)
  : PyM (list (nat * list row) * list string) :=
  match order with
  | [] => Ret (all_dfs, failures)
  | k :: rest =>
      let asin := default EmptyString (inputs !! k) in
      match result k with
      | Raise e =>
          if is_Exception e
          then collect inputs result rest all_dfs (failures ++ [asin])
          else Raise e
      | Ret (df_offer, _) =>
          if is_nil df_offer
          then collect inputs result rest all_dfs (failures ++ [asin])
          else collect inputs result rest (all_dfs ++ [(k, df_offer)]) failures
      end
  end.

(** [main] from [if not inputs] (line 375) to the end: [bucket_name] is
    [cfg.get("gcs_bucket_name")]; [save_to_gcs] skips an empty frame. *)
Definition run_inputs (inputs : list string) (result : nat -> PyM (list row * json))
    (order : list nat) (no_upload : bool) (bucket_name : json) : PyM run_end :=
  if is_nil inputs then Ret NoOutput else
  c <- collect inputs result order [] [];;
  let all_dfs := fst c in
  if is_nil all_dfs
  then sys_exit "No data to save (all requests failed or returned empty)."
  else
    let df := List.concat (map snd all_dfs) in
    if no_upload then Ret (Written df)
    else if truthy bucket_name
    then Ret (if is_nil df then NoOutput else Written df)
    else sys_exit "gcs_bucket_name missing in source parameters.".

(** The futures submitted by [main]: one [process_asin] per input
    position; [net k] and [throttle k] are what the [k]-th worker sees. *)
Definition worker_result (net : nat -> http) (throttle : nat -> PyM unit)
    (inputs : list string) (username password : string) (domain oxylabs_source : json)
    (endpoint : string) (label_for_output node_label extracted_at : json)
    (k : nat) : PyM (list row * json) :=
  process_asin (net k) (throttle k) (default EmptyString (inputs !! k)) username password
    domain oxylabs_source endpoint label_for_output node_label extracted_at.

(** [max_workers] (lines 336-338). *)
Definition max_workers (cli : option Z) (cfg_max_workers : json) : PyM json :=
  effective_max_workers 8 cli cfg_max_workers.

End Price.

(* ------------------------------------------------------------------ *)
(** ** [json.dumps(obj, ensure_ascii=False)] *)

Module Json.

Definition hex_digit (n : nat) : ascii :=
  if (n <? 10)%nat then ascii_of_nat (48 + n) else ascii_of_nat (87 + n).

(** The double quote character. *)
Definition dquote : string := String (ascii_of_nat 34) EmptyString.

(** The escape of one character by the default encoder: with
    [ensure_ascii=False] only the double quote, the backslash and the
    control characters are escaped. *)
Definition escape_char (c : ascii) : string :=
  let n := nat_of_ascii c in
  if (n =? 34)%nat then String "\" dquote
  else if (n =? 92)%nat then "\\"
  else if (n =? 10)%nat then "\n"
  else if (n =? 13)%nat then "\r"
  else if (n =? 9)%nat then "\t"
  else if (n =? 8)%nat then "\b"
  else if (n =? 12)%nat then "\f"
  else if (n <? 32)%nat
  then String "\" (String "u" (String "0" (String "0"
         (String (hex_digit (n / 16)) (String (hex_digit (n mod 16)) EmptyString)))))
  else String c EmptyString.

Fixpoint escape (s : string) : string :=
  match s with
  | EmptyString => EmptyString
  | String c r => (escape_char c ++ escape r)%string
  end.

Definition dump_str (s : string) : string := (dquote ++ escape s ++ dquote)%string.

Fixpoint join (sep : string) (l : list string) : string :=
  match l with
  | [] => EmptyString
  | [x] => x
  | x :: r => (x ++ sep ++ join sep r)%string
  end.

(** [json.dumps] with the default separators [", "] and [": "]. *)
Fixpoint dumps (j : json) : string :=
  match j with
  | JNull => "null"
  | JBool true => "true"
  | JBool false => "false"
  | JInt z => pretty z
  | JStr s => dump_str s
  | JArr l => ("[" ++ join ", " (map dumps l) ++ "]")%string
  | JObj kv =>
      ("{" ++ join ", " (map (fun kv1 => dump_str (fst kv1) ++ ": " ++ dumps (snd kv1)) kv)
       ++ "}")%string
  end.

End Json.

(* ------------------------------------------------------------------ *)
(** ** [fetch_marketplace1_product_details.py] *)

Module Details.

(** [load_secret] (lines 29-44): mounted file, then Secret Manager. *)
Definition load_secret (w : secrets_env) (secret_name : string) : PyM string :=
  Secrets.file_then_store w secret_name.

(** [call_oxylabs(endpoint, username, password, asin, source, domain, locale)] *)
Definition call_oxylabs (net : http) (endpoint username password asin : string)
    (source domain locale : json) : PyM json :=
  let payload := JObj ([("source", source); ("domain", domain);
                        ("query", JStr asin); ("parse", JBool true)]
                       ++ (if truthy locale then [("locale", locale)] else [])) in
  try_except
    (resp <- post net endpoint (username, password) payload;;
     _ <- raise_for_status resp;;
     resp_json resp)
    (fun e => Ret (error_dict e)).

(** [extract_content] local to [normalize_records]; [None] is [JNull]. *)
Definition extract_content (payload : json) : json :=
  match try_except
          (results <- py_get_d payload "results" (JArr []);;
           if truthy results then (r0 <- py_index0 results;; py_get r0 "content")
           else Ret JNull)
          (fun _ => Ret JNull) with
  | Ret v => v
  | Raise _ => JNull
  end.

(** [_j(obj)] *)
Definition j (obj : json) : json :=
  match obj with JNull => JNull | _ => JStr (Json.dumps obj) end.

(** ["\n".join([bp for bp in bullet_points if bp])] *)
Definition join_lines (l : list json) : PyM json :=
  parts <- mapM (fun bp => match bp with
                           | JStr s => Ret s
                           | _ => Raise (PyErr TypeError "expected str instance")
                           end) (filter (fun bp => truthy bp) l);;
  Ret (JStr (Json.join (String (ascii_of_nat 10) EmptyString) parts)).

(** The first truthy image of a list. *)
Fixpoint first_truthy (l : list json) : json :=
  match l with
  | [] => JNull
  | x :: r => if truthy x then x else first_truthy r
  end.

(** [for v in variation: if v.get("selected"): ...; break] *)
Fixpoint selected_variation (vs : list json) : PyM (json * json) :=
  match vs with
  | [] => Ret (JNull, JNull)
  | v :: r =>
      sel <- py_get v "selected";;
      if truthy sel
      then (a <- py_get v "asin";; d <- py_get v "dimensions";; Ret (a, d))
      else selected_variation r
  end.

(** The body of the [for asin, payload in zip(...)] loop of
    [normalize_records] (lines 114-246): the row of one item. *)
Definition normalize_one (extracted_at : string) (category_label node_label : json)
    (asin : string) (payload : json) : PyM row :=
  status_code <- py_get payload "status_code";;
  has_err <- py_in "error" payload;;
  is_err <- (if has_err
             then (has_res <- py_in "results" payload;; Ret (negb has_res))
             else Ret false);;
  err_msg <- (if is_err then py_get payload "error" else Ret JNull);;
  let content := if is_err then JObj [] else py_or (extract_content payload) (JObj []) in
  let status := if is_err then "error" else if truthy content then "ok" else "no_content" in
  category <- py_get content "category";;
  let category_value := py_or category category_label in
  a1 <- py_get content "asin";;
  a2 <- py_get content "asin_in_url";;
  let asin_val := py_or a1 (py_or a2 (JStr asin)) in
  title <- py_get content "title";;
  brand <- py_get content "brand";;
  url <- py_get content "url";;
  page_type <- py_get content "page_type";;
  stock <- py_get content "stock";;
  price <- py_get content "price";;
  price_upper <- py_get content "price_upper";;
  price_initial <- py_get content "price_initial";;
  price_shipping <- py_get content "price_shipping";;
  price_buybox <- py_get content "price_buybox";;
  price_sns <- py_get content "price_sns";;
  currency <- py_get content "currency";;
  rating <- py_get content "rating";;
  rc1 <- py_get content "review_count";;
  rc2 <- py_get content "reviews_count";;
  let review_count := py_or rc1 rc2 in
  sales_volume <- py_get content "sales_volume";;
  parent_asin <- py_get content "parent_asin";;
  product_name <- py_get content "product_name";;
  description <- py_get content "description";;
  coupon <- py_get content "coupon";;
  store_url <- py_get content "store_url";;
  pricing_url <- py_get content "pricing_url";;
  pricing_str <- py_get content "pricing_str";;
  manufacturer <- py_get content "manufacturer";;
  is_prime_eligible <- py_get content "is_prime_eligible";;
  has_videos <- py_get content "has_videos";;
  bullet_points <- py_get content "bullet_points";;
  bullet_points_joined <- (match bullet_points with
                           | JArr l => join_lines l
                           | _ => Ret bullet_points
                           end);;
  images <- py_get content "images";;
  let main_image := match images with JArr l => first_truthy l | _ => JNull end in
  variation0 <- py_get content "variation";;
  let variation := py_or variation0 (JArr []) in
  vs <- py_iter variation;;
  sel <- selected_variation vs;;
  sales_rank <- py_get content "sales_rank";;
  delivery <- py_get content "delivery";;
  buybox <- py_get content "buybox";;
  rating_stars_distribution <- py_get content "rating_stars_distribution";;
  product_details <- py_get content "product_details";;
  product_overview <- py_get content "product_overview";;
  technical_details <- py_get content "technical_details";;
  other_sellers <- py_get content "other_sellers";;
  sns_discounts <- py_get content "sns_discounts";;
  answered_questions_count <- py_get content "answered_questions_count";;
  Ret [("asin", asin_val); ("category_label", category_label);
       ("extracted_at", JStr extracted_at); ("node", node_label);
       ("title", title); ("brand", brand); ("url", url); ("page_type", page_type);
       ("stock", stock); ("price", price); ("price_upper", price_upper);
       ("price_initial", price_initial); ("price_shipping", price_shipping);
       ("price_buybox", price_buybox); ("price_sns", price_sns);
       ("currency", currency); ("rating", rating); ("review_count", review_count);
       ("sales_volume", sales_volume); ("parent_asin", parent_asin);
       ("product_name", product_name); ("description", description);
       ("coupon", coupon); ("store_url", store_url); ("pricing_url", pricing_url);
       ("pricing_str", pricing_str); ("manufacturer", manufacturer);
       ("category", j category_value); ("is_prime_eligible", is_prime_eligible);
       ("has_videos", has_videos); ("images", j images); ("main_image", main_image);
       ("bullet_points", bullet_points_joined);
       ("variation_selected_asin", fst sel);
       ("variation_selected_dimensions", j (snd sel));
       ("variation_all", j variation); ("sales_rank", j sales_rank);
       ("delivery", j delivery); ("buybox", j buybox);
       ("rating_stars_distribution", j rating_stars_distribution);
       ("product_details", j product_details);
       ("product_overview", j product_overview);
       ("technical_details", j technical_details);
       ("other_sellers", other_sellers); ("sns_discounts", j sns_discounts);
       ("answered_questions_count", answered_questions_count);
       ("item_status", JStr status); ("error_message", err_msg);
       ("status_code", status_code);
       ("payload_raw", JStr (Json.dumps payload))].

(** [normalize_records(raw_records, input_items, category_label, node_label)];
    [extracted_at] is the one [datetime.now(timezone.utc).isoformat()]
    reading taken at its start. *)
Definition normalize_records (extracted_at : string) (raw_records : list json)
    (input_items : list string) (category_label node_label : json) : PyM (list row) :=
  mapM (fun p => normalize_one extracted_at category_label node_label (fst p) (snd p))
       (zip input_items raw_records).

(** [process_asin(endpoint, username, password, asin, oxylabs_source,
    domain, locale, throttle_min, throttle_max)] *)
Definition process_asin (net : http) (throttle : PyM unit)
    (endpoint username password asin : string) (oxylabs_source domain locale : json)
  : PyM json :=
  payload <- call_oxylabs net endpoint username password asin oxylabs_source domain locale;;
  _ <- throttle;;
  Ret payload.

(** One turn of the [as_completed] loop (lines 378-392): the payload kept
    for a future, from what [future.result()] gives. *)
Definition payload_of (r : PyM json) : PyM json :=
  payload <- (match r with
              | Ret p => Ret p
              | Raise e => if is_Exception e
                           then Ret (JObj [("error", JStr (exn_str e))])
                           else Raise e
              end);;
  match payload with
  | JNull => Ret (JObj [("error", JStr "Empty payload")])
  | _ =>
      (* [elif "error" in payload and "results" not in payload]: only
         [failures] (a log list) changes, but the tests may raise. *)
      has_err <- py_in "error" payload;;
      _ <- (if has_err then py_in "results" payload else Ret false);;
      Ret payload
  end.

(** The [as_completed] loop filling [payloads_by_asin]. *)
Fixpoint collect (inputs : list string) (result : nat -> PyM json) (order : list nat)
    (payloads_by_asin : gmap string json) : PyM (gmap string json) :=
  match order with
  | [] => Ret payloads_by_asin
  | k :: rest =>
      let asin := default EmptyString (inputs !! k) in
      payload <- payload_of (result k);;
      collect inputs result rest (<[asin := payload]> payloads_by_asin)
  end.

(** [payloads = [payloads_by_asin.get(asin, {"error": "Missing result"}) for asin in inputs]] *)
Definition reorder (payloads_by_asin : gmap string json) (inputs : list string) : list json :=
  map (fun asin => default (JObj [("error", JStr "Missing result")]) (payloads_by_asin !! asin))
      inputs.

(** [main] from [if not inputs] (line 352) to the end. *)
Definition run_inputs (extracted_at : string) (inputs : list string)
    (result : nat -> PyM json) (order : list nat)
    (category_label node_label : json) (no_upload : bool) (bucket_name : json)
  : PyM run_end :=
  if is_nil inputs then Ret NoOutput else
  payloads_by_asin <- collect inputs result order ∅;;
  let payloads := reorder payloads_by_asin inputs in
  df <- normalize_records extracted_at payloads inputs category_label node_label;;
  if no_upload then Ret (Written df)
  else if truthy bucket_name
  then Ret (if is_nil df then NoOutput else Written df)
  else sys_exit "gcs_bucket_name missing in source parameters.".

(** The position of the occurrence of [asin] whose future completed last. *)
Definition last_done (inputs : list string) (order : list nat) (asin : string) : option nat :=
  last (filter (fun k => String.eqb (default EmptyString (inputs !! k)) asin = true) order).

(** The futures submitted by [main], one per input position. *)
Definition worker_result (net : nat -> http) (throttle : nat -> PyM unit)
    (inputs : list string) (endpoint username password : string)
    (oxylabs_source domain locale : json) (k : nat) : PyM json :=
  process_asin (net k) (throttle k) endpoint username password
    (default EmptyString (inputs !! k)) oxylabs_source domain locale.

(** [max_workers] (lines 320-322). *)
Definition max_workers (cli : option Z) (cfg_max_workers : json) : PyM json :=
  effective_max_workers 6 cli cfg_max_workers.

End Details.

(* ------------------------------------------------------------------ *)
(** ** [fetch_marketplace2_product_details.py] *)

Module M2.

(** [load_axesso_api_key] (lines 29-44). *)
Definition load_axesso_api_key (w : secrets_env) (secret_name : string) : PyM string :=
  Secrets.file_then_store w secret_name.

(** [s.split(sep, 1)] when [sep] occurs: the parts around its first occurrence. *)
Fixpoint split_once (sep s : string) : option (string * string) :=
  if str_prefix sep s then Some (EmptyString, substring (String.length sep) (String.length s) s)
  else match s with
       | EmptyString => None
       | String c r =>
           match split_once sep r with
           | Some (a, b) => Some (String c a, b)
           | None => None
           end
       end.

(** The characters [urllib.parse.quote(s, safe="=")] leaves alone. *)
Definition quote_safe (c : ascii) : bool :=
  let n := nat_of_ascii c in
  ((48 <=? n) && (n <=? 57))%nat || ((65 <=? n) && (n <=? 90))%nat
  || ((97 <=? n) && (n <=? 122))%nat
  || (n =? 95)%nat || (n =? 46)%nat || (n =? 45)%nat || (n =? 126)%nat
  || (n =? 61)%nat.

Definition hex_upper (n : nat) : ascii :=
  if (n <? 10)%nat then ascii_of_nat (48 + n) else ascii_of_nat (55 + n).

(** [urllib.parse.quote(s, safe="=")] on the bytes of [s]. *)
Fixpoint quote (s : string) : string :=
  match s with
  | EmptyString => EmptyString
  | String c r =>
      let n := nat_of_ascii c in
      if quote_safe c then String c (quote r)
      else String "%" (String (hex_upper (n / 16)) (String (hex_upper (n mod 16)) (quote r)))
  end.

(** [_encode_otto_url(url)]: [scheme, rest = url.split("://", 1)] raises
    when the URL has no scheme separator. *)
Definition encode_otto_url (url : string) : PyM string :=
  match split_once "://" url with
  | Some (scheme, rest) => Ret (scheme ++ ":%2F%2F" ++ quote rest)%string
  | None => Raise (PyErr ValueError "not enough values to unpack (expected 2, got 1)")
  end.

(** [call_axesso(endpoint, api_key, item)] *)
Definition call_axesso (net : http) (endpoint api_key item : string) : PyM json :=
  encoded_url <- encode_otto_url item;;
  let headers := [("axesso-api-key", api_key); ("Cache-Control", "no-cache")] in
  try_except
    (let request_url := (endpoint ++ "?url=" ++ encoded_url)%string in
     resp <- get net request_url headers;;
     _ <- raise_for_status resp;;
     resp_json resp)
    (fun e => Ret (error_dict e)).

(** [normalize_records(raw_records, input_items, category_label)] *)
Definition normalize_records (extracted_at : string) (raw_records : list json)
    (input_items : list string) (category_label : json) : list row :=
  map (fun p => [("input_value", JStr (fst p)); ("category_label", category_label);
                 ("extracted_at", JStr extracted_at); ("payload", snd p)])
      (zip input_items raw_records).

End M2.

(* ------------------------------------------------------------------ *)
(** ** [fetch_all_product_pages] of the two SerpAPI listing jobs *)

Module Serp.

(** The numeric value of a value compared with [<=], [>], [>=]. *)
Definition num (v : json) : PyM Z :=
  match v with
  | JInt z => Ret z
  | JBool b => Ret (if b then 1 else 0)
  | _ => Raise (PyErr TypeError "'<=' not supported")
  end.

Definition hard_limit : Z := 100.

(** [effective_max_pages] (lines 76-85 / 46-55). *)
Definition effective_max_pages (max_pages : json) : PyM json :=
  match max_pages with
  | JNull => Ret (JInt hard_limit)
  | _ =>
      n <- num max_pages;;
      if (n <=? 0) || (hard_limit <? n) then Ret (JInt hard_limit) else Ret max_pages
  end.

(** [for p in results.get("organic_results", []): p["is_sponsored"] = ...;
    p["extracted_at"] = extracted_at]: the dicts are mutated inside
    [results], which is then appended to [all_pages]. *)
Definition mark_product (extracted_at : string) (p : json) : PyM json :=
  url_link <- py_get_d p "link" (JStr EmptyString);;
  spons <- py_in "sspa/click" url_link;;
  match p with
  | JObj kv => Ret (JObj (assoc_set "extracted_at" (JStr extracted_at)
                           (assoc_set "is_sponsored" (JBool spons) kv)))
  | _ => Raise (PyErr TypeError "object does not support item assignment")
  end.

Definition mark_page (extracted_at : string) (results : json) : PyM json :=
  organic <- py_get_d results "organic_results" (JArr []);;
  ps <- py_iter organic;;
  ps' <- mapM (mark_product extracted_at) ps;;
  match results, organic with
  | JObj kv, JArr _ => Ret (JObj (assoc_set "organic_results" (JArr ps') kv))
  | _, _ => Ret results
  end.

(** The part of one loop turn common to both versions, up to the break
    tests: fetch, log the total on page 1, exit on an API error, mark the
    products.  [results] is what [search.get_dict()] returned. *)
Definition page_step (extracted_at : string) (page_num : Z) (results : json) : PyM json :=
  _ <- (if (page_num =? 1)
        then (pag <- py_get_d results "serpapi_pagination" (JObj []);;
              b <- py_in "total_pages" pag;;
              if b then (p <- py_getitem results "serpapi_pagination";;
                         _ <- py_getitem p "total_pages";; Ret tt)
              else Ret tt)
        else Ret tt);;
  has_error <- py_in "error" results;;
  if has_error then (e <- py_getitem results "error";; sys_exit "API Error")
  else mark_page extracted_at results.

(** [params] before the loop. *)
Definition initial_params (config node api_key : json) : PyM (list (string * json)) :=
  amazon_domain <- py_getitem config "amazon_domain";;
  language <- py_getitem config "language";;
  delivery_zip <- py_getitem config "delivery_zip";;
  sort <- py_getitem config "sort";;
  Ret [("engine", JStr "amazon"); ("amazon_domain", amazon_domain);
       ("language", language); ("delivery_zip", delivery_zip); ("node", node);
       ("s", sort); ("page", JInt 1); ("api_key", api_key)].

(** The checks at the top of [fetch_all_product_pages]; returns the
    initial params and the effective page limit. *)
Definition setup (config : json) : PyM (list (string * json) * json) :=
  api_key <- py_get config "api_key";;
  if negb (truthy api_key) || (match api_key with
                               | JStr s => String.eqb s "YOUR_SERPAPI_KEY"
                               | _ => false end)
  then sys_exit "ERROR: You must set your SerpAPI key in the config." else
  node <- py_get config "node";;
  if negb (truthy node)
  then sys_exit "ERROR: You must provide a category node ID in the config." else
  max_pages <- py_get config "max_pages";;
  eff <- effective_max_pages max_pages;;
  params <- initial_params config node api_key;;
  Ret (params, eff).

(** [effective_max_pages and page_num >= effective_max_pages] *)
Definition reached (eff : json) (page_num : Z) : PyM bool :=
  if truthy eff then (e <- num eff;; Ret (e <=? page_num)) else Ret false.

(** [dict.update(other)] for a dict or a list of key/value pairs. *)
Definition dict_update (d : list (string * json)) (other : json) : PyM (list (string * json)) :=
  match other with
  | JObj kv => Ret (assoc_update d kv)
  | JArr l =>
      pairs <- mapM (fun e => match e with
                              | JArr [JStr k; v] => Ret (k, v)
                              | _ => Raise (PyErr ValueError "dictionary update sequence element")
                              end) l;;
      Ret (assoc_update d pairs)
  | JStr EmptyString => Ret d
  | JStr _ => Raise (PyErr ValueError "dictionary update sequence element")
  | _ => Raise (PyErr TypeError "object is not iterable")
  end.

(** The [while True] loop.  [serp n params] is what [search.get_dict()]
    returns on the [n]-th call with the current [params_dict]; [advance]
    is the version-specific tail of a turn, giving the next [page_num]
    and [params_dict].  [fuel] bounds the number of turns modelled:
    [Ret None] means the loop was still running when it ran out. *)
Fixpoint loop (advance : Z -> list (string * json) -> json -> PyM (Z * list (string * json)))
    (serp : nat -> list (string * json) -> json) (extracted_at : string) (eff : json)
    (fuel : nat) (call : nat) (page_num : Z) (params : list (string * json))
    (all_pages : list json) : PyM (option (list json)) :=
  match fuel with
  | O => Ret None
  | S fuel' =>
      results <- page_step extracted_at page_num (serp call params);;
      let all_pages := all_pages ++ [results] in
      stop <- reached eff page_num;;
      if stop then Ret (Some all_pages) else
      pag <- py_get_d results "serpapi_pagination" (JObj []);;
      has_next <- py_in "next" pag;;
      if negb has_next then Ret (Some all_pages) else
      st <- advance page_num params results;;
      loop advance serp extracted_at eff fuel' (S call) (fst st) (snd st) all_pages
  end.

(** [fetch_all_product_pages(config)] for a given loop tail. *)
Definition fetch_pages (advance : Z -> list (string * json) -> json -> PyM (Z * list (string * json)))
    (serp : nat -> list (string * json) -> json) (extracted_at : string) (fuel : nat)
    (config : json) : PyM (option (list json)) :=
  st <- setup config;;
  loop advance serp extracted_at (snd st) fuel 0 1 (fst st) [].

End Serp.

(** [src/ingestion/jobs/fetch_marketplace1_listing.py] *)
Module ListingJob.

(** Lines 106-108: [search.params_dict.update(results.get("serpapi_pagination", {}))];
    [page_num += 1]. *)
Definition advance (page_num : Z) (params : list (string * json)) (results : json)
  : PyM (Z * list (string * json)) :=
  pag <- py_get_d results "serpapi_pagination" (JObj []);;
  params' <- Serp.dict_update params pag;;
  Ret (page_num + 1, params').

Definition fetch_all_product_pages (serp : nat -> list (string * json) -> json)
    (extracted_at : string) (fuel : nat) (config : json) : PyM (option (list json)) :=
  Serp.fetch_pages advance serp extracted_at fuel config.

End ListingJob.

(** [src/ingestion/marketplace1_product_listing/fetch_marketplace1_product_listing.py] *)
Module Listing.

Fixpoint split_char (sep : ascii) (s : string) : list string :=
  match s with
  | EmptyString => [EmptyString]
  | String c r =>
      if Ascii.eqb c sep then EmptyString :: split_char sep r
      else match split_char sep r with
           | x :: xs => String c x :: xs
           | [] => [String c EmptyString]
           end
  end.

Definition is_digit (c : ascii) : bool :=
  let n := nat_of_ascii c in ((48 <=? n) && (n <=? 57))%nat.

(** [url.lstrip(_WHATWG_C0_CONTROL_OR_SPACE)]: the characters up to the space. *)
Fixpoint lstrip_c0 (s : string) : string :=
  match s with
  | EmptyString => EmptyString
  | String c r => if (nat_of_ascii c <=? 32)%nat then lstrip_c0 r else s
  end.

(** [_UNSAFE_URL_BYTES_TO_REMOVE]: tab, CR and LF. *)
Definition unsafe_url_byte (c : ascii) : bool :=
  Ascii.eqb c "009"%char || Ascii.eqb c "013"%char || Ascii.eqb c "010"%char.

Fixpoint remove_unsafe (s : string) : string :=
  match s with
  | EmptyString => EmptyString
  | String c r => if unsafe_url_byte c then remove_unsafe r else String c (remove_unsafe r)
  end.

Definition is_alpha (c : ascii) : bool :=
  let n := nat_of_ascii c in ((65 <=? n) && (n <=? 90))%nat || ((97 <=? n) && (n <=? 122))%nat.

(** [scheme_chars]: letters, digits, [+], [-] and [.]. *)
Definition is_scheme_char (c : ascii) : bool :=
  is_alpha c || is_digit c || Ascii.eqb c "+" || Ascii.eqb c "-" || Ascii.eqb c ".".

(** What [urlsplit] parses after the scheme: [url[i+1:]] when the text
    [url[:i]] before the first [:] is non-empty, starts with an ASCII
    letter and has scheme characters only; else [url]. *)
Definition after_scheme (url : string) : string :=
  match M2.split_once ":" url with
  | Some (String c r, rest) =>
      if is_alpha c && forallb is_scheme_char (list_ascii_of_string (String c r))
      then rest else url
  | _ => url
  end.

(** [_splitnetloc(url, 2)]: up to the first [/], [?] or [#]. *)
Fixpoint netloc_of (s : string) : string :=
  match s with
  | EmptyString => EmptyString
  | String c r =>
      if Ascii.eqb c "/" || Ascii.eqb c "?" || Ascii.eqb c "#" then EmptyString
      else String c (netloc_of r)
  end.

(** The netloc of [urlsplit]: empty unless the rest starts with [//]. *)
Definition netloc (url : string) : string :=
  match url with
  | String "/" (String "/" r) => netloc_of r
  | _ => EmptyString
  end.

(** [urlparse(url).query] for a [str] [url], following [urlsplit] of
    Python 3.12: leading C0 controls and spaces are stripped and every
    tab, CR and LF removed; a netloc with a [[] and no []], or a []]
    and no [[], raises [ValueError]; the query is the text after the
    first [?] of the part before the first [#] (neither can occur in
    the scheme or the netloc).  Recent versions also check a host in
    balanced brackets to be an IP literal; that check is not modelled:
    such a host is taken as it is. *)
Definition url_query (u : string) : PyM string :=
  let url := remove_unsafe (lstrip_c0 u) in
  let n := netloc (after_scheme url) in
  if xorb (str_contains "[" n) (str_contains "]" n)
  then Raise (PyErr ValueError "Invalid IPv6 URL")
  else
    let before := match M2.split_once "#" url with Some (a, _) => a | None => url end in
    Ret (match M2.split_once "?" before with Some (_, q) => q | None => EmptyString end).

Definition hex_val (c : ascii) : option nat :=
  let n := nat_of_ascii c in
  if ((48 <=? n) && (n <=? 57))%nat then Some (n - 48)%nat
  else if ((65 <=? n) && (n <=? 70))%nat then Some (n - 55)%nat
  else if ((97 <=? n) && (n <=? 102))%nat then Some (n - 87)%nat
  else None.

(** [unquote] on bytes: [%XX] becomes the byte, a lone [%] stays.
    Python decodes the unquoted bytes as UTF-8 ([errors="replace"]);
    the two agree when every escape is of an ASCII byte. *)
Fixpoint unquote (s : string) : string :=
  match s with
  | EmptyString => EmptyString
  | String c r =>
      if Ascii.eqb c "%" then
        match r with
        | String h1 (String h2 r') =>
            match hex_val h1, hex_val h2 with
            | Some a, Some b => String (ascii_of_nat (a * 16 + b)) (unquote r')
            | _, _ => String c (unquote r)
            end
        | _ => String c (unquote r)
        end
      else String c (unquote r)
  end.

(** [parse_qsl(qs)]: [&]-separated fields; a field without [=] or with
    an empty value is dropped; [+] is a space. *)
Definition parse_qsl (qs : string) : list (string * string) :=
  List.concat (map (fun field =>
    match M2.split_once "=" field with
    | Some (n, v) =>
        if String.eqb v EmptyString then []
        else [(unquote (replace_char "+" " " n), unquote (replace_char "+" " " v))]
    | None => []
    end) (split_char "&" qs)).

Fixpoint add_value (k v : string) (d : list (string * list string)) : list (string * list string) :=
  match d with
  | [] => [(k, [v])]
  | (k', vs) :: r => if String.eqb k k' then (k', vs ++ [v]) :: r else (k', vs) :: add_value k v r
  end.

(** [parse_qs(qs)] *)
Definition parse_qs (qs : string) : list (string * list string) :=
  fold_left (fun d kv => add_value (fst kv) (snd kv) d) (parse_qsl qs) [].

(** [{k: v[0] if isinstance(v, list) and len(v) == 1 else v for k, v in next_qs.items()}] *)
Definition flatten_params (qs : list (string * list string)) : list (string * json) :=
  map (fun kv => (fst kv, match snd kv with [v] => JStr v | vs => JArr (map JStr vs) end)) qs.

(** Digits with single underscores between them. *)
Fixpoint parse_digits (s : string) (acc : Z) (prev_digit : bool) : option Z :=
  match s with
  | EmptyString => if prev_digit then Some acc else None
  | String c r =>
      if is_digit c then parse_digits r (acc * 10 + Z.of_nat (nat_of_ascii c - 48)) true
      else if Ascii.eqb c "_" && prev_digit then parse_digits r acc false
      else None
  end.

(** [int(s)] for a string of ASCII digits (Python also takes other
    Unicode decimal digits and whitespace). *)
Definition parse_int (s : string) : option Z :=
  match strip s with
  | String "-" r => option_map Z.opp (parse_digits r 0 false)
  | String "+" r => parse_digits r 0 false
  | t => parse_digits t 0 false
  end.

(** [int(v)] *)
Definition py_int (v : json) : PyM Z :=
  match v with
  | JInt z => Ret z
  | JBool b => Ret (if b then 1 else 0)
  | JStr s => match parse_int s with
              | Some z => Ret z
              | None => Raise (PyErr ValueError "invalid literal for int()")
              end
  | _ => Raise (PyErr TypeError "int() argument must be a string or a number")
  end.

(** [try: m except ValueError: h] *)
Definition try_except_ValueError {A} (m : PyM A) (h : PyM A) : PyM A :=
  match m with
  | Raise (PyErr ValueError _) => h
  | _ => m
  end.

(** Lines 137-153: follow the [next] URL and take [page_num] from it.
    [urlparse] of a [next] that is not a [str] decodes it: a falsy one
    gives the empty query, any other one has no [decode]. *)
Definition advance (page_num : Z) (params : list (string * json)) (results : json)
  : PyM (Z * list (string * json)) :=
  pagination <- py_getitem results "serpapi_pagination";;
  next_url <- py_getitem pagination "next";;
  qs <- (match next_url with
         | JStr u => url_query u
         | v => if truthy v
                then Raise (PyErr AttributeError "object has no attribute 'decode'")
                else Ret EmptyString
         end);;
  let next_params := flatten_params (parse_qs qs) in
  let params1 := assoc_update params next_params in
  page_num' <- try_except_ValueError
                 (py_int (default (JInt (page_num + 1)) (assoc "page" next_params)))
                 (Ret (page_num + 1));;
  Ret (page_num', assoc_set "page" (JInt page_num') params1).

Definition fetch_all_product_pages (serp : nat -> list (string * json) -> json)
    (extracted_at : string) (fuel : nat) (config : json) : PyM (option (list json)) :=
  Serp.fetch_pages advance serp extracted_at fuel config.

End Listing.

(* ------------------------------------------------------------------ *)
(** ** Input readers of the three item jobs *)

Module Inputs.

(** [s.replace(old, new)] for a non-empty [old]: the occurrences are
    found left to right without overlap; [skip] counts the characters
    of the last occurrence still to pass. *)
Fixpoint replace_from (old new : string) (skip : nat) (s : string) : string :=
  match s with
  | EmptyString => EmptyString
  | String c r =>
      match skip with
      | S k => replace_from old new k r
      | O => if str_prefix old s
             then (new ++ replace_from old new (String.length old - 1) r)%string
             else String c (replace_from old new 0 r)
      end
  end.

Definition replace (old new s : string) : string := replace_from old new 0 s.

(** The loop of [read_input_from_file] and [read_input_from_gcs]
    (price job lines 58-68 and 104-111, details job lines 47-57,
    marketplace2 job lines 47-57): [ls] are the lines the file iteration
    or [data.splitlines()] yields, [acc] is [lines].  [max_items] is an
    [Optional[int]]: [max_items and len(lines) >= max_items]. *)
Fixpoint read_lines (max_items : option Z) (acc : list string) (ls : list string)
  : list string :=
  match ls with
  | [] => acc
  | line :: rest =>
      let val := strip line in
      if String.eqb val EmptyString then read_lines max_items acc rest
      else
        let acc' := acc ++ [val] in
        match max_items with
        | Some m =>
            if negb (m =? 0) && (m <=? Z.of_nat (length acc'))
            then acc'
            else read_lines max_items acc' rest
        | None => read_lines max_items acc' rest
        end
  end.

(** [read_input_from_file(path, max_items)] on the lines of the file. *)
Definition read_input_from_file (file_lines : list string) (max_items : option Z)
  : list string :=
  read_lines max_items [] file_lines.

(** [_parse_gcs_uri(uri)] (price job lines 85-95). *)
Definition parse_gcs_uri (uri : string) : PyM (string * string) :=
  if negb (str_prefix "gs://" uri)
  then Raise (PyErr ValueError "GCS URI must start with gs://") else
  let without_scheme := substring 5 (String.length uri - 5) uri in
  match M2.split_once "/" without_scheme with
  | None => Raise (PyErr ValueError "GCS URI must include bucket and object path")
  | Some (bucket_name, blob_name) =>
      if String.eqb bucket_name EmptyString || String.eqb blob_name EmptyString
      then Raise (PyErr ValueError "Invalid GCS URI; missing bucket or object path")
      else Ret (bucket_name, blob_name)
  end.

(** [read_input_from_gcs(uri, max_items)] (price job lines 98-111):
    [download bucket blob] gives the lines of [blob.download_as_text()]
    as [splitlines()] cuts them. *)
Definition read_input_from_gcs (download : string -> string -> PyM (list string))
    (uri : string) (max_items : option Z) : PyM (list string) :=
  bo <- parse_gcs_uri uri;;
  ls <- download (fst bo) (snd bo);;
  Ret (read_lines max_items [] ls).

(** The query of [read_input_from_bigquery] in the price and details jobs
    (price job lines 71-82, details job lines 60-71). *)
Definition bigquery_sql (table column : string) (where_ : option string)
    (max_items : option Z) (distinct : bool) : string :=
  let select_kw := if distinct then "DISTINCT" else EmptyString in
  let sql := replace "  " " "
               ("SELECT " ++ select_kw ++ " " ++ column ++ " AS val FROM `" ++ table ++ "`")%string in
  let sql := match where_ with
             | Some w => if String.eqb w EmptyString then sql else (sql ++ " WHERE " ++ w)%string
             | None => sql
             end in
  match max_items with
  | Some m => if m =? 0 then sql else (sql ++ " LIMIT " ++ pretty m)%string
  | None => sql
  end.

(** The query of [read_input_from_bigquery] in the marketplace2 job
    (lines 60-70): no [DISTINCT], no replacement. *)
Definition bigquery_sql_m2 (table column : string) (where_ : option string)
    (max_items : option Z) : string :=
  let sql := ("SELECT " ++ column ++ " AS val FROM `" ++ table ++ "`")%string in
  let sql := match where_ with
             | Some w => if String.eqb w EmptyString then sql else (sql ++ " WHERE " ++ w)%string
             | None => sql
             end in
  match max_items with
  | Some m => if m =? 0 then sql else (sql ++ " LIMIT " ++ pretty m)%string
  | None => sql
  end.

(** [read_input_from_bigquery(...)]: [query sql] gives the [val] column
    of [client.query(sql).result()]; falsy values are dropped. *)
Definition read_input_from_bigquery (query : string -> PyM (list json))
    (table column : string) (where_ : option string) (max_items : option Z)
    (distinct : bool) : PyM (list json) :=
  rows <- query (bigquery_sql table column where_ max_items distinct);;
  Ret (filter (fun v => truthy v) rows).

End Inputs.

(* ------------------------------------------------------------------ *)
(** ** [normalize_products_to_dataframe] of the two SerpAPI listing jobs *)

Module Products.

(** The dict appended for the product [p] of page number [page_index]
    (product-listing lines 177-194, jobs version lines 132-149). *)
Definition product_row (page_index : Z) (category_label : json) (page p : json) : PyM row :=
  price_info <- py_get p "price";;
  search_parameters <- py_get_d page "search_parameters" (JObj []);;
  node <- py_get search_parameters "node";;
  position <- py_get p "position";;
  asin <- py_get p "asin";;
  title <- py_get p "title";;
  link0 <- py_get_d p "link" (JStr EmptyString);;
  link <- (match link0 with
           | JStr s => Ret (JStr (Inputs.replace "\/" "/" s))
           | _ => Raise (PyErr AttributeError "object has no attribute 'replace'")
           end);;
  rating <- py_get p "rating";;
  reviews <- py_get p "reviews";;
  bought_last_month <- py_get p "bought_last_month";;
  price_raw <- (match price_info with JObj _ => py_get price_info "raw" | _ => Ret JNull end);;
  currency <- (match price_info with JObj _ => py_get price_info "currency" | _ => Ret JNull end);;
  extracted_price <- py_get p "extracted_price";;
  delivery <- py_get p "delivery";;
  is_sponsored <- py_get_d p "is_sponsored" (JBool false);;
  extracted_at <- py_get p "extracted_at";;
  Ret [("page_number", JInt page_index); ("category_label", category_label);
       ("node", node); ("position", position); ("asin", asin); ("title", title);
       ("link", link); ("rating", rating); ("reviews", reviews);
       ("bought_last_month", bought_last_month); ("price_raw", price_raw);
       ("currency", currency); ("extracted_price", extracted_price);
       ("delivery", delivery); ("is_sponsored", is_sponsored);
       ("extracted_at", extracted_at)].

(** [page.get("organic_results", [])] and the products it iterates. *)
Definition organic (page : json) : PyM (list json) :=
  organic_results <- py_get_d page "organic_results" (JArr []);;
  py_iter organic_results.

(** [normalize_products_to_dataframe(pages, category_label)]; the empty
    list is [pd.DataFrame()]. *)
Definition normalize_products_to_dataframe (pages : list json) (category_label : json)
  : PyM (list row) :=
  groups <- mapM_idx (fun page_index page =>
              ps <- organic page;;
              mapM (product_row page_index category_label page) ps) 1 pages;;
  Ret (List.concat groups).

End Products.

(* ------------------------------------------------------------------ *)
(** ** The secret resolver as the specification describes it *)

Module SecretSpec.

Definition is_alnum (c : ascii) : bool :=
  let n := nat_of_ascii c in
  ((48 <=? n) && (n <=? 57))%nat || ((65 <=? n) && (n <=? 90))%nat
  || ((97 <=? n) && (n <=? 122))%nat.

(** The environment variable name: upper-cased, non-alphanumerics as [_]. *)
Definition env_name (logical_name : string) : string :=
  str_map (fun c => if is_alnum c then upper_char c else "_"%char) logical_name.

(** [resolve(logical_name)] per section 4.2 of the specification:
    environment, mounted file, secret store; the first non-empty value,
    right-trimmed; [None] is [CredentialNotFoundError]. *)
Definition nonempty (v : string) : option string :=
  if String.eqb v EmptyString then None else Some (rstrip v).

Definition resolve (w : secrets_env) (logical_name : string) : option string :=
  let from_env := match getenv w (env_name logical_name) with
                  | Some v => nonempty v
                  | None => None
                  end in
  let from_file := match mounted_file w (Secrets.mount_path logical_name) with
                   | Some c => nonempty c
                   | None => None
                   end in
  let from_store := match secret_store w (project_id w) logical_name "latest" with
                    | Ret s => nonempty s
                    | Raise _ => None
                    end in
  match from_env with
  | Some v => Some v
  | None => match from_file with Some v => Some v | None => from_store end
  end.

End SecretSpec.

(* ------------------------------------------------------------------ *)
(** ** Concrete environments used by the examples below *)

Module Fixtures.

(** A network where every request fails to connect. *)
Definition net_down : http := {|
  post := fun _ _ _ => Raise (ReqErr "Connection refused" None);
  get := fun _ _ => Raise (ReqErr "Connection refused" None)
|}.

(** A network answering every request with status 200 and [body]. *)
Definition net_ok (body : json) : http := {|
  post := fun _ _ _ => Ret {| status_code := 200; body := Some body |};
  get := fun _ _ => Ret {| status_code := 200; body := Some body |}
|}.

(** Secrets: one environment variable [env_key] set to [env_val], the
    same mounted file content [file] for every name, the [project_id] of
    [gcp_config.yaml], and a Secret Manager holding [stored] everywhere. *)
Definition secrets_fixture (env_key env_val : string) (file : option string)
    (project : json) (stored : string) : secrets_env := {|
  getenv := fun n => if String.eqb n env_key then Some env_val else None;
  mounted_file := fun _ => file;
  project_id := project;
  secret_store := fun _ _ _ => Ret stored
|}.

(** A listing configuration with the given [max_pages]. *)
Definition listing_config (max_pages : json) : json :=
  JObj [("api_key", JStr "k"); ("node", JStr "12345"); ("max_pages", max_pages);
        ("amazon_domain", JStr "amazon.de"); ("language", JStr "de_DE");
        ("delivery_zip", JStr "10115"); ("sort", JStr "featured")].

(** SerpAPI answering the first [n] calls with a [next] link whose
    [page] parameter is [page], and then with no [next] link. *)
Definition serp_next (n : nat) (page : string) : nat -> list (string * json) -> json :=
  fun call _ =>
    if (call <? n)%nat
    then JObj [("serpapi_pagination",
                JObj [("next", JStr ("https://serpapi.com/search.json?page=" ++ page)%string)])]
    else JObj [].

(** Two products of a listing page: a sponsored one and an organic one
    whose link has the escaped slashes of the SerpAPI JSON. *)
Definition listing_products : list json :=
  [JObj [("position", JInt 1); ("asin", JStr "B01"); ("title", JStr "Kettle");
         ("link", JStr "https://www.amazon.de/sspa/click?ie=UTF8");
         ("price", JObj [("raw", JStr "19,99"); ("currency", JStr "EUR")])];
   JObj [("position", JInt 2); ("asin", JStr "B02"); ("title", JStr "Toaster");
         ("link", JStr "https:\/\/www.amazon.de\/dp\/B02")]].

(** SerpAPI answering every call with one page of [listing_products]
    and no [next] link. *)
Definition serp_products : nat -> list (string * json) -> json :=
  fun _ _ => JObj [("search_parameters", JObj [("node", JStr "12345")]);
                   ("organic_results", JArr listing_products)].

(** A price-API answer whose parsed content lists [offers]. *)
Definition price_response (offers : list json) : json :=
  JObj [("results", JArr [JObj [("content", JObj [("asin", JStr "B01"); ("title", JStr "Kettle");
                                                  ("pricing", JArr offers)])]])].

End Fixtures.

(* ================================================================== *)
(** * Proofs *)

(** ** Computations that do not end the process *)

Lemma no_exit_bind {A B} (m : PyM A) (f : A -> PyM B) :
  no_exit m -> (forall a, no_exit (f a)) -> no_exit (py_bind m f).
Proof. destruct m; simpl; auto. Qed.

Lemma no_exit_try_except {A} (m : PyM A) (h : exn -> PyM A) :
  no_exit m -> (forall e, no_exit (h e)) -> no_exit (try_except m h).
Proof.
  destruct m as [a|e]; simpl; auto.
  destruct (is_Exception e); auto.
Qed.

Lemma no_exit_py_get_d o k d : no_exit (py_get_d o k d).
Proof. destruct o; simpl; trivial. Qed.

Lemma no_exit_py_get o k : no_exit (py_get o k).
Proof. apply no_exit_py_get_d. Qed.

Lemma no_exit_py_in k o : no_exit (py_in k o).
Proof. destruct o; simpl; trivial. Qed.

Lemma no_exit_py_iter o : no_exit (py_iter o).
Proof. destruct o; simpl; trivial. Qed.

Lemma no_exit_mapM_idx {A B} (f : Z -> A -> PyM B) (l : list A) :
  (forall i x, no_exit (f i x)) -> forall i, no_exit (mapM_idx f i l).
Proof.
  intros Hf. induction l as [|x r IH]; intros i; simpl; [exact I|].
  apply no_exit_bind; [apply Hf|]. intros y.
  apply no_exit_bind; [apply IH|]. intros ys. exact I.
Qed.

Create HintDb noexit.
#[export] Hint Resolve no_exit_py_get_d no_exit_py_get no_exit_py_in no_exit_py_iter : noexit.

(** Splits a [no_exit] goal along binds, branches and handlers. *)
Ltac no_exit_tac :=
  repeat match goal with
  | |- no_exit (py_bind _ _) => apply no_exit_bind; [ | intro ]
  | |- no_exit (try_except _ _) => apply no_exit_try_except; [ | intro ]
  | |- no_exit (Ret _) => exact I
  | |- no_exit (if ?b then _ else _) => destruct b
  | |- no_exit (mapM_idx _ _ _) => apply no_exit_mapM_idx; intros
  | |- _ => solve [eauto with noexit]
  end.

(** Walks a hypothesis [m = Ret v] along binds and branches. *)
Ltac ret_inv H :=
  repeat (simpl in H; match type of H with
  | py_bind ?m _ = _ => let E := fresh "E" in destruct m eqn:E; simpl in H; try discriminate H
  | (if ?b then _ else _) = _ => let E := fresh "E" in destruct b eqn:E; try discriminate H
  | Ret _ = Ret _ => injection H as H
  end).

Lemma py_bind_Ret_inv {A B} (m : PyM A) (k : A -> PyM B) r :
  py_bind m k = Ret r -> exists x, m = Ret x /\ k x = Ret r.
Proof. destruct m; simpl; [eauto|discriminate]. Qed.

(** Walks the binds of a hypothesis [m = Ret v], keeping each step. *)
Ltac ret_walk H :=
  repeat (cbv beta zeta in H; match type of H with
          | py_bind _ _ = Ret _ => apply py_bind_Ret_inv in H; destruct H as (? & ? & H)
          end).

(** ** The price-listing worker *)

Lemma price_flatten_no_exit content cl ea nl : no_exit (Price.flatten_pricing content cl ea nl).
Proof. unfold Price.flatten_pricing, Price.offer_row. no_exit_tac. Qed.

Lemma price_no_pricing_row_no_exit asin c cl ea nl :
  no_exit (Price.build_no_pricing_row asin c cl ea nl).
Proof. unfold Price.build_no_pricing_row. no_exit_tac. Qed.

Lemma price_no_pricing_row_ret asin c cl ea nl df :
  Price.build_no_pricing_row asin c cl ea nl = Ret df -> df <> [].
Proof. unfold Price.build_no_pricing_row. intros H. ret_inv H. subst. discriminate. Qed.

Lemma price_call_oxylabs_no_exit net u p d a s e :
  http_no_exit net -> no_exit (Price.call_oxylabs net u p d a s e).
Proof.
  intros [Hpost _]. unfold Price.call_oxylabs.
  apply no_exit_try_except; [|intros; exact I].
  apply no_exit_bind; [apply Hpost|]. intros r.
  apply no_exit_bind; [unfold raise_for_status; destruct (_ && _); exact I|]. intros _.
  unfold resp_json. destruct (body r); exact I.
Qed.

Lemma is_Exception_false e : is_Exception e = false -> no_exit (@Raise unit e) -> False.
Proof. destruct e as [k m|m s]; simpl; try discriminate. destruct k; simpl; try discriminate; auto. Qed.

Lemma no_exit_raise_any {A B} e : no_exit (@Raise A e) -> no_exit (@Raise B e).
Proof. destruct e as [[] m|m s]; simpl; auto. Qed.

(** Every future of the price job returns a non-empty DataFrame:
    [process_asin] turns every exception into an error row. *)
Lemma price_process_asin_ret net throttle asin u p d s e cl nl ea :
  http_no_exit net -> no_exit throttle ->
  exists df err, Price.process_asin net throttle asin u p d s e cl nl ea = Ret (df, err)
                 /\ df <> [].
Proof.
  intros Hn Ht. unfold Price.process_asin.
  match goal with |- context [try_except ?m _] => destruct m as [[df err]|ex] eqn:B end.
  - exists df, err. split; [reflexivity|].
    ret_inv B; subst; try discriminate;
      try (eapply price_no_pricing_row_ret; eassumption).
    all: match goal with
         | E : is_nil ?l = false |- ?l <> [] => destruct l; discriminate
         | _ => idtac
         end.
    all: match goal with
         | E : (if is_nil ?l then _ else _) = Ret ?df |- ?df <> [] =>
             destruct (is_nil l) eqn:N;
             [eapply price_no_pricing_row_ret; exact E
             | injection E as <-; destruct l; discriminate]
         end.
  - simpl. destruct (is_Exception ex) eqn:X.
    + eexists _, _. split; [reflexivity|]. discriminate.
    + exfalso. apply (is_Exception_false ex X). apply (no_exit_raise_any (A := list row * json)).
      rewrite <- B. clear B.
      apply no_exit_bind; [apply price_call_oxylabs_no_exit; exact Hn|]. intros resp.
      no_exit_tac; try exact Ht;
        try apply price_flatten_no_exit; try apply price_no_pricing_row_no_exit.
Qed.

(** ** The collection loops *)

Lemma price_collect_all_ret inputs result order acc fails :
  (forall k, In k order -> exists df err, result k = Ret (df, err) /\ df <> []) ->
  exists dfs, Price.collect inputs result order acc fails = Ret (acc ++ dfs, fails)
              /\ map fst dfs = order /\ Forall (fun d => snd d <> []) dfs
              /\ Forall (fun d => exists err, result (fst d) = Ret (snd d, err)) dfs.
Proof.
  revert acc. induction order as [|k rest IH]; intros acc H; simpl.
  - exists []. rewrite app_nil_r. auto.
  - destruct (H k (or_introl eq_refl)) as (df & err & Hk & Hne). rewrite Hk.
    destruct (is_nil df) eqn:N; [destruct df; [congruence|discriminate]|].
    destruct (IH (acc ++ [(k, df)])) as (dfs & Hc & Hm & Hf & Hr).
    { intros k' Hin. apply H. right. exact Hin. }
    exists ((k, df) :: dfs). rewrite Hc, <- app_assoc. simpl.
    split; [reflexivity|]. split; [now rewrite Hm|].
    split; constructor; eauto.
Qed.

Lemma price_collect_groups inputs result order acc fails dfs fails' :
  Price.collect inputs result order acc fails = Ret (dfs, fails') ->
  Forall (fun d => snd d <> []) acc -> Forall (fun d => snd d <> []) dfs.
Proof.
  revert acc fails. induction order as [|k rest IH]; intros acc fails H Hacc; simpl in H.
  - injection H as <- <-. exact Hacc.
  - destruct (result k) as [[df err]|e].
    + destruct (is_nil df) eqn:N.
      * eapply IH; eauto.
      * eapply IH; [exact H|]. apply Forall_app; split; [exact Hacc|].
        constructor; [|constructor]. simpl. destruct df; discriminate.
    + destruct (is_Exception e); [eapply IH; eauto|discriminate].
Qed.

Lemma concat_groups_nonempty (dfs : list (nat * list row)) :
  dfs <> [] -> Forall (fun d => snd d <> []) dfs -> List.concat (map snd dfs) <> [].
Proof.
  destruct dfs as [|[k df] r]; [congruence|]. intros _ Hf. inversion Hf; subst.
  simpl. destruct df; [contradiction|discriminate].
Qed.

Lemma mapM_lookup {A B} (f : A -> PyM B) (l : list A) (ys : list B) :
  mapM f l = Ret ys ->
  length ys = length l /\
  forall k x, l !! k = Some x -> exists y, ys !! k = Some y /\ f x = Ret y.
Proof.
  revert ys. induction l as [|x r IH]; intros ys H; simpl in H.
  - injection H as <-. split; [reflexivity|]. intros k x Hk. discriminate.
  - destruct (f x) as [y|e] eqn:Fx; [|discriminate]. simpl in H.
    destruct (mapM f r) as [ys'|e] eqn:Fr; [|discriminate]. simpl in H.
    injection H as <-. destruct (IH ys' eq_refl) as [Hl Hk].
    split; [simpl; congruence|].
    intros [|k] x' Hx; simpl in Hx.
    + injection Hx as <-. exists y. auto.
    + apply Hk. exact Hx.
Qed.

Lemma lookup_zip_same {A B} (l : list A) (f : A -> B) k a :
  l !! k = Some a -> zip l (map f l) !! k = Some (a, f a).
Proof.
  revert k. induction l as [|x r IH]; intros [|k] H; simpl in *; try discriminate.
  - injection H as <-. reflexivity.
  - apply IH. exact H.
Qed.

Lemma length_zip_same {A B} (l : list A) (f : A -> B) : length (zip l (map f l)) = length l.
Proof. induction l; simpl; congruence. Qed.

Lemma perm_seq_nonempty (order : list nat) (n : nat) :
  order ≡ₚ seq 0 n -> n <> 0%nat -> order <> [].
Proof.
  intros Hp Hn ->. apply Permutation_length in Hp. rewrite length_seq in Hp. simpl in Hp. lia.
Qed.

(** ** C1: order of the output rows *)

(** C1 (as amended). In the price-listing job the output is the
    concatenation of one non-empty block per item, the block being the
    DataFrame the item's own future returned, and the blocks follow the
    completion order of the futures, not the input order; in the
    product-details job the k-th row is built from the k-th input item
    and the payload stored for it. *)
Theorem C1_rows_grouped_per_item :
  (forall (inputs : list string) (order : list nat) (net : nat -> http)
          (throttle : nat -> PyM unit) (u p : string) (d s : json) (e : string)
          (cl nl ea : json) (no_upload : bool) (bucket : json),
     (forall k, http_no_exit (net k)) -> (forall k, no_exit (throttle k)) ->
     inputs <> [] -> order ≡ₚ seq 0 (length inputs) ->
     no_upload = true \/ truthy bucket = true ->
     exists dfs : list (nat * list row),
       map fst dfs = order /\
       Forall (fun g => snd g <> [] /\
                 exists err, Price.worker_result net throttle inputs u p d s e cl nl ea (fst g)
                             = Ret (snd g, err)) dfs /\
       Price.run_inputs inputs (Price.worker_result net throttle inputs u p d s e cl nl ea)
                        order no_upload bucket
       = Ret (Written (List.concat (map snd dfs)))) /\
  (forall (t : string) (m : gmap string json) (inputs : list string) (cl nl : json)
          (rows : list row),
     Details.normalize_records t (Details.reorder m inputs) inputs cl nl = Ret rows ->
     length rows = length inputs /\
     forall k a, inputs !! k = Some a ->
       exists r, rows !! k = Some r /\
         Details.normalize_one t cl nl a
           (default (JObj [("error", JStr "Missing result")]) (m !! a)) = Ret r).
Proof.
  split.
  - intros inputs order net throttle u p d s e cl nl ea no_upload bucket
      Hn Ht Hi Hp Hout.
    destruct (price_collect_all_ret inputs
                (Price.worker_result net throttle inputs u p d s e cl nl ea) order [] [])
      as (dfs & Hc & Hm & Hf & Hr).
    { intros k _. apply price_process_asin_ret; auto. }
    exists dfs. split; [exact Hm|]. split.
    { apply List.Forall_forall. intros g Hg. split.
      - exact (proj1 (List.Forall_forall _ _) Hf g Hg).
      - exact (proj1 (List.Forall_forall _ _) Hr g Hg). }
    assert (Hne : dfs <> []).
    { intros ->. simpl in Hm. symmetry in Hm. revert Hm.
      apply (perm_seq_nonempty order (length inputs) Hp).
      destruct inputs; [congruence|discriminate]. }
    unfold Price.run_inputs. destruct inputs as [|x r]; [congruence|]. simpl is_nil.
    cbv iota beta. rewrite Hc. simpl py_bind. cbv iota beta. simpl fst.
    destruct dfs as [|g gs]; [congruence|]. simpl is_nil. cbv iota beta.
    pose proof (concat_groups_nonempty (g :: gs) Hne Hf) as Hcat.
    destruct no_upload; [reflexivity|].
    destruct Hout as [Hout|Hout]; [discriminate|]. rewrite Hout.
    change (snd g ++ List.concat (map snd gs)) with (List.concat (map snd (g :: gs))).
    revert Hcat. generalize (List.concat (map snd (g :: gs))). intros l Hl.
    destruct l; [congruence|reflexivity].
  - intros t m inputs cl nl rows H. unfold Details.normalize_records, Details.reorder in H.
    apply mapM_lookup in H as [Hl Hk]. split.
    + rewrite Hl. apply length_zip_same.
    + intros k a Ha. destruct (Hk k _ (lookup_zip_same inputs _ k a Ha)) as (r & Hr & Hf).
      exists r. split; [exact Hr|exact Hf].
Qed.

Lemma net_down_no_exit : http_no_exit Fixtures.net_down.
Proof. split; intros; exact I. Qed.

Lemma net_ok_no_exit b : http_no_exit (Fixtures.net_ok b).
Proof. split; intros; exact I. Qed.

Lemma C1_rows_grouped_per_item_witness :
  (exists dfs : list (nat * list row),
     map fst dfs = [1%nat; 0%nat] /\
     Forall (fun g => snd g <> [] /\
               exists err,
                 Price.worker_result (fun _ => Fixtures.net_down) (fun _ => Ret tt) ["A"; "B"]
                   "user" "pass" (JStr "de") (JStr "amazon_pricing") "https://oxylabs.test"
                   (JStr "cat") JNull (JStr "T") (fst g) = Ret (snd g, err)) dfs /\
     Price.run_inputs ["A"; "B"]
       (Price.worker_result (fun _ => Fixtures.net_down) (fun _ => Ret tt) ["A"; "B"]
          "user" "pass" (JStr "de") (JStr "amazon_pricing") "https://oxylabs.test"
          (JStr "cat") JNull (JStr "T"))
       [1%nat; 0%nat] true JNull
     = Ret (Written (List.concat (map snd dfs)))) /\
  (exists rows,
     Details.normalize_records "T"
       (Details.reorder (<["A" := JObj [("error", JStr "Timeout")]]> ∅) ["A"; "B"])
       ["A"; "B"] JNull JNull = Ret rows /\
     length rows = length ["A"; "B"] /\
     forall k a, ["A"; "B"] !! k = Some a ->
       exists r, rows !! k = Some r /\
         Details.normalize_one "T" JNull JNull a
           (default (JObj [("error", JStr "Missing result")])
              ((<["A" := JObj [("error", JStr "Timeout")]]> ∅ : gmap string json) !! a))
         = Ret r).
Proof.
  split.
  - apply (proj1 C1_rows_grouped_per_item ["A"; "B"] [1%nat; 0%nat]
             (fun _ => Fixtures.net_down) (fun _ => Ret tt) "user" "pass" (JStr "de")
             (JStr "amazon_pricing") "https://oxylabs.test" (JStr "cat") JNull (JStr "T")
             true JNull).
    + intros; apply net_down_no_exit.
    + intros; exact I.
    + discriminate.
    + simpl. apply Permutation_swap.
    + left; reflexivity.
  - exists (match Details.normalize_records "T"
                    (Details.reorder (<["A" := JObj [("error", JStr "Timeout")]]> ∅) ["A"; "B"])
                    ["A"; "B"] JNull JNull with
            | Ret r => r | Raise _ => [] end).
    assert (H : Details.normalize_records "T"
                  (Details.reorder (<["A" := JObj [("error", JStr "Timeout")]]> ∅) ["A"; "B"])
                  ["A"; "B"] JNull JNull
                = Ret (match Details.normalize_records "T"
                               (Details.reorder (<["A" := JObj [("error", JStr "Timeout")]]> ∅)
                                  ["A"; "B"])
                               ["A"; "B"] JNull JNull with Ret r => r | Raise _ => [] end))
      by (vm_compute; reflexivity).
    split; [exact H|].
    exact (proj2 C1_rows_grouped_per_item "T" (<["A" := JObj [("error", JStr "Timeout")]]> ∅)
             ["A"; "B"] JNull JNull _ H).
Defined.

(** C1 (as stated, refuted). Two items whose requests both fail: item
    [B] (position 1) completes first, and the price job writes its row
    before the row of item [A] (position 0). *)
Lemma C1_price_rows_follow_completion_order :
  exists rows,
    Price.run_inputs ["A"; "B"]
      (Price.worker_result (fun _ => Fixtures.net_down) (fun _ => Ret tt) ["A"; "B"]
         "user" "pass" (JStr "de") (JStr "amazon_pricing") "https://oxylabs.test"
         (JStr "cat") JNull (JStr "T"))
      [1%nat; 0%nat] true JNull = Ret (Written rows) /\
    map (assoc "asin") rows = [Some (JStr "B"); Some (JStr "A")].
Proof. eexists. split; reflexivity. Qed.

Lemma price_process_asin_err net throttle asin u p d s e cl nl ea df err :
  Price.process_asin net throttle asin u p d s e cl nl ea = Ret (df, err) ->
  err = JNull \/ df = Price.build_error_row asin cl ea nl err.
Proof.
  unfold Price.process_asin.
  match goal with |- try_except ?m _ = _ -> _ => destruct m as [v|ex] eqn:B end;
    simpl; intros H.
  - injection H as ->. ret_walk B.
    match type of B with (if ?b then _ else _) = _ => destruct b end.
    + ret_walk B. injection B as <- <-. right; reflexivity.
    + ret_walk B. injection B as _ <-. left; reflexivity.
  - destruct (is_Exception ex); [|discriminate]. injection H as <- <-. right; reflexivity.
Qed.

Lemma price_run_inputs_written inputs result order no_upload bucket dfs fails :
  inputs <> [] -> Price.collect inputs result order [] [] = Ret (dfs, fails) ->
  dfs <> [] -> Forall (fun g => snd g <> []) dfs ->
  no_upload = true \/ truthy bucket = true ->
  Price.run_inputs inputs result order no_upload bucket
  = Ret (Written (List.concat (map snd dfs))).
Proof.
  intros Hi Hc Hne Hf Hout.
  unfold Price.run_inputs. destruct inputs as [|x r]; [congruence|]. simpl is_nil.
  cbv iota beta. rewrite Hc. simpl py_bind. cbv iota beta. simpl fst.
  destruct dfs as [|g gs]; [congruence|]. simpl is_nil. cbv iota beta.
  pose proof (concat_groups_nonempty (g :: gs) Hne Hf) as Hcat.
  destruct no_upload; [reflexivity|].
  destruct Hout as [Hout|Hout]; [discriminate|]. rewrite Hout.
  change (snd g ++ List.concat (map snd gs)) with (List.concat (map snd (g :: gs))).
  revert Hcat. generalize (List.concat (map snd (g :: gs))). intros l Hl.
  destruct l; [congruence|reflexivity].
Qed.

Lemma details_exception_row t cl nl asin ex :
  exists r, Details.normalize_one t cl nl asin (JObj [("error", JStr (exn_str ex))]) = Ret r /\
    assoc "item_status" r = Some (JStr "error") /\
    assoc "error_message" r = Some (JStr (exn_str ex)) /\
    assoc "asin" r = Some (JStr asin).
Proof. eexists. split; [reflexivity|]. repeat split; reflexivity. Qed.

(** ** C2: no item is dropped *)

(** C2. With a non-empty input list, the price job keeps exactly one
    non-empty block of rows per input position, the DataFrame its
    future returned; [failures] stays empty and all the blocks are
    written.  Its worker [process_asin] always returns a non-empty
    DataFrame, and an error it reports comes with the error row carrying
    that message; a request that fails with an exception gives the row
    of [str(e)].  In the details job a future that raises an exception
    is stored as [{"error": str(exc)}], whose row has [item_status]
    ["error"] and that message. *)
Theorem C2_every_item_has_rows :
  (forall (inputs : list string) (order : list nat) (net : nat -> http)
          (throttle : nat -> PyM unit) (u p : string) (d s : json) (e : string)
          (cl nl ea : json) (no_upload : bool) (bucket : json),
     (forall k, http_no_exit (net k)) -> (forall k, no_exit (throttle k)) ->
     inputs <> [] -> order ≡ₚ seq 0 (length inputs) ->
     no_upload = true \/ truthy bucket = true ->
     exists dfs,
       Price.collect inputs (Price.worker_result net throttle inputs u p d s e cl nl ea)
                     order [] [] = Ret (dfs, []) /\
       Price.run_inputs inputs (Price.worker_result net throttle inputs u p d s e cl nl ea)
                        order no_upload bucket
       = Ret (Written (List.concat (map snd dfs))) /\
       map fst dfs ≡ₚ seq 0 (length inputs) /\
       forall k, (k < length inputs)%nat ->
         exists df err, In (k, df) dfs /\ df <> [] /\
           Price.worker_result net throttle inputs u p d s e cl nl ea k = Ret (df, err)) /\
  (forall net throttle asin u p d s e cl nl ea,
     http_no_exit net -> no_exit throttle ->
     exists df err, Price.process_asin net throttle asin u p d s e cl nl ea = Ret (df, err) /\
       df <> [] /\ (err = JNull \/ df = Price.build_error_row asin cl ea nl err)) /\
  (forall net throttle asin u p d s e cl nl ea ex,
     (forall auth payload,
        (resp <- post net e auth payload;; _ <- raise_for_status resp;; resp_json resp)
        = Raise ex) ->
     is_Exception ex = true -> throttle = Ret tt ->
     Price.process_asin net throttle asin u p d s e cl nl ea
     = Ret (Price.build_error_row asin cl ea nl (JStr (exn_str ex)), JStr (exn_str ex))) /\
  (forall ex t cl nl asin, is_Exception ex = true ->
     Details.payload_of (Raise ex) = Ret (JObj [("error", JStr (exn_str ex))]) /\
     exists r, Details.normalize_one t cl nl asin (JObj [("error", JStr (exn_str ex))]) = Ret r /\
       assoc "item_status" r = Some (JStr "error") /\
       assoc "error_message" r = Some (JStr (exn_str ex)) /\
       assoc "asin" r = Some (JStr asin)).
Proof.
  split; [|split; [|split]].
  - intros inputs order net throttle u p d s e cl nl ea no_upload bucket Hn Ht Hi Hp Hout.
    destruct (price_collect_all_ret inputs
                (Price.worker_result net throttle inputs u p d s e cl nl ea) order [] [])
      as (dfs & Hc & Hm & Hf & Hr).
    { intros k _. apply price_process_asin_ret; auto. }
    assert (Hne : dfs <> []).
    { intros ->. simpl in Hm. symmetry in Hm. revert Hm.
      apply (perm_seq_nonempty order (length inputs) Hp).
      destruct inputs; [congruence|discriminate]. }
    exists dfs. split; [exact Hc|]. split.
    { exact (price_run_inputs_written _ _ _ _ _ _ _ Hi Hc Hne Hf Hout). }
    split; [rewrite Hm; exact Hp|]. intros k Hk.
    assert (Hin : In k (map fst dfs)).
    { rewrite Hm. apply (Permutation_in _ (Permutation_sym Hp)). apply in_seq. lia. }
    apply in_map_iff in Hin as ([k' df] & Hk' & Hin). simpl in Hk'. subst k'.
    destruct (proj1 (List.Forall_forall _ _) Hr _ Hin) as [err Herr].
    exists df, err. split; [exact Hin|]. split; [|exact Herr].
    exact (proj1 (List.Forall_forall _ _) Hf _ Hin).
  - intros net throttle asin u p d s e cl nl ea Hn Ht.
    destruct (price_process_asin_ret net throttle asin u p d s e cl nl ea Hn Ht)
      as (df & err & H & Hne).
    exists df, err. split; [exact H|]. split; [exact Hne|].
    exact (price_process_asin_err _ _ _ _ _ _ _ _ _ _ _ _ _ H).
  - intros net throttle asin u p d s e cl nl ea ex Hreq Hexc ->. unfold Price.process_asin.
    cbv beta zeta delta [Price.call_oxylabs]. rewrite Hreq. cbn [try_except]. rewrite Hexc.
    reflexivity.
  - intros ex t cl nl asin Hx. split.
    + unfold Details.payload_of. simpl. rewrite Hx. reflexivity.
    + apply details_exception_row.
Qed.

Lemma C2_every_item_has_rows_witness :
  (exists dfs,
     Price.collect ["A"; "B"]
       (Price.worker_result (fun _ => Fixtures.net_down) (fun _ => Ret tt) ["A"; "B"]
          "user" "pass" (JStr "de") (JStr "amazon_pricing") "https://oxylabs.test"
          (JStr "cat") JNull (JStr "T"))
       [1%nat; 0%nat] [] [] = Ret (dfs, []) /\
     Price.run_inputs ["A"; "B"]
       (Price.worker_result (fun _ => Fixtures.net_down) (fun _ => Ret tt) ["A"; "B"]
          "user" "pass" (JStr "de") (JStr "amazon_pricing") "https://oxylabs.test"
          (JStr "cat") JNull (JStr "T"))
       [1%nat; 0%nat] true JNull = Ret (Written (List.concat (map snd dfs))) /\
     map fst dfs ≡ₚ seq 0 (length ["A"; "B"]) /\
     forall k, (k < length ["A"; "B"])%nat ->
       exists df err, In (k, df) dfs /\ df <> [] /\
         Price.worker_result (fun _ => Fixtures.net_down) (fun _ => Ret tt) ["A"; "B"]
           "user" "pass" (JStr "de") (JStr "amazon_pricing") "https://oxylabs.test"
           (JStr "cat") JNull (JStr "T") k = Ret (df, err)) /\
  (exists df err,
     Price.process_asin (Fixtures.net_ok (JObj [("results", JArr [])])) (Ret tt) "A" "user"
       "pass" (JStr "de") (JStr "amazon_pricing") "https://oxylabs.test" (JStr "cat") JNull
       (JStr "T") = Ret (df, err) /\
     df <> [] /\ (err = JNull \/ df = Price.build_error_row "A" (JStr "cat") (JStr "T") JNull err)) /\
  Price.process_asin Fixtures.net_down (Ret tt) "A" "user" "pass" (JStr "de")
    (JStr "amazon_pricing") "https://oxylabs.test" (JStr "cat") JNull (JStr "T")
  = Ret (Price.build_error_row "A" (JStr "cat") (JStr "T") JNull
           (JStr (exn_str (ReqErr "Connection refused" None))),
         JStr (exn_str (ReqErr "Connection refused" None))) /\
  (Details.payload_of (Raise (PyErr ValueError "boom"))
   = Ret (JObj [("error", JStr (exn_str (PyErr ValueError "boom")))]) /\
   exists r, Details.normalize_one "T" JNull JNull "A"
               (JObj [("error", JStr (exn_str (PyErr ValueError "boom")))]) = Ret r /\
     assoc "item_status" r = Some (JStr "error") /\
     assoc "error_message" r = Some (JStr (exn_str (PyErr ValueError "boom"))) /\
     assoc "asin" r = Some (JStr "A")).
Proof.
  split; [|split; [|split]].
  - apply (proj1 C2_every_item_has_rows ["A"; "B"] [1%nat; 0%nat]
             (fun _ => Fixtures.net_down) (fun _ => Ret tt) "user" "pass" (JStr "de")
             (JStr "amazon_pricing") "https://oxylabs.test" (JStr "cat") JNull (JStr "T")
             true JNull).
    + intros; apply net_down_no_exit.
    + intros; exact I.
    + discriminate.
    + simpl. apply Permutation_swap.
    + left; reflexivity.
  - apply (proj1 (proj2 C2_every_item_has_rows)).
    + apply net_ok_no_exit.
    + exact I.
  - apply (proj1 (proj2 (proj2 C2_every_item_has_rows))).
    + intros auth payload. reflexivity.
    + reflexivity.
    + reflexivity.
  - apply (proj2 (proj2 (proj2 C2_every_item_has_rows))). reflexivity.
Defined.

(** ** C3: adapters return error values *)

(** C3 (code bug). [call_axesso] encodes the item before its [try]: for an
    item without a scheme separator, such as the ID [123456789], the
    unpacking in [_encode_otto_url] raises [ValueError] whatever the
    network does, and the exception leaves the adapter; the same network
    failure on a URL item is turned into the error dict. *)
Theorem C3_call_axesso_raises_on_id :
  (forall (net : http) (endpoint api_key : string),
     M2.call_axesso net endpoint api_key "123456789"
     = Raise (PyErr ValueError "not enough values to unpack (expected 2, got 1)")) /\
  M2.call_axesso Fixtures.net_down "https://axesso.test" "key" "https://www.otto.de/p/123456789"
  = Ret (JObj [("error", JStr "Connection refused"); ("status_code", JNull)]).
Proof. split; [intros; reflexivity|reflexivity]. Qed.

(** ** C4: runs without output *)

(** C4 (as amended). An empty input list ends the price job and the
    details job normally with nothing written.  With a non-empty input list the job never ends
    normally without output: when no DataFrame was collected it calls
    [sys.exit] with a message (exit status 1), and whatever it writes is
    non-empty. *)
Theorem C4_zero_output_runs :
  (forall result order no_upload bucket,
     Price.run_inputs [] result order no_upload bucket = Ret NoOutput) /\
  (forall t result order cl nl no_upload bucket,
     Details.run_inputs t [] result order cl nl no_upload bucket = Ret NoOutput) /\
  (forall inputs result order no_upload bucket fails,
     inputs <> [] -> Price.collect inputs result order [] [] = Ret ([], fails) ->
     Price.run_inputs inputs result order no_upload bucket
     = sys_exit "No data to save (all requests failed or returned empty).") /\
  (forall inputs result order no_upload bucket,
     inputs <> [] ->
     Price.run_inputs inputs result order no_upload bucket <> Ret NoOutput /\
     forall rows, Price.run_inputs inputs result order no_upload bucket = Ret (Written rows) ->
       rows <> []).
Proof.
  split; [|split; [|split]].
  - intros. reflexivity.
  - intros. reflexivity.
  - intros inputs result order no_upload bucket fails Hi Hc.
    unfold Price.run_inputs. destruct inputs; [congruence|]. simpl is_nil. cbv iota.
    rewrite Hc. reflexivity.
  - intros inputs result order no_upload bucket Hi.
    unfold Price.run_inputs. destruct inputs; [congruence|]. simpl is_nil. cbv iota.
    destruct (Price.collect _ result order [] []) as [[dfs fails]|ex] eqn:Hc;
      [|split; [discriminate|intros ? H; discriminate]].
    pose proof (price_collect_groups _ _ _ _ _ _ _ Hc (List.Forall_nil _)) as Hf.
    simpl py_bind. cbv beta. simpl fst.
    destruct dfs as [|g gs]; [split; [discriminate|intros ? H; discriminate]|].
    pose proof (concat_groups_nonempty (g :: gs) ltac:(discriminate) Hf) as Hcat.
    revert Hcat. cbv iota beta zeta. simpl is_nil. cbv iota.
    try change (snd g ++ List.concat (map snd gs)) with (List.concat (map snd (g :: gs))).
    generalize (List.concat (map snd (g :: gs))). intros l Hl.
    destruct no_upload; [|destruct (truthy bucket)].
    + split; [discriminate|]. intros rows H. injection H as <-. exact Hl.
    + destruct l as [|r l]; [congruence|]. simpl is_nil. cbv iota. split; [discriminate|].
      intros rows H. injection H as <-. exact Hl.
    + split; discriminate.
Qed.

Lemma C4_zero_output_runs_witness :
  Price.run_inputs [] (fun _ => Raise (PyErr ValueError "boom")) [] false JNull = Ret NoOutput /\
  Details.run_inputs "T" [] (fun _ => Raise (PyErr ValueError "boom")) [] JNull JNull false JNull
  = Ret NoOutput /\
  Price.run_inputs ["A"] (fun _ => Raise (PyErr ValueError "boom")) [0%nat] true JNull
  = sys_exit "No data to save (all requests failed or returned empty)." /\
  (Price.run_inputs ["A"] (fun _ => Raise (PyErr ValueError "boom")) [0%nat] true JNull
   <> Ret NoOutput /\
   forall rows,
     Price.run_inputs ["A"] (fun _ => Raise (PyErr ValueError "boom")) [0%nat] true JNull
     = Ret (Written rows) -> rows <> []).
Proof.
  split; [|split; [|split]].
  - apply (proj1 C4_zero_output_runs).
  - apply (proj1 (proj2 C4_zero_output_runs)).
  - apply (proj1 (proj2 (proj2 C4_zero_output_runs)) ["A"] _ [0%nat] true JNull ["A"]).
    + discriminate.
    + reflexivity.
  - apply (proj2 (proj2 (proj2 C4_zero_output_runs)) ["A"] _ [0%nat] true JNull). discriminate.
Defined.

(** C4 (as stated, refuted). An empty input list is not a failure: both
    jobs return normally and write nothing. *)
Lemma C4_empty_inputs_end_normally :
  Price.run_inputs [] (fun _ => Ret ([], JNull)) [] true JNull = Ret NoOutput /\
  Details.run_inputs "T" [] (fun _ => Ret JNull) [] JNull JNull true JNull = Ret NoOutput.
Proof. split; reflexivity. Qed.

(** ** C5: secret tiers *)

(** C5 (as amended). The price job's [load_secret] tries the environment
    variables of [env_candidates] ([secret_name] upper-cased with [-] as
    [_], then [OXYLABS_USERNAME] / [OXYLABS_PASSWORD] when the name
    contains [username] / [password]) and returns the first non-empty
    value as it is; otherwise it falls back to the mounted file and the
    Secret Manager.  That fallback, which is the whole loader of the
    details and marketplace2 jobs (they have no environment tier), returns
    the stripped content of an existing mounted file, even an empty one,
    else the stripped Secret Manager value at [(project, name, "latest")],
    and raises [ValueError] when [project_id] is missing. *)
Theorem C5_secret_tiers :
  (forall w n v, Secrets.first_env w (Secrets.env_candidates n) = Some v ->
     Price.load_secret w n = Ret v) /\
  (forall w n, Secrets.first_env w (Secrets.env_candidates n) = None ->
     Price.load_secret w n = Secrets.file_then_store w n) /\
  (forall w n, Details.load_secret w n = Secrets.file_then_store w n /\
               M2.load_axesso_api_key w n = Secrets.file_then_store w n) /\
  (forall w n t, mounted_file w (Secrets.mount_path n) = Some t ->
     Secrets.file_then_store w n = Ret (strip t)) /\
  (forall w n, mounted_file w (Secrets.mount_path n) = None -> truthy (project_id w) = true ->
     Secrets.file_then_store w n = py_map strip (secret_store w (project_id w) n "latest")) /\
  (forall w n, mounted_file w (Secrets.mount_path n) = None -> truthy (project_id w) = false ->
     Secrets.file_then_store w n
     = Raise (PyErr ValueError "GCP 'project_id' missing in gcp_config.yaml.")).
Proof.
  split; [|split; [|split; [|split; [|split]]]].
  - intros w n v H. unfold Price.load_secret. rewrite H. reflexivity.
  - intros w n H. unfold Price.load_secret. rewrite H. reflexivity.
  - intros w n. split; reflexivity.
  - intros w n t H. unfold Secrets.file_then_store. rewrite H. reflexivity.
  - intros w n H Hp. unfold Secrets.file_then_store. rewrite H, Hp.
    destruct (secret_store w (project_id w) n "latest"); reflexivity.
  - intros w n H Hp. unfold Secrets.file_then_store. rewrite H, Hp. reflexivity.
Qed.

Lemma C5_secret_tiers_witness :
  Price.load_secret (Fixtures.secrets_fixture "OXYLABS_USERNAME" "u1" None JNull "s")
    "oxylabs-username" = Ret "u1" /\
  Price.load_secret (Fixtures.secrets_fixture "X" "u1" None JNull "s") "oxylabs-username"
    = Secrets.file_then_store (Fixtures.secrets_fixture "X" "u1" None JNull "s")
        "oxylabs-username" /\
  (Details.load_secret (Fixtures.secrets_fixture "X" "u1" None JNull "s") "k"
   = Secrets.file_then_store (Fixtures.secrets_fixture "X" "u1" None JNull "s") "k" /\
   M2.load_axesso_api_key (Fixtures.secrets_fixture "X" "u1" None JNull "s") "k"
   = Secrets.file_then_store (Fixtures.secrets_fixture "X" "u1" None JNull "s") "k") /\
  Secrets.file_then_store (Fixtures.secrets_fixture "X" "u1" (Some " pw
") JNull "s") "k"
    = Ret (strip " pw
") /\
  Secrets.file_then_store (Fixtures.secrets_fixture "X" "u1" None (JStr "proj") " key ") "k"
    = py_map strip (secret_store (Fixtures.secrets_fixture "X" "u1" None (JStr "proj") " key ")
                     (project_id (Fixtures.secrets_fixture "X" "u1" None (JStr "proj") " key "))
                     "k" "latest") /\
  Secrets.file_then_store (Fixtures.secrets_fixture "X" "u1" None JNull "s") "k"
    = Raise (PyErr ValueError "GCP 'project_id' missing in gcp_config.yaml.").
Proof.
  destruct C5_secret_tiers as (Ha & Hb & Hc & Hd & He & Hf).
  split; [|split; [|split; [|split; [|split]]]].
  - apply Ha. reflexivity.
  - apply Hb. reflexivity.
  - apply Hc.
  - apply Hd. reflexivity.
  - apply He; reflexivity.
  - apply Hf; reflexivity.
Defined.

(** C5 (as stated, refuted).  With [A_B] set in the environment and no
    mounted file, the price job asks the Secret Manager for [a.b] (its
    candidate is [A.B]), and the details job never reads the environment;
    the described resolver returns the environment value in both cases. *)
Lemma C5_env_tier_not_as_described :
  Price.load_secret (Fixtures.secrets_fixture "A_B" "from-env" None (JStr "p") "from-store")
    "a.b" = Ret "from-store" /\
  SecretSpec.resolve (Fixtures.secrets_fixture "A_B" "from-env" None (JStr "p") "from-store")
    "a.b" = Some "from-env" /\
  Details.load_secret
    (Fixtures.secrets_fixture "DETAILS_KEY" "from-env" None (JStr "p") "from-store")
    "details-key" = Ret "from-store" /\
  SecretSpec.resolve
    (Fixtures.secrets_fixture "DETAILS_KEY" "from-env" None (JStr "p") "from-store")
    "details-key" = Some "from-env".
Proof. repeat split; reflexivity. Qed.

(** ** C6: worker count *)

Lemma effective_max_workers_int (d : Z) (cli cfg : option Z) :
  1 <= d ->
  let pick := fun (o : option Z) (dflt : Z) =>
    match o with Some z => if Z.eqb z 0 then dflt else z | None => dflt end in
  effective_max_workers d cli (match cfg with Some z => JInt z | None => JNull end)
  = Ret (JInt (Z.max 1 (pick cli (pick cfg d)))).
Proof.
  intros Hd pick. unfold effective_max_workers, py_or, pick.
  destruct cli as [c|]; [destruct (Z.eqb_spec c 0)|];
    destruct cfg as [g|]; try destruct (Z.eqb_spec g 0);
    subst; simpl truthy; cbn -[Z.max];
    repeat match goal with
    | H : ?z <> 0 |- context [negb (Z.eqb ?z 0)] =>
        rewrite (proj2 (Z.eqb_neq z 0) H); cbn -[Z.max]
    end;
    match goal with
    | |- context [Z.ltb ?z 1] => destruct (Z.ltb_spec z 1)
    end; f_equal; f_equal; lia.
Qed.

(** C6 (as amended). For integer settings (the [--max-workers] option and
    the [max_workers] config entry, each possibly absent), the worker count
    is the first non-zero value among the option, the config entry and the
    default (8 in the price job, 6 in the details job), raised to 1 when
    it is below 1: a negative value becomes 1, a value of 0 is skipped. *)
Theorem C6_max_workers_clamp :
  forall cli cfg : option Z,
    let pick := fun (o : option Z) (dflt : Z) =>
      match o with Some z => if Z.eqb z 0 then dflt else z | None => dflt end in
    let cfg_v := match cfg with Some z => JInt z | None => JNull end in
    Price.max_workers cli cfg_v = Ret (JInt (Z.max 1 (pick cli (pick cfg 8)))) /\
    Details.max_workers cli cfg_v = Ret (JInt (Z.max 1 (pick cli (pick cfg 6)))).
Proof.
  intros cli cfg pick cfg_v. split.
  - apply (effective_max_workers_int 8 cli cfg). lia.
  - apply (effective_max_workers_int 6 cli cfg). lia.
Qed.

(** C6 (as stated, refuted). [--max-workers 0] is not clamped to 1: it is
    falsy, so the default is used. *)
Lemma C6_zero_not_clamped :
  Price.max_workers (Some 0) JNull = Ret (JInt 8) /\
  Details.max_workers (Some 0) JNull = Ret (JInt 6) /\
  Price.max_workers None (JInt 0) = Ret (JInt 8).
Proof. repeat split; reflexivity. Qed.

(** ** Chains of binds *)

Lemma py_map_bind {A B C} (f : B -> C) (m : PyM A) (k : A -> PyM B) :
  py_map f (py_bind m k) = py_bind m (fun x => py_map f (k x)).
Proof. destruct m; reflexivity. Qed.
Lemma py_bind_ext {A B} (m : PyM A) (k1 k2 : A -> PyM B) :
  (forall x, k1 x = k2 x) -> py_bind m k1 = py_bind m k2.
Proof. intros H. destruct m; simpl; auto. Qed.
(** Goes through the binds of [m1 = py_map f m2] when [m1] and [m2] run
    the same steps. *)
Ltac bind_congr :=
  repeat (cbv beta zeta; rewrite py_map_bind; apply py_bind_ext; intros ?).
(** ** Rows of the details normalizer *)

Lemma details_normalize_one_timestamp t1 t2 cl nl a p :
  Details.normalize_one t1 cl nl a p
  = py_map (assoc_set "extracted_at" (JStr t1)) (Details.normalize_one t2 cl nl a p).
Proof. unfold Details.normalize_one. bind_congr. reflexivity. Qed.
Lemma details_normalize_one_fields t cl nl a p r :
  Details.normalize_one t cl nl a p = Ret r ->
  assoc "extracted_at" r = Some (JStr t) /\
  assoc "payload_raw" r = Some (JStr (Json.dumps p)).
Proof.
  unfold Details.normalize_one. intros H. ret_walk H.
  injection H as <-. split; reflexivity.
Qed.
(** ** Rows of the price job *)

Lemma mapM_idx_Forall {A B} (P : B -> Prop) (f : Z -> A -> PyM B) (l : list A) :
  (forall i x y, f i x = Ret y -> P y) -> forall i ys, mapM_idx f i l = Ret ys -> Forall P ys.
Proof.
  intros Hf. induction l as [|x r IH]; intros i ys H; simpl in H.
  - injection H as <-. constructor.
  - apply py_bind_Ret_inv in H as (y & Hy & H).
    apply py_bind_Ret_inv in H as (ys' & Hys & H). injection H as <-.
    constructor; [eapply Hf; eauto|eapply IH; eauto].
Qed.
Lemma mapM_Forall {A B} (P : B -> Prop) (f : A -> PyM B) (l : list A) ys :
  (forall x y, f x = Ret y -> P y) -> mapM f l = Ret ys -> Forall P ys.
Proof.
  intros Hf. revert ys. induction l as [|x r IH]; intros ys H; simpl in H.
  - injection H as <-. constructor.
  - apply py_bind_Ret_inv in H as (y & Hy & H).
    apply py_bind_Ret_inv in H as (ys' & Hys & H). injection H as <-.
    constructor; [eapply Hf; eauto|apply IH; exact Hys].
Qed.

Lemma Forall_concat_rows (P : row -> Prop) (groups : list (list row)) :
  Forall (Forall P) groups -> Forall P (List.concat groups).
Proof.
  induction 1 as [|g gs Hg _ IH]; simpl; [constructor|].
  apply Forall_app; split; assumption.
Qed.
Lemma price_offer_row_no_raw content offer cl ea nl i k d r :
  Price.offer_row content offer cl ea nl i k d = Ret r -> assoc "payload_raw" r = None.
Proof.
  unfold Price.offer_row. intros H. ret_walk H. injection H as <-. reflexivity.
Qed.
Lemma price_flatten_no_raw content cl ea nl df :
  Price.flatten_pricing content cl ea nl = Ret df ->
  Forall (fun r => assoc "payload_raw" r = None) df.
Proof.
  unfold Price.flatten_pricing. intros H.
  destruct (negb (truthy content)); [injection H as <-; constructor|].
  apply py_bind_Ret_inv in H as (hp & _ & H).
  destruct (negb hp); [injection H as <-; constructor|].
  ret_walk H. injection H as <-. apply Forall_concat_rows.
  eapply mapM_idx_Forall; [|eassumption].
  intros i offer y Hy. ret_walk Hy.
  eapply mapM_idx_Forall; [|exact Hy].
  intros; eapply price_offer_row_no_raw; eassumption.
Qed.
(** ** The payloads of the details job *)

Lemma details_collect_lookup inputs result order m0 m a :
  Details.collect inputs result order m0 = Ret m ->
  m !! a = match Details.last_done inputs order a with
           | Some k => match Details.payload_of (result k) with
                       | Ret p => Some p | Raise _ => None end
           | None => m0 !! a
           end.
Proof.
  unfold Details.last_done. revert m0.
  induction order as [|k rest IH]; intros m0 H; simpl in H.
  - injection H as <-. reflexivity.
  - apply py_bind_Ret_inv in H as (p & Hp & H). rewrite (IH _ H).
    rewrite filter_cons. case_decide as Heq.
    + rewrite last_cons. destruct (last (filter _ rest)) as [k'|]; [reflexivity|].
      rewrite Hp. apply String.eqb_eq in Heq. rewrite Heq. apply lookup_insert_eq.
    + destruct (last (filter _ rest)) as [k'|]; [reflexivity|].
      apply lookup_insert_ne. intros E. apply Heq. rewrite E. apply String.eqb_refl.
Qed.

Lemma details_collect_all_ret inputs result order m0 m :
  Details.collect inputs result order m0 = Ret m ->
  forall k, In k order -> exists p, Details.payload_of (result k) = Ret p.
Proof.
  revert m0. induction order as [|k0 rest IH]; intros m0 H k Hk; simpl in H; [destruct Hk|].
  apply py_bind_Ret_inv in H as (p & Hp & H).
  destruct Hk as [<-|Hk]; [eauto|eapply IH; eauto].
Qed.

Lemma lookup_map_Some {A B} (f : A -> B) (l : list A) i x :
  l !! i = Some x -> map f l !! i = Some (f x).
Proof.
  revert i. induction l as [|y r IH]; intros [|i] H; simpl in *; try discriminate.
  - injection H as <-. reflexivity.
  - apply IH. exact H.
Qed.

Lemma Forall_error_row_no_raw asin cl ea nl msg :
  Forall (fun r => assoc "payload_raw" r = None) (Price.build_error_row asin cl ea nl msg).
Proof. constructor; [reflexivity|constructor]. Qed.

Lemma price_process_asin_no_raw net throttle asin u p d s e cl nl ea df err :
  Price.process_asin net throttle asin u p d s e cl nl ea = Ret (df, err) ->
  Forall (fun r => assoc "payload_raw" r = None) df.
Proof.
  unfold Price.process_asin.
  match goal with |- try_except ?m _ = _ -> _ => destruct m as [v|ex] eqn:B end;
    simpl; intros H.
  - injection H as ->. ret_walk B.
    match type of B with (if ?b then _ else _) = _ => destruct b end.
    + ret_walk B. injection B as <- <-. apply Forall_error_row_no_raw.
    + ret_walk B. injection B as <- <-.
      match goal with
      | E : (if is_nil ?l then _ else _) = Ret _ |- _ =>
          destruct (is_nil l);
          [unfold Price.build_no_pricing_row in E; ret_walk E; injection E as <-;
           constructor; [reflexivity|constructor]
          |injection E as <-; eapply price_flatten_no_raw; eassumption]
      end.
  - destruct (is_Exception ex); [|discriminate]. injection H as <- <-.
    apply Forall_error_row_no_raw.
Qed.

Lemma truthy_obj_assoc kv k v : assoc k kv = Some v -> truthy (JObj kv) = true.
Proof. destruct kv; [discriminate|reflexivity]. Qed.

Lemma py_get_obj_agree kv1 kv2 k :
  assoc k kv1 = assoc k kv2 -> py_get (JObj kv1) k = py_get (JObj kv2) k.
Proof. intros H. unfold py_get, py_get_d. rewrite H. reflexivity. Qed.

Lemma mapM_idx_ext {A B} (f g : Z -> A -> PyM B) i l :
  (forall j x, f j x = g j x) -> mapM_idx f i l = mapM_idx g i l.
Proof.
  intros H. revert i. induction l as [|x r IH]; intros i; simpl; [reflexivity|].
  rewrite H, IH. reflexivity.
Qed.

Lemma py_or_obj kv : py_or (JObj kv) (JObj []) = JObj kv.
Proof. destruct kv; reflexivity. Qed.

Lemma price_offer_row_agree kv1 kv2 offer cl ea nl i j dopt :
  (forall k, In k ["asin"; "title"; "url"; "review_count"] -> assoc k kv1 = assoc k kv2) ->
  Price.offer_row (JObj kv1) offer cl ea nl i j dopt
  = Price.offer_row (JObj kv2) offer cl ea nl i j dopt.
Proof.
  intros H. unfold Price.offer_row.
  rewrite (py_get_obj_agree kv1 kv2 "asin"), (py_get_obj_agree kv1 kv2 "title"),
    (py_get_obj_agree kv1 kv2 "url"), (py_get_obj_agree kv1 kv2 "review_count")
    by (apply H; simpl; tauto).
  reflexivity.
Qed.

Lemma price_flatten_none kv cl ea nl :
  assoc "pricing" kv = None -> Price.flatten_pricing (JObj kv) cl ea nl = Ret [].
Proof.
  intros H. unfold Price.flatten_pricing.
  destruct (negb (truthy (JObj kv))); [reflexivity|].
  assert (E : py_in "pricing" (JObj kv) = Ret false) by (simpl; rewrite H; reflexivity).
  rewrite E. reflexivity.
Qed.

Lemma price_flatten_agree kv1 kv2 cl ea nl :
  (forall k, In k ["asin"; "title"; "url"; "review_count"; "pricing"] ->
     assoc k kv1 = assoc k kv2) ->
  Price.flatten_pricing (JObj kv1) cl ea nl = Price.flatten_pricing (JObj kv2) cl ea nl.
Proof.
  intros H. assert (Hp : assoc "pricing" kv1 = assoc "pricing" kv2) by (apply H; simpl; tauto).
  destruct (assoc "pricing" kv1) as [v|] eqn:P1.
  - symmetry in Hp. unfold Price.flatten_pricing.
    rewrite (truthy_obj_assoc _ _ _ P1), (truthy_obj_assoc _ _ _ Hp). cbn [negb].
    assert (E1 : py_in "pricing" (JObj kv1) = Ret true) by (simpl; rewrite P1; reflexivity).
    assert (E2 : py_in "pricing" (JObj kv2) = Ret true) by (simpl; rewrite Hp; reflexivity).
    assert (G1 : py_get_d (JObj kv1) "pricing" (JArr []) = Ret v)
      by (simpl; rewrite P1; reflexivity).
    assert (G2 : py_get_d (JObj kv2) "pricing" (JArr []) = Ret v)
      by (simpl; rewrite Hp; reflexivity).
    rewrite E1, E2. cbn [py_bind negb]. rewrite G1, G2. cbn [py_bind].
    destruct (py_iter v) as [offers|ex]; cbn [py_bind]; [|reflexivity].
    f_equal. apply mapM_idx_ext. intros j o.
    destruct (py_get_d o "delivery_options" (JArr [JNull])) as [dl|ex]; cbn [py_bind];
      [|reflexivity].
    destruct (py_iter dl) as [ds|ex]; cbn [py_bind]; [|reflexivity].
    apply mapM_idx_ext. intros. apply price_offer_row_agree.
    intros k Hk. apply H. simpl in *. tauto.
  - rewrite (price_flatten_none _ _ _ _ P1), (price_flatten_none _ _ _ _ (eq_sym Hp)).
    reflexivity.
Qed.

Lemma price_no_pricing_row_agree asin kv1 kv2 cl ea nl :
  (forall k, In k ["asin"; "title"; "url"; "review_count"] -> assoc k kv1 = assoc k kv2) ->
  Price.build_no_pricing_row asin (JObj kv1) cl ea nl
  = Price.build_no_pricing_row asin (JObj kv2) cl ea nl.
Proof.
  intros H. unfold Price.build_no_pricing_row. cbv zeta. rewrite !py_or_obj.
  rewrite (py_get_obj_agree kv1 kv2 "asin"), (py_get_obj_agree kv1 kv2 "title"),
    (py_get_obj_agree kv1 kv2 "url"), (py_get_obj_agree kv1 kv2 "review_count")
    by (apply H; simpl; tauto).
  reflexivity.
Qed.

(** ** C7: the raw payload *)

(** C7 (as amended). Every row of the details normalizer carries
    [payload_raw], the [json.dumps] of the payload paired with its item,
    in every branch.  The price job does not keep the raw response: its
    rows have no [payload_raw] column, and two successful responses (no
    ["error"] key) whose contents agree on [asin], [title], [url],
    [review_count] and [pricing] give the same rows and error, whatever
    else they hold. *)
Theorem C7_raw_payload_kept_by_details_only :
  (forall t raw inputs cl nl rows,
     Details.normalize_records t raw inputs cl nl = Ret rows ->
     forall k a p, inputs !! k = Some a -> raw !! k = Some p ->
       exists r, rows !! k = Some r /\ assoc "payload_raw" r = Some (JStr (Json.dumps p))) /\
  (forall net throttle asin u pw d s e cl nl ea df err,
     Price.process_asin net throttle asin u pw d s e cl nl ea = Ret (df, err) ->
     Forall (fun r => assoc "payload_raw" r = None) df) /\
  (forall net1 net2 throttle asin u pw d s e cl nl ea r1 r2 kv1 kv2,
     Price.call_oxylabs net1 u pw d asin s e = Ret r1 ->
     Price.call_oxylabs net2 u pw d asin s e = Ret r2 ->
     py_in "error" r1 = Ret false -> py_in "error" r2 = Ret false ->
     Price.extract_content r1 = JObj kv1 -> Price.extract_content r2 = JObj kv2 ->
     (forall k, In k ["asin"; "title"; "url"; "review_count"; "pricing"] ->
        assoc k kv1 = assoc k kv2) ->
     Price.process_asin net1 throttle asin u pw d s e cl nl ea
     = Price.process_asin net2 throttle asin u pw d s e cl nl ea).
Proof.
  split; [|split].
  - intros t raw inputs cl nl rows H k a p Ha Hp.
    unfold Details.normalize_records in H. apply mapM_lookup in H as [_ Hk].
    destruct (Hk k _ (proj2 (lookup_zip_Some inputs raw k a p) (conj Ha Hp))) as (r & Hr & Hn).
    exists r. split; [exact Hr|]. exact (proj2 (details_normalize_one_fields _ _ _ _ _ _ Hn)).
  - intros. eapply price_process_asin_no_raw. eassumption.
  - intros net1 net2 throttle asin u pw d s e cl nl ea r1 r2 kv1 kv2 C1 C2 E1 E2 X1 X2 H.
    unfold Price.process_asin. rewrite C1, C2. cbn [py_bind]. rewrite E1, E2.
    cbn [py_bind]. cbv zeta. rewrite X1, X2.
    rewrite (price_flatten_agree kv1 kv2) by exact H.
    rewrite (price_no_pricing_row_agree asin kv1 kv2)
      by (intros k Hk; apply H; simpl in *; tauto).
    reflexivity.
Qed.

Lemma C7_raw_payload_kept_by_details_only_witness :
  (exists rows,
     Details.normalize_records "T" [JObj [("error", JStr "Timeout")]] ["A"] JNull JNull
       = Ret rows /\
     exists r, rows !! 0%nat = Some r /\
       assoc "payload_raw" r = Some (JStr (Json.dumps (JObj [("error", JStr "Timeout")])))) /\
  Forall (fun r => assoc "payload_raw" r = None)
    (Price.build_error_row "A" (JStr "cat") (JStr "T") JNull (JStr "Connection refused")) /\
  Price.process_asin (Fixtures.net_ok (JObj [("results", JArr [JObj [("content",
          JObj [("asin", JStr "A"); ("pricing", JArr [])])]])]))
    (Ret tt) "A" "user" "pass" (JStr "de") (JStr "amazon_pricing") "https://oxylabs.test"
    (JStr "cat") JNull (JStr "T")
  = Price.process_asin (Fixtures.net_ok (JObj [("job", JStr "j1"); ("results", JArr [JObj [("content",
          JObj [("asin", JStr "A"); ("brand", JStr "Acme"); ("pricing", JArr [])])]])]))
    (Ret tt) "A" "user" "pass" (JStr "de") (JStr "amazon_pricing") "https://oxylabs.test"
    (JStr "cat") JNull (JStr "T").
Proof.
  split; [|split].
  - exists (match Details.normalize_records "T" [JObj [("error", JStr "Timeout")]] ["A"]
                    JNull JNull with Ret r => r | Raise _ => [] end).
    assert (H : Details.normalize_records "T" [JObj [("error", JStr "Timeout")]] ["A"] JNull JNull
                = Ret (match Details.normalize_records "T" [JObj [("error", JStr "Timeout")]]
                               ["A"] JNull JNull with Ret r => r | Raise _ => [] end))
      by (vm_compute; reflexivity).
    split; [exact H|].
    exact (proj1 C7_raw_payload_kept_by_details_only _ _ _ _ _ _ H 0%nat "A" _
             eq_refl eq_refl).
  - apply (proj1 (proj2 C7_raw_payload_kept_by_details_only) Fixtures.net_down (Ret tt) "A"
             "user" "pass" (JStr "de") (JStr "amazon_pricing") "https://oxylabs.test"
             (JStr "cat") JNull (JStr "T") _ (JStr "Connection refused")).
    reflexivity.
  - apply (proj2 (proj2 C7_raw_payload_kept_by_details_only)
             (Fixtures.net_ok (JObj [("results", JArr [JObj [("content",
          JObj [("asin", JStr "A"); ("pricing", JArr [])])]])])) (Fixtures.net_ok (JObj [("job", JStr "j1"); ("results", JArr [JObj [("content",
          JObj [("asin", JStr "A"); ("brand", JStr "Acme"); ("pricing", JArr [])])]])])) (Ret tt) "A" "user" "pass" (JStr "de")
             (JStr "amazon_pricing") "https://oxylabs.test" (JStr "cat") JNull (JStr "T")
             (JObj [("results", JArr [JObj [("content",
          JObj [("asin", JStr "A"); ("pricing", JArr [])])]])]) (JObj [("job", JStr "j1"); ("results", JArr [JObj [("content",
          JObj [("asin", JStr "A"); ("brand", JStr "Acme"); ("pricing", JArr [])])]])])
             [("asin", JStr "A"); ("pricing", JArr [])]
             [("asin", JStr "A"); ("brand", JStr "Acme"); ("pricing", JArr [])]);
      try reflexivity.
    intros k Hk. simpl in Hk.
    repeat (destruct Hk as [<-|Hk]; [reflexivity|]). destruct Hk.
Defined.

(** C7 (as stated, refuted). Two Oxylabs responses that differ in a field
    the price job does not flatten ([brand]) give the same rows: the
    response is not kept. *)
Lemma C7_price_rows_lose_payload :
  JObj [("results", JArr [JObj [("content",
          JObj [("asin", JStr "A"); ("pricing", JArr [])])]])]
  <> JObj [("results", JArr [JObj [("content",
          JObj [("asin", JStr "A"); ("brand", JStr "Acme"); ("pricing", JArr [])])]])] /\
  Price.process_asin
    (Fixtures.net_ok (JObj [("results", JArr [JObj [("content",
       JObj [("asin", JStr "A"); ("pricing", JArr [])])]])]))
    (Ret tt) "A" "user" "pass" (JStr "de") (JStr "amazon_pricing") "https://oxylabs.test"
    (JStr "cat") JNull (JStr "T")
  = Price.process_asin
    (Fixtures.net_ok (JObj [("results", JArr [JObj [("content",
       JObj [("asin", JStr "A"); ("brand", JStr "Acme"); ("pricing", JArr [])])]])]))
    (Ret tt) "A" "user" "pass" (JStr "de") (JStr "amazon_pricing") "https://oxylabs.test"
    (JStr "cat") JNull (JStr "T").
Proof. split; [discriminate|vm_compute; reflexivity]. Qed.

(** ** C8: normalization modulo the timestamp *)

(** C8. Two calls of a normalizer on the same payloads and items give the
    same outcome, rows equal up to their [extracted_at] field, which holds
    the call's single timestamp in every row; this holds for the details
    and the marketplace2 normalizers. *)
Theorem C8_normalize_deterministic_modulo_timestamp :
  (forall t1 t2 raw inputs cl nl,
     Details.normalize_records t1 raw inputs cl nl
     = py_map (map (assoc_set "extracted_at" (JStr t1)))
              (Details.normalize_records t2 raw inputs cl nl)) /\
  (forall t raw inputs cl nl rows,
     Details.normalize_records t raw inputs cl nl = Ret rows ->
     Forall (fun r => assoc "extracted_at" r = Some (JStr t)) rows) /\
  (forall t1 t2 raw inputs cl,
     M2.normalize_records t1 raw inputs cl
     = map (assoc_set "extracted_at" (JStr t1)) (M2.normalize_records t2 raw inputs cl)) /\
  (forall t raw inputs cl,
     Forall (fun r => assoc "extracted_at" r = Some (JStr t)) (M2.normalize_records t raw inputs cl)).
Proof.
  split; [|split; [|split]].
  - intros t1 t2 raw inputs cl nl. unfold Details.normalize_records.
    induction (zip inputs raw) as [|x r IH]; cbn [mapM]; [reflexivity|].
    rewrite (details_normalize_one_timestamp t1 t2).
    destruct (Details.normalize_one t2 cl nl x.1 x.2) as [y|e]; cbn [py_map py_bind];
      [|reflexivity].
    rewrite IH.
    destruct (mapM (fun p => Details.normalize_one t2 cl nl p.1 p.2) r); reflexivity.
  - intros t raw inputs cl nl rows H. eapply mapM_Forall; [|exact H].
    intros x y Hy. exact (proj1 (details_normalize_one_fields _ _ _ _ _ _ Hy)).
  - intros. unfold M2.normalize_records. rewrite List.map_map.
    apply List.map_ext. intros [x p]. reflexivity.
  - intros. unfold M2.normalize_records. apply List.Forall_forall. intros r Hr.
    apply in_map_iff in Hr as ([x p] & <- & _). reflexivity.
Qed.

Lemma C8_normalize_deterministic_modulo_timestamp_witness :
  exists rows,
    Details.normalize_records "2026-01-01T00:00:00" [JObj [("error", JStr "Timeout")]] ["A"]
      JNull JNull = Ret rows /\
    Forall (fun r => assoc "extracted_at" r = Some (JStr "2026-01-01T00:00:00")) rows.
Proof.
  exists (match Details.normalize_records "2026-01-01T00:00:00" [JObj [("error", JStr "Timeout")]]
                  ["A"] JNull JNull with Ret r => r | Raise _ => [] end).
  assert (H : Details.normalize_records "2026-01-01T00:00:00" [JObj [("error", JStr "Timeout")]]
                ["A"] JNull JNull
              = Ret (match Details.normalize_records "2026-01-01T00:00:00"
                             [JObj [("error", JStr "Timeout")]] ["A"] JNull JNull
                     with Ret r => r | Raise _ => [] end)) by (vm_compute; reflexivity).
  split; [exact H|].
  exact (proj1 (proj2 C8_normalize_deterministic_modulo_timestamp) _ _ _ _ _ _ H).
Defined.

(** ** C9: duplicated items in the details job *)

(** C9. In the details job, when the same item occurs at positions [i]
    and [j], both occurrences receive the same payload: that of the
    occurrence whose future completed last ([last_done]), stored under
    the item in [payloads_by_asin]. *)
Theorem C9_duplicates_share_last_payload :
  forall (inputs : list string) (result : nat -> PyM json) (order : list nat)
         (m : gmap string json) (i j : nat) (a : string),
    order ≡ₚ seq 0 (length inputs) ->
    Details.collect inputs result order ∅ = Ret m ->
    inputs !! i = Some a -> inputs !! j = Some a ->
    exists k p,
      Details.last_done inputs order a = Some k /\ inputs !! k = Some a /\
      Details.payload_of (result k) = Ret p /\
      Details.reorder m inputs !! i = Some p /\ Details.reorder m inputs !! j = Some p.
Proof.
  intros inputs result order m i j a Hp Hc Hi Hj.
  assert (Hin : forall n, (n < length inputs)%nat -> In n order).
  { intros n Hn. apply (Permutation_in _ (Permutation_sym Hp)). apply in_seq. lia. }
  assert (Hlt : forall n, In n order -> (n < length inputs)%nat).
  { intros n Hn. apply (Permutation_in _ Hp) in Hn. apply in_seq in Hn. lia. }
  destruct (Details.last_done inputs order a) as [k|] eqn:Hl.
  - assert (Hk : k ∈ filter (fun k => String.eqb (default EmptyString (inputs !! k)) a = true)
                          order) by (apply last_Some_elem_of; exact Hl).
    apply list_elem_of_filter in Hk as [Hka Hko].
    apply list_elem_of_In in Hko.
    destruct (details_collect_all_ret _ _ _ _ _ Hc k Hko) as [p Hpk].
    assert (Hm : m !! a = Some p).
    { rewrite (details_collect_lookup _ _ _ _ _ a Hc), Hl, Hpk. reflexivity. }
    exists k, p. split; [reflexivity|]. split.
    { destruct (lookup_lt_is_Some_2 inputs k (Hlt k Hko)) as [x Hx].
      rewrite Hx in Hka |- *. simpl in Hka. apply String.eqb_eq in Hka. congruence. }
    split; [exact Hpk|]. unfold Details.reorder.
    split; [rewrite (lookup_map_Some _ _ i a Hi)|rewrite (lookup_map_Some _ _ j a Hj)];
      rewrite Hm; reflexivity.
  - exfalso. apply last_None in Hl.
    assert (Hi' : i ∈ filter (fun k => String.eqb (default EmptyString (inputs !! k)) a = true)
                          order).
    { apply list_elem_of_filter. split.
      - rewrite Hi. simpl. apply String.eqb_refl.
      - apply list_elem_of_In. apply Hin. apply lookup_lt_Some in Hi. exact Hi. }
    unfold Details.last_done in *. rewrite Hl in Hi'. apply not_elem_of_nil in Hi'. exact Hi'.
Qed.

Lemma C9_duplicates_share_last_payload_witness :
  exists k p,
    Details.last_done ["A"; "A"] [1%nat; 0%nat] "A" = Some k /\ ["A"; "A"] !! k = Some "A" /\
    Details.payload_of ((fun n : nat => Ret (JObj [("n", JInt (Z.of_nat n))])) k) = Ret p /\
    (Details.reorder
      (match Details.collect ["A"; "A"] (fun n : nat => Ret (JObj [("n", JInt (Z.of_nat n))]))
               [1%nat; 0%nat] ∅ with Ret m => m | Raise _ => ∅ end) ["A"; "A"]) !! 0%nat
      = Some p /\
    (Details.reorder
      (match Details.collect ["A"; "A"] (fun n : nat => Ret (JObj [("n", JInt (Z.of_nat n))]))
               [1%nat; 0%nat] ∅ with Ret m => m | Raise _ => ∅ end) ["A"; "A"]) !! 1%nat
      = Some p.
Proof.
  apply (C9_duplicates_share_last_payload ["A"; "A"]
           (fun n : nat => Ret (JObj [("n", JInt (Z.of_nat n))])) [1%nat; 0%nat] _ 0%nat 1%nat "A").
  - simpl. apply Permutation_swap.
  - vm_compute. reflexivity.
  - reflexivity.
  - reflexivity.
Defined.

(** ** The page loop of the listing jobs *)

(** Walks the binds and branches of a hypothesis [m = Ret v]. *)
Ltac ret_cases H :=
  repeat (cbv beta zeta in H; match type of H with
          | py_bind _ _ = Ret _ => apply py_bind_Ret_inv in H; destruct H as (? & ? & H)
          | (if ?b then _ else _) = Ret _ => destruct b
          | sys_exit _ = Ret _ => discriminate H
          end).

Lemma serp_loop_bound advance serp t eff e fuel call p params acc pages :
  (forall p ps r st, advance p ps r = Ret st -> p + 1 <= fst st) ->
  truthy eff = true -> Serp.num eff = Ret e ->
  Serp.loop advance serp t eff fuel call p params acc = Ret (Some pages) ->
  Z.of_nat (length pages) <= Z.of_nat (length acc) + Z.max 1 (e - p + 1).
Proof.
  intros Hadv Ht He. revert call p params acc.
  induction fuel as [|fuel IH]; intros call p params acc H; simpl in H; [discriminate|].
  apply py_bind_Ret_inv in H as (results & _ & H).
  apply py_bind_Ret_inv in H as (stop & Hs & H).
  unfold Serp.reached in Hs. rewrite Ht, He in Hs. simpl in Hs. injection Hs as <-.
  destruct (Z.leb_spec e p) as [Hle|Hlt].
  - injection H as <-. rewrite length_app. simpl length. lia.
  - apply py_bind_Ret_inv in H as (pag & _ & H).
    apply py_bind_Ret_inv in H as (has_next & _ & H).
    destruct (negb has_next); [injection H as <-; rewrite length_app; simpl length; lia|].
    apply py_bind_Ret_inv in H as (st & Hst & H).
    pose proof (Hadv _ _ _ _ Hst) as Hp.
    pose proof (IH _ _ _ _ H) as Hb. rewrite length_app in Hb. simpl length in Hb. lia.
Qed.

Lemma serp_setup_eff config params eff :
  Serp.setup config = Ret (params, eff) ->
  exists mp, py_get config "max_pages" = Ret mp /\ Serp.effective_max_pages mp = Ret eff.
Proof.
  unfold Serp.setup. intros H. ret_cases H.
  match goal with
  | E : Serp.effective_max_pages ?mp = Ret ?x, G : py_get config "max_pages" = Ret ?mp |- _ =>
      exists mp; split; [exact G|]; injection H as _ <-; exact E
  end.
Qed.

Lemma effective_max_pages_int z :
  Serp.effective_max_pages (JInt z)
  = Ret (JInt (if (z <=? 0) || (100 <? z) then 100 else z)).
Proof. unfold Serp.effective_max_pages. simpl. destruct (_ || _); reflexivity. Qed.

Lemma listing_job_advance p ps r st : ListingJob.advance p ps r = Ret st -> p + 1 <= fst st.
Proof. unfold ListingJob.advance. intros H. ret_cases H. injection H as <-. simpl. lia. Qed.

Lemma serp_fetch_pages_bound advance serp t fuel config mp pages :
  (forall p ps r st, advance p ps r = Ret st -> p + 1 <= fst st) ->
  py_get config "max_pages" = Ret mp ->
  Serp.fetch_pages advance serp t fuel config = Ret (Some pages) ->
  (mp = JNull -> Z.of_nat (length pages) <= 100) /\
  (forall z, mp = JInt z ->
     Z.of_nat (length pages) <= (if (z <=? 0) || (100 <? z) then 100 else z)).
Proof.
  intros Hadv Hmp H. unfold Serp.fetch_pages in H.
  apply py_bind_Ret_inv in H as ([params eff] & Hs & H). simpl in H.
  destruct (serp_setup_eff _ _ _ Hs) as (mp' & Hmp' & He). rewrite Hmp in Hmp'.
  injection Hmp' as <-.
  pose proof (serp_loop_bound advance serp t eff) as Hb.
  split.
  - intros ->. simpl in He. injection He as <-.
    pose proof (Hb 100 fuel 0%nat 1 params [] pages Hadv eq_refl eq_refl H).
    simpl in *. lia.
  - intros z ->. rewrite effective_max_pages_int in He. injection He as <-.
    set (e := if (z <=? 0) || (100 <? z) then 100 else z) in *.
    assert (He1 : 1 <= e)
      by (unfold e; destruct (Z.leb_spec z 0), (Z.ltb_spec 100 z); simpl; lia).
    assert (Ht : truthy (JInt e) = true) by (simpl; apply negb_true_iff, Z.eqb_neq; lia).
    pose proof (Hb e fuel 0%nat 1 params [] pages Hadv Ht eq_refl H).
    simpl length in *. lia.
Qed.

(** ** C10: the page limit *)

(** C10 (as amended). [max_pages] of [None], [<= 0] or [> 100] becomes
    100, one in [1, 100] is kept.  The jobs version, which adds 1 to
    [page_num] on every turn, returns at most that many pages.  The page
    loop both versions share returns at most that many pages whenever
    every turn raises [page_num] by at least one; the product-listing
    version takes [page_num] from the [next] URL instead. *)
Theorem C10_effective_page_limit :
  Serp.effective_max_pages JNull = Ret (JInt 100) /\
  (forall z, Serp.effective_max_pages (JInt z)
             = Ret (JInt (if (z <=? 0) || (100 <? z) then 100 else z))) /\
  (forall serp t fuel config mp pages,
     py_get config "max_pages" = Ret mp ->
     ListingJob.fetch_all_product_pages serp t fuel config = Ret (Some pages) ->
     (mp = JNull -> Z.of_nat (length pages) <= 100) /\
     (forall z, mp = JInt z ->
        Z.of_nat (length pages) <= (if (z <=? 0) || (100 <? z) then 100 else z))) /\
  (forall advance serp t fuel config mp pages,
     (forall p ps r st, advance p ps r = Ret st -> p + 1 <= fst st) ->
     py_get config "max_pages" = Ret mp ->
     Serp.fetch_pages advance serp t fuel config = Ret (Some pages) ->
     (mp = JNull -> Z.of_nat (length pages) <= 100) /\
     (forall z, mp = JInt z ->
        Z.of_nat (length pages) <= (if (z <=? 0) || (100 <? z) then 100 else z))).
Proof.
  split; [reflexivity|]. split; [exact effective_max_pages_int|]. split.
  - intros serp t fuel config mp pages Hmp H.
    exact (serp_fetch_pages_bound ListingJob.advance serp t fuel config mp pages
             listing_job_advance Hmp H).
  - intros advance serp t fuel config mp pages Hadv Hmp H.
    exact (serp_fetch_pages_bound advance serp t fuel config mp pages Hadv Hmp H).
Qed.

Lemma C10_effective_page_limit_witness :
  let pages := match ListingJob.fetch_all_product_pages (Fixtures.serp_next 1 "2") "T" 10%nat
                       (Fixtures.listing_config (JInt 2)) with
               | Ret (Some ps) => ps | _ => [] end in
  ((JInt 2 = JNull -> Z.of_nat (length pages) <= 100) /\
   (forall z, JInt 2 = JInt z ->
      Z.of_nat (length pages) <= (if (z <=? 0) || (100 <? z) then 100 else z))) /\
  ((JInt 2 = JNull -> Z.of_nat (length pages) <= 100) /\
   (forall z, JInt 2 = JInt z ->
      Z.of_nat (length pages) <= (if (z <=? 0) || (100 <? z) then 100 else z))).
Proof.
  intros pages. split.
  - apply (proj1 (proj2 (proj2 C10_effective_page_limit)) (Fixtures.serp_next 1 "2") "T" 10%nat
             (Fixtures.listing_config (JInt 2)) (JInt 2) pages).
    + reflexivity.
    + unfold pages. vm_compute. reflexivity.
  - apply (proj2 (proj2 (proj2 C10_effective_page_limit)) ListingJob.advance
             (Fixtures.serp_next 1 "2") "T" 10%nat (Fixtures.listing_config (JInt 2))
             (JInt 2) pages).
    + intros p ps r st Hst. unfold ListingJob.advance in Hst.
      ret_cases Hst. injection Hst as <-. simpl. lia.
    + reflexivity.
    + unfold pages. vm_compute. reflexivity.
Defined.

(** C10 (as stated, refuted). With [max_pages = 2], a SerpAPI whose
    [next] links keep [page=1] twice makes the product-listing version
    return 3 pages. *)
Lemma C10_listing_exceeds_limit :
  exists pages,
    Listing.fetch_all_product_pages (Fixtures.serp_next 2 "1") "T" 10%nat
      (Fixtures.listing_config (JInt 2)) = Ret (Some pages) /\
    length pages = 3%nat.
Proof.
  exists (match Listing.fetch_all_product_pages (Fixtures.serp_next 2 "1") "T" 10%nat
                  (Fixtures.listing_config (JInt 2)) with Ret (Some ps) => ps | _ => [] end).
  split; vm_compute; reflexivity.
Qed.

(* ================================================================== *)
(** * Further properties of the jobs *)

(** ** The input readers *)

Lemma str_app_cons a (p x : string) : (String a p ++ x)%string = String a (p ++ x).
Proof. reflexivity. Qed.
Lemma str_app_nil (x : string) : (EmptyString ++ x)%string = x.
Proof. reflexivity. Qed.
(** [String.append] does not unfold under [simpl]: push it inside. *)
Ltac app_norm := repeat (rewrite str_app_cons || rewrite str_app_nil).
Ltac app_norm_in H := repeat (rewrite str_app_cons in H || rewrite str_app_nil in H).

Lemma read_lines_unlimited mi acc ls :
  (mi = None \/ mi = Some 0) ->
  Inputs.read_lines mi acc ls
  = acc ++ List.filter (fun v => negb (String.eqb v EmptyString)) (map strip ls).
Proof.
  intros Hmi. revert acc. induction ls as [|line rest IH]; intros acc; simpl.
  - rewrite app_nil_r. reflexivity.
  - destruct (String.eqb (strip line) EmptyString); simpl.
    + apply IH.
    + destruct Hmi as [-> | ->]; simpl; rewrite IH, <- app_assoc; reflexivity.
Qed.

Lemma read_lines_limited m acc ls :
  m <> 0 -> (length acc < Z.to_nat (Z.max 1 m))%nat ->
  Inputs.read_lines (Some m) acc ls
  = firstn (Z.to_nat (Z.max 1 m))
      (acc ++ List.filter (fun v => negb (String.eqb v EmptyString)) (map strip ls)).
Proof.
  intros Hm. revert acc. induction ls as [|line rest IH]; intros acc Hacc; simpl.
  - rewrite app_nil_r. symmetry. apply List.firstn_all2. lia.
  - destruct (String.eqb (strip line) EmptyString); simpl.
    + apply IH. exact Hacc.
    + replace (acc ++ strip line
                 :: List.filter (fun v => negb (String.eqb v EmptyString)) (map strip rest))
        with ((acc ++ [strip line])
              ++ List.filter (fun v => negb (String.eqb v EmptyString)) (map strip rest))
        by (rewrite <- app_assoc; reflexivity).
      destruct (negb (m =? 0) && (m <=? Z.of_nat (length (acc ++ [strip line])))) eqn:Stop.
      * rewrite List.firstn_app, length_app. simpl length.
        apply andb_prop in Stop as [_ Hle]. apply Z.leb_le in Hle.
        rewrite length_app in Hle. simpl length in Hle.
        replace (Z.to_nat (Z.max 1 m) - (length acc + 1))%nat with 0%nat by lia.
        rewrite List.firstn_all2 by (rewrite length_app; simpl; lia).
        simpl. rewrite app_nil_r. reflexivity.
      * apply IH. rewrite length_app. simpl length.
        apply Bool.andb_false_iff in Stop as [Stop|Stop].
        -- apply Bool.negb_false_iff, Z.eqb_eq in Stop. contradiction.
        -- apply Z.leb_gt in Stop. rewrite length_app in Stop. simpl length in Stop. lia.
Qed.

Lemma substring_0_all (s : string) m : (String.length s <= m)%nat -> substring 0 m s = s.
Proof.
  revert m. induction s as [|c s IH]; intros [|m] H; simpl in *; try reflexivity; try lia.
  rewrite IH by lia. reflexivity.
Qed.

Lemma str_prefix_length p s : str_prefix p s = true -> (String.length p <= String.length s)%nat.
Proof.
  revert s. induction p as [|a p IH]; intros [|b s] H; simpl in *; try lia; try discriminate.
  apply andb_prop in H as [_ H]. apply IH in H. lia.
Qed.

Lemma str_prefix_split p s m :
  str_prefix p s = true -> (String.length s <= m + String.length p)%nat ->
  s = (p ++ substring (String.length p) m s)%string.
Proof.
  revert s. induction p as [|a p IH]; intros s H Hl; simpl in *.
  - symmetry. apply substring_0_all. lia.
  - destruct s as [|b s]; [discriminate|]. simpl in *.
    apply andb_prop in H as [Hab H]. apply Ascii.eqb_eq in Hab. subst b.
    rewrite str_app_cons. f_equal. apply IH; [exact H|lia].
Qed.

Lemma split_once_eq sep s :
  M2.split_once sep s =
  if str_prefix sep s then Some (EmptyString, substring (String.length sep) (String.length s) s)
  else match s with
       | EmptyString => None
       | String c r =>
           match M2.split_once sep r with
           | Some (a, b) => Some (String c a, b)
           | None => None
           end
       end.
Proof. destruct s; reflexivity. Qed.

Lemma split_once_app sep s a c :
  M2.split_once sep s = Some (a, c) -> s = (a ++ sep ++ c)%string.
Proof.
  revert a c. induction s as [|x r IH]; intros a c H; rewrite split_once_eq in H.
  - destruct (str_prefix sep EmptyString) eqn:P; [|discriminate].
    injection H as <- <-. destruct sep; [reflexivity|discriminate].
  - destruct (str_prefix sep (String x r)) eqn:P.
    + pose proof (str_prefix_split _ _ (String.length (String x r)) P ltac:(lia)) as Hs.
      injection H as <- <-. rewrite str_app_nil. exact Hs.
    + destruct (M2.split_once sep r) as [[a' c']|] eqn:S; [|discriminate].
      injection H as <- <-. rewrite str_app_cons. f_equal. apply IH. reflexivity.
Qed.

Lemma split_once_slash s a c :
  M2.split_once "/" s = Some (a, c) -> str_contains "/" a = false.
Proof.
  revert a c. induction s as [|x r IH]; intros a c H; [simpl in H; discriminate|].
  rewrite split_once_eq in H.
  change (str_prefix "/" (String x r)) with (Ascii.eqb "/" x && true) in H.
  rewrite andb_true_r in H. destruct (Ascii.eqb "/" x) eqn:X.
  - injection H as <- _. reflexivity.
  - destruct (M2.split_once "/" r) as [[a' c']|] eqn:S; [|discriminate].
    injection H as <- _.
    change (str_contains "/" (String x a')) with (Ascii.eqb "/" x && true || str_contains "/" a').
    rewrite X. simpl. eapply IH. reflexivity.
Qed.

Lemma split_once_slash_app a c :
  str_contains "/" a = false -> M2.split_once "/" (a ++ String "/" c) = Some (a, c).
Proof.
  induction a as [|x a IH]; intros H.
  - app_norm. rewrite split_once_eq. change (str_prefix "/" (String "/" c)) with true. cbv iota.
    f_equal. f_equal. simpl. apply substring_0_all. lia.
  - rewrite str_app_cons, split_once_eq.
    change (str_contains "/" (String x a)) with (Ascii.eqb "/" x && true || str_contains "/" a) in H.
    change (str_prefix "/" (String x (a ++ String "/" c))) with (Ascii.eqb "/" x && true).
    destruct (Ascii.eqb "/" x) eqn:X; [discriminate|]. simpl in H.
    cbv beta iota delta [andb]. rewrite IH by exact H. reflexivity.
Qed.

(** [_parse_gcs_uri] accepts exactly the URIs [gs://bucket/blob] with a
    non-empty bucket without [/] and a non-empty blob, and returns their
    two parts; every other URI raises [ValueError]. *)
Theorem parse_gcs_uri_exact uri bucket blob :
  (Inputs.parse_gcs_uri uri = Ret (bucket, blob) <->
   uri = ("gs://" ++ bucket ++ "/" ++ blob)%string /\ bucket <> EmptyString /\
   blob <> EmptyString /\ str_contains "/" bucket = false) /\
  (forall e, Inputs.parse_gcs_uri uri = Raise e -> exists msg, e = PyErr ValueError msg).
Proof.
  split; [split|].
  - unfold Inputs.parse_gcs_uri. destruct (str_prefix "gs://" uri) eqn:P; simpl; [|discriminate].
    destruct (M2.split_once "/" _) as [[b o]|] eqn:S; [|discriminate].
    destruct (String.eqb b EmptyString) eqn:Eb; [discriminate|].
    destruct (String.eqb o EmptyString) eqn:Eo; [discriminate|].
    intros H. injection H as <- <-.
    pose proof (str_prefix_length _ _ P) as Hl. simpl in Hl.
    pose proof (str_prefix_split _ _ (String.length uri - 5) P) as Hs. simpl in Hs.
    split; [|split; [|split]].
    + rewrite Hs by lia. f_equal. apply split_once_app in S. simpl in S. exact S.
    + intros ->. discriminate.
    + intros ->. discriminate.
    + eapply split_once_slash. exact S.
  - intros (-> & Hb & Ho & Hs). unfold Inputs.parse_gcs_uri. app_norm. simpl.
    rewrite Nat.sub_0_r, substring_0_all by lia.
    rewrite split_once_slash_app by exact Hs.
    apply String.eqb_neq in Hb, Ho. rewrite Hb, Ho. reflexivity.
  - intros e. unfold Inputs.parse_gcs_uri.
    destruct (negb _); [intros H; injection H as <-; eauto|].
    destruct (M2.split_once _ _) as [[b o]|]; [|intros H; injection H as <-; eauto].
    destruct (_ || _); [intros H; injection H as <-; eauto|discriminate].
Qed.

(** [read_input_from_file] (and the loop of [read_input_from_gcs]) keeps
    the stripped non-empty lines in file order.  With [max_items] of
    [None] or [0] it keeps all of them; a positive [max_items] keeps the
    first [max_items]; a negative one keeps only the first line. *)
Theorem read_input_from_file_lines (file_lines : list string) (max_items : option Z) :
  Inputs.read_input_from_file file_lines max_items =
  let vals := List.filter (fun v => negb (String.eqb v EmptyString)) (map strip file_lines) in
  match max_items with
  | Some m => if m =? 0 then vals else firstn (Z.to_nat (Z.max 1 m)) vals
  | None => vals
  end.
Proof.
  unfold Inputs.read_input_from_file. cbv zeta. destruct max_items as [m|].
  - destruct (Z.eqb_spec m 0) as [->|Hm].
    + apply read_lines_unlimited. auto.
    + apply read_lines_limited; [exact Hm|simpl; lia].
  - apply read_lines_unlimited. auto.
Qed.

(** Character comparisons with an unknown character stay folded. *)
#[local] Arguments Ascii.eqb : simpl nomatch.

Lemma replace_dbl_space_nospace p s :
  str_contains " " p = false ->
  Inputs.replace_from "  " " " 0 (p ++ s) = (p ++ Inputs.replace_from "  " " " 0 s)%string.
Proof.
  induction p as [|x p IH]; intros H; [reflexivity|].
  rewrite str_app_cons. simpl in *.
  destruct (Ascii.eqb " " x) eqn:X; simpl in H; [discriminate|].
  simpl. rewrite IH by exact H. reflexivity.
Qed.

(** When the column is a non-empty name and neither it nor the table
    contains a space, the query of the price and details jobs is the
    marketplace2 query with [DISTINCT ] put before the column when
    [distinct] is set: the replacement of double spaces only closes the
    gap left by an empty [select_kw]. *)
Theorem bigquery_sql_as_m2 table column where_ max_items distinct :
  column <> EmptyString -> str_contains " " column = false -> str_contains " " table = false ->
  Inputs.bigquery_sql table column where_ max_items distinct =
  Inputs.bigquery_sql_m2 table ((if distinct then "DISTINCT " else EmptyString) ++ column)%string
    where_ max_items.
Proof.
  intros Hne Hc Ht. unfold Inputs.bigquery_sql, Inputs.bigquery_sql_m2.
  assert (Hsel : Inputs.replace "  " " "
    ("SELECT " ++ (if distinct then "DISTINCT" else EmptyString) ++ " " ++ column
     ++ " AS val FROM `" ++ table ++ "`")%string
    = ("SELECT " ++ ((if distinct then "DISTINCT " else EmptyString) ++ column)
       ++ " AS val FROM `" ++ table ++ "`")%string).
  { destruct column as [|c r]; [congruence|].
    simpl in Hc. destruct (Ascii.eqb " " c) eqn:C; simpl in Hc; [discriminate|].
    unfold Inputs.replace.
    destruct distinct; app_norm; simpl; rewrite C; simpl;
      rewrite replace_dbl_space_nospace by exact Hc; app_norm; simpl;
      rewrite replace_dbl_space_nospace by exact Ht; reflexivity. }
  rewrite Hsel. reflexivity.
Qed.

(** ** The product rows of the listing jobs *)

Lemma assoc_set_same k v kv : assoc k (assoc_set k v kv) = Some v.
Proof.
  induction kv as [|[k' v'] r IH]; simpl.
  - rewrite String.eqb_refl. reflexivity.
  - destruct (String.eqb k k') eqn:E; simpl; rewrite E; [reflexivity|exact IH].
Qed.

Lemma assoc_set_other k k' v kv : k <> k' -> assoc k (assoc_set k' v kv) = assoc k kv.
Proof.
  intros Hne. induction kv as [|[k0 v0] r IH]; simpl.
  - apply String.eqb_neq in Hne. rewrite Hne. reflexivity.
  - destruct (String.eqb k' k0) eqn:E; simpl.
    + apply String.eqb_eq in E. subst k0. apply String.eqb_neq in Hne. rewrite Hne. reflexivity.
    + destruct (String.eqb k k0); [reflexivity|exact IH].
Qed.

Lemma mapM_idx_lookup {A B} (f : Z -> A -> PyM B) (s : Z) (l : list A) (ys : list B) :
  mapM_idx f s l = Ret ys ->
  length ys = length l /\
  forall k y, ys !! k = Some y -> exists x, l !! k = Some x /\ f (s + Z.of_nat k) x = Ret y.
Proof.
  revert s ys. induction l as [|x r IH]; intros s ys H; simpl in H.
  - injection H as <-. split; [reflexivity|]. intros k y Hk. rewrite lookup_nil in Hk. discriminate.
  - apply py_bind_Ret_inv in H as (y & Hy & H).
    apply py_bind_Ret_inv in H as (ys' & Hys & H). injection H as <-.
    destruct (IH _ _ Hys) as [Hl Hk]. split; [simpl; congruence|].
    intros [|k] y' Hy'; simpl in Hy'.
    + injection Hy' as <-. exists x. split; [reflexivity|]. rewrite Z.add_0_r. exact Hy.
    + destruct (Hk k y' Hy') as (x' & Hx' & Hf). exists x'. split; [exact Hx'|].
      replace (s + Z.of_nat (S k)) with (s + 1 + Z.of_nat k) by lia. exact Hf.
Qed.

Lemma mapM_In_ret {A B} (f : A -> PyM B) (l : list A) ys x :
  mapM f l = Ret ys -> In x l -> exists y, f x = Ret y.
Proof.
  revert ys. induction l as [|x0 r IH]; intros ys H Hin; [destruct Hin|]. simpl in H.
  apply py_bind_Ret_inv in H as (y & Hy & H).
  apply py_bind_Ret_inv in H as (ys' & Hys & _).
  destruct Hin as [<-|Hin]; [eauto|eapply IH; eauto].
Qed.

Lemma mapM_Forall_in {A B} (Pa : A -> Prop) (Pb : B -> Prop) (f : A -> PyM B) (l : list A) ys :
  Forall Pa l -> (forall x y, Pa x -> f x = Ret y -> Pb y) -> mapM f l = Ret ys -> Forall Pb ys.
Proof.
  intros Hl Hf. revert ys. induction Hl as [|x r Hx _ IH]; intros ys H; simpl in H.
  - injection H as <-. constructor.
  - apply py_bind_Ret_inv in H as (y & Hy & H).
    apply py_bind_Ret_inv in H as (ys' & Hys & H). injection H as <-.
    constructor; [eapply Hf; eauto|apply IH; exact Hys].
Qed.

Lemma product_row_page_number i cl page p r :
  Products.product_row i cl page p = Ret r -> assoc "page_number" r = Some (JInt i).
Proof. unfold Products.product_row. intros H. ret_walk H. injection H as <-. reflexivity. Qed.

Lemma product_row_marks i cl page kv r :
  Products.product_row i cl page (JObj kv) = Ret r ->
  assoc "extracted_at" r = Some (default JNull (assoc "extracted_at" kv)) /\
  assoc "is_sponsored" r = Some (default (JBool false) (assoc "is_sponsored" kv)).
Proof.
  unfold Products.product_row. intros H. ret_walk H. injection H as <-.
  simpl in *.
  repeat match goal with Hr : Ret _ = Ret _ |- _ => injection Hr as Hr end.
  split; simpl; f_equal.
  - match goal with Hr : match assoc "extracted_at" kv with _ => _ end = ?x |- ?x = _ =>
      rewrite <- Hr; destruct (assoc "extracted_at" kv); reflexivity end.
  - match goal with Hr : match assoc "is_sponsored" kv with _ => _ end = ?x |- ?x = _ =>
      rewrite <- Hr; destruct (assoc "is_sponsored" kv); reflexivity end.
Qed.

(** [normalize_products_to_dataframe] writes one row per product, page
    after page and in the order of each page's [organic_results]: the
    [i]-th page (from 0) gives a block of rows, one per product, each
    built from its product and carrying [page_number] [i + 1]. *)
Theorem normalize_products_rows_by_page pages cl rows :
  Products.normalize_products_to_dataframe pages cl = Ret rows ->
  exists groups, rows = List.concat groups /\ length groups = length pages /\
  forall i g, groups !! i = Some g ->
    exists page ps, pages !! i = Some page /\ Products.organic page = Ret ps /\
      length g = length ps /\
      forall j p, ps !! j = Some p -> exists r, g !! j = Some r /\
        Products.product_row (Z.of_nat i + 1) cl page p = Ret r /\
        assoc "page_number" r = Some (JInt (Z.of_nat i + 1)).
Proof.
  unfold Products.normalize_products_to_dataframe. intros H.
  apply py_bind_Ret_inv in H as (groups & Hg & H). injection H as <-.
  exists groups. destruct (mapM_idx_lookup _ _ _ _ Hg) as [Hl Hk].
  split; [reflexivity|]. split; [exact Hl|].
  intros i g Hi. destruct (Hk _ _ Hi) as (page & Hp & Hf).
  rewrite Z.add_comm in Hf.
  apply py_bind_Ret_inv in Hf as (ps & Ho & Hm).
  destruct (mapM_lookup _ _ _ Hm) as [Hlg Hj].
  exists page, ps. split; [exact Hp|]. split; [exact Ho|]. split; [exact Hlg|].
  intros j p Hps. destruct (Hj _ _ Hps) as (r & Hr & Hpr).
  exists r. split; [exact Hr|]. split; [exact Hpr|].
  eapply product_row_page_number. exact Hpr.
Qed.

(** A product whose [link] is [null] makes
    [normalize_products_to_dataframe] raise ([None.replace]): the whole
    normalization fails and no row is produced. *)
Theorem normalize_products_null_link pages cl i page ps kv :
  pages !! i = Some page -> Products.organic page = Ret ps -> In (JObj kv) ps ->
  assoc "link" kv = Some JNull ->
  exists e, Products.normalize_products_to_dataframe pages cl = Raise e.
Proof.
  intros Hp Ho Hin Hlink.
  destruct (Products.normalize_products_to_dataframe pages cl) as [rows|e] eqn:N; [exfalso|eauto].
  unfold Products.normalize_products_to_dataframe in N.
  apply py_bind_Ret_inv in N as (groups & Hg & _).
  destruct (mapM_idx_lookup _ _ _ _ Hg) as [Hl Hk].
  destruct (lookup_lt_is_Some_2 groups i) as [g Hgi].
  { rewrite Hl. apply lookup_lt_is_Some_1. eauto. }
  destruct (Hk _ _ Hgi) as (page' & Hp' & Hf). rewrite Hp in Hp'. injection Hp' as <-.
  apply py_bind_Ret_inv in Hf as (ps' & Ho' & Hm). rewrite Ho in Ho'. injection Ho' as <-.
  destruct (mapM_In_ret _ _ _ _ Hm Hin) as (r & Hr).
  unfold Products.product_row in Hr. ret_walk Hr.
  match goal with
  | H1 : py_get_d (JObj kv) "link" _ = Ret ?l0, H2 : match ?l0 with _ => _ end = Ret _ |- _ =>
      simpl in H1; rewrite Hlink in H1; injection H1 as <-; discriminate H2
  end.
Qed.

(** ** From the SerpAPI pages to the product rows *)

Lemma mark_product_marks t p y :
  Serp.mark_product t p = Ret y ->
  exists kv, p = JObj kv /\ exists kv', y = JObj kv' /\
    assoc "extracted_at" kv' = Some (JStr t) /\ exists b, assoc "is_sponsored" kv' = Some (JBool b).
Proof.
  unfold Serp.mark_product. intros H.
  apply py_bind_Ret_inv in H as (l & _ & H).
  apply py_bind_Ret_inv in H as (b & _ & H).
  destruct p as [| | | | |kv]; try discriminate. injection H as <-.
  exists kv. split; [reflexivity|]. eexists. split; [reflexivity|].
  split; [apply assoc_set_same|]. exists b.
  rewrite assoc_set_other by discriminate. apply assoc_set_same.
Qed.

Lemma py_iter_head_not_obj o p rest kv :
  py_iter o = Ret (p :: rest) -> match o with JArr _ => True | _ => p <> JObj kv end.
Proof.
  destruct o as [| | |s|l|okv]; simpl; intros H; try discriminate; try exact I.
  - destruct s; simpl in H; [discriminate|]. injection H as <- _. discriminate.
  - destruct okv as [|[k v] okv]; simpl in H; [discriminate|]. injection H as <- _. discriminate.
Qed.

Lemma mark_page_marks t results results' ps :
  Serp.mark_page t results = Ret results' -> Products.organic results' = Ret ps ->
  Forall (fun p => exists kv, p = JObj kv /\ assoc "extracted_at" kv = Some (JStr t) /\
                              exists b, assoc "is_sponsored" kv = Some (JBool b)) ps.
Proof.
  unfold Serp.mark_page. intros H Hps.
  apply py_bind_Ret_inv in H as (organic0 & Ho & H).
  apply py_bind_Ret_inv in H as (ps0 & Hi & H).
  apply py_bind_Ret_inv in H as (ps' & Hm & H).
  destruct results as [| | | | |kv]; try discriminate Ho.
  destruct organic0 as [| | |s|l|okv]; try (simpl in Hi; discriminate Hi); injection H as <-.
  1,3: (unfold Products.organic in Hps; rewrite Ho in Hps; cbn [py_bind] in Hps;
            rewrite Hi in Hps; injection Hps as <-;
            destruct ps0 as [|p0 rest]; [constructor|];
            simpl in Hm; apply py_bind_Ret_inv in Hm as (y & Hy & _);
            destruct (mark_product_marks _ _ _ Hy) as (kv0 & -> & _);
            exfalso; apply (py_iter_head_not_obj _ _ _ kv0 Hi); reflexivity).
  - unfold Products.organic, py_get_d in Hps. rewrite assoc_set_same in Hps.
    simpl in Hps. injection Hps as <-.
    eapply mapM_Forall; [|exact Hm]. intros x y Hxy.
    destruct (mark_product_marks _ _ _ Hxy) as (kv0 & _ & kv' & -> & Hea & Hsp).
    exists kv'. auto.
Qed.

Lemma page_step_marks t pn results r ps :
  Serp.page_step t pn results = Ret r -> Products.organic r = Ret ps ->
  Forall (fun p => exists kv, p = JObj kv /\ assoc "extracted_at" kv = Some (JStr t) /\
                              exists b, assoc "is_sponsored" kv = Some (JBool b)) ps.
Proof.
  unfold Serp.page_step. intros H.
  apply py_bind_Ret_inv in H as (u & _ & H).
  apply py_bind_Ret_inv in H as (has_error & _ & H).
  destruct has_error.
  - apply py_bind_Ret_inv in H as (e & _ & H). discriminate H.
  - eapply mark_page_marks. exact H.
Qed.

Lemma serp_loop_marks advance serp t eff fuel call p params acc pages :
  Serp.loop advance serp t eff fuel call p params acc = Ret (Some pages) ->
  Forall (fun page => forall ps, Products.organic page = Ret ps ->
            Forall (fun p => exists kv, p = JObj kv /\ assoc "extracted_at" kv = Some (JStr t) /\
                                        exists b, assoc "is_sponsored" kv = Some (JBool b)) ps) acc ->
  Forall (fun page => forall ps, Products.organic page = Ret ps ->
            Forall (fun p => exists kv, p = JObj kv /\ assoc "extracted_at" kv = Some (JStr t) /\
                                        exists b, assoc "is_sponsored" kv = Some (JBool b)) ps) pages.
Proof.
  revert call p params acc.
  induction fuel as [|fuel IH]; intros call p params acc H Hacc; simpl in H; [discriminate|].
  apply py_bind_Ret_inv in H as (results & Hr & H).
  assert (Hacc' : Forall (fun page => forall ps, Products.organic page = Ret ps ->
            Forall (fun p => exists kv, p = JObj kv /\ assoc "extracted_at" kv = Some (JStr t) /\
                                        exists b, assoc "is_sponsored" kv = Some (JBool b)) ps)
                   (acc ++ [results])).
  { apply Forall_app. split; [exact Hacc|]. constructor; [|constructor].
    intros ps Hps. eapply page_step_marks; eassumption. }
  apply py_bind_Ret_inv in H as (stop & _ & H).
  destruct stop; [injection H as <-; exact Hacc'|].
  apply py_bind_Ret_inv in H as (pag & _ & H).
  apply py_bind_Ret_inv in H as (has_next & _ & H).
  destruct (negb has_next); [injection H as <-; exact Hacc'|].
  apply py_bind_Ret_inv in H as (st & _ & H).
  eapply IH; [exact H|exact Hacc'].
Qed.

(** The product rows of a listing run carry its extraction time: when
    [fetch_all_product_pages] (either version, whatever its loop tail)
    returns the pages of a run started at [extracted_at], every row
    [normalize_products_to_dataframe] makes of them has that
    [extracted_at] and a boolean [is_sponsored], both set on the product
    dicts by the fetch loop. *)
Theorem listing_rows_carry_run_timestamp advance serp extracted_at fuel config pages cl rows :
  Serp.fetch_pages advance serp extracted_at fuel config = Ret (Some pages) ->
  Products.normalize_products_to_dataframe pages cl = Ret rows ->
  Forall (fun r => assoc "extracted_at" r = Some (JStr extracted_at) /\
                   exists b, assoc "is_sponsored" r = Some (JBool b)) rows.
Proof.
  unfold Serp.fetch_pages. intros Hf Hn.
  apply py_bind_Ret_inv in Hf as (st & _ & Hf).
  apply serp_loop_marks in Hf; [|constructor].
  unfold Products.normalize_products_to_dataframe in Hn.
  apply py_bind_Ret_inv in Hn as (groups & Hg & Hn). injection Hn as <-.
  apply Forall_concat_rows. apply Forall_lookup. intros i g Hi.
  destruct (mapM_idx_lookup _ _ _ _ Hg) as [_ Hk].
  destruct (Hk _ _ Hi) as (page & Hp & Hpage).
  apply py_bind_Ret_inv in Hpage as (ps & Ho & Hm).
  rewrite Forall_lookup in Hf. pose proof (Hf _ _ Hp ps Ho) as Hps.
  eapply mapM_Forall_in; [exact Hps| |exact Hm].
  intros x y (kv & -> & Hea & b & Hsp) Hy.
  destruct (product_row_marks _ _ _ _ _ Hy) as [E1 E2].
  rewrite Hea in E1. rewrite Hsp in E2. simpl in E1, E2. eauto.
Qed.

(** ** Rows of the price job, offer by offer *)

Lemma offer_row_fields content offer cl ea nl oi k d r :
  Price.offer_row content offer cl ea nl oi k d = Ret r ->
  assoc "offer_position" r = Some (JInt oi) /\ assoc "pricing_status" r = Some (JStr "offer").
Proof. unfold Price.offer_row. intros H. ret_walk H. injection H as <-. split; reflexivity. Qed.

Lemma flatten_pricing_offers kv offers cl ea nl :
  assoc "pricing" kv = Some (JArr offers) ->
  Price.flatten_pricing (JObj kv) cl ea nl =
  (groups <- mapM_idx (fun offer_idx offer =>
              delivery_opts <- py_get_d offer "delivery_options" (JArr [JNull]);;
              ds <- py_iter delivery_opts;;
              mapM_idx (Price.offer_row (JObj kv) offer cl ea nl offer_idx) 1 ds) 1 offers;;
   Ret (List.concat groups)).
Proof.
  intros Hp. unfold Price.flatten_pricing.
  rewrite (truthy_obj_assoc _ _ _ Hp). cbn [negb].
  unfold py_in, py_get_d. rewrite Hp. reflexivity.
Qed.

(** [flatten_pricing] writes the offers of [content["pricing"]] in
    order, one block per offer: the block of the [i]-th offer (from 0)
    has one row per entry of its [delivery_options] (the default
    [[None]] gives one), all with [offer_position] [i + 1] and
    [pricing_status] ["offer"].  An offer with an empty
    [delivery_options] list gives no row at all. *)
Theorem flatten_pricing_rows_per_offer kv offers cl ea nl rows :
  assoc "pricing" kv = Some (JArr offers) ->
  Price.flatten_pricing (JObj kv) cl ea nl = Ret rows ->
  exists groups, rows = List.concat groups /\ length groups = length offers /\
    forall i g, groups !! i = Some g -> exists offer ds, offers !! i = Some offer /\
      (opts <- py_get_d offer "delivery_options" (JArr [JNull]);; py_iter opts) = Ret ds /\
      length g = length ds /\
      Forall (fun r => assoc "offer_position" r = Some (JInt (Z.of_nat i + 1)) /\
                       assoc "pricing_status" r = Some (JStr "offer")) g.
Proof.
  intros Hp H. rewrite (flatten_pricing_offers _ _ _ _ _ Hp) in H.
  apply py_bind_Ret_inv in H as (groups & Hg & H). injection H as <-.
  exists groups. destruct (mapM_idx_lookup _ _ _ _ Hg) as [Hl Hk].
  split; [reflexivity|]. split; [exact Hl|].
  intros i g Hi. destruct (Hk _ _ Hi) as (offer & Ho & Hf).
  apply py_bind_Ret_inv in Hf as (opts & Hopts & Hf).
  apply py_bind_Ret_inv in Hf as (ds & Hds & Hf).
  exists offer, ds. split; [exact Ho|]. split; [rewrite Hopts; exact Hds|].
  split; [apply (mapM_idx_lookup _ _ _ _ Hf)|].
  eapply mapM_idx_Forall; [|exact Hf].
  intros k d r Hr. rewrite Z.add_comm in Hr. exact (offer_row_fields _ _ _ _ _ _ _ _ _ Hr).
Qed.

Lemma flatten_pricing_empty_options kv offers cl ea nl :
  assoc "pricing" kv = Some (JArr offers) ->
  Forall (fun o => exists okv, o = JObj okv /\ assoc "delivery_options" okv = Some (JArr [])) offers ->
  Price.flatten_pricing (JObj kv) cl ea nl = Ret [].
Proof.
  intros Hp Ho. rewrite (flatten_pricing_offers _ _ _ _ _ Hp).
  assert (Hm : forall s, mapM_idx (fun offer_idx offer =>
              delivery_opts <- py_get_d offer "delivery_options" (JArr [JNull]);;
              ds <- py_iter delivery_opts;;
              mapM_idx (Price.offer_row (JObj kv) offer cl ea nl offer_idx) 1 ds) s offers
            = Ret (repeat [] (length offers))).
  { clear Hp. induction Ho as [|o r (okv & -> & Hd) _ IH]; intros s; [reflexivity|].
    cbn [mapM_idx]. rewrite IH. unfold py_get_d at 1. rewrite Hd. reflexivity. }
  rewrite Hm. cbn [py_bind]. f_equal. generalize (length offers) as n.
  induction n as [|n IHn]; [reflexivity|exact IHn].
Qed.

(** When the parsed content of an item lists offers that all have an
    empty [delivery_options], [process_asin] finds no offer row and
    stores the item as one [no_offers] row. *)
Theorem process_asin_empty_delivery_options net throttle asin u p d s endpoint cl nl ea
    resp kv offers :
  Price.call_oxylabs net u p d asin s endpoint = Ret resp ->
  py_in "error" resp = Ret false ->
  Price.extract_content resp = JObj kv ->
  assoc "pricing" kv = Some (JArr offers) ->
  Forall (fun o => exists okv, o = JObj okv /\ assoc "delivery_options" okv = Some (JArr [])) offers ->
  throttle = Ret tt ->
  exists r, Price.process_asin net throttle asin u p d s endpoint cl nl ea = Ret ([r], JNull) /\
            assoc "pricing_status" r = Some (JStr "no_offers") /\
            assoc "offer_position" r = Some JNull.
Proof.
  intros Hcall Herr Hc Hp Ho ->.
  pose proof (flatten_pricing_empty_options _ _ cl ea nl Hp Ho) as Hf.
  destruct kv as [|kv0 kvr]; [discriminate Hp|].
  unfold Price.process_asin. rewrite Hcall. cbn [py_bind]. rewrite Herr. cbn [py_bind].
  cbv zeta. rewrite Hc, Hf. eexists. split; [reflexivity|]. split; reflexivity.
Qed.

(** When the request of an item fails with an exception [e] (transport
    error, HTTP error status, body that is not JSON), [process_asin]
    returns exactly one error row for the item, whose [error_message]
    is [str(e)], together with that message as the error. *)
Theorem process_asin_failed_request net throttle asin u p d s endpoint cl nl ea e :
  (forall auth payload,
     (resp <- post net endpoint auth payload;; _ <- raise_for_status resp;; resp_json resp)
     = Raise e) ->
  is_Exception e = true -> throttle = Ret tt ->
  Price.process_asin net throttle asin u p d s endpoint cl nl ea
  = Ret (Price.build_error_row asin cl ea nl (JStr (exn_str e)), JStr (exn_str e)).
Proof.
  intros Hreq Hexc ->. unfold Price.process_asin.
  cbv beta zeta delta [Price.call_oxylabs]. rewrite Hreq. cbn [try_except]. rewrite Hexc.
  reflexivity.
Qed.

(** ** Error rows of the details job *)

(** When the request of an item fails with an exception [e], the
    details job keeps the error dict as the item's payload and its row
    has [item_status] ["error"], [error_message] [str(e)], the HTTP
    status of [e] (or [None]) as [status_code], and the input ASIN. *)
Theorem details_failed_request_row net throttle endpoint u p asin s d l t cl nl e :
  (forall auth payload,
     (resp <- post net endpoint auth payload;; _ <- raise_for_status resp;; resp_json resp)
     = Raise e) ->
  is_Exception e = true -> throttle = Ret tt ->
  exists r,
    (payload <- Details.payload_of (Details.process_asin net throttle endpoint u p asin s d l);;
     Details.normalize_one t cl nl asin payload) = Ret r /\
    assoc "item_status" r = Some (JStr "error") /\
    assoc "error_message" r = Some (JStr (exn_str e)) /\
    assoc "status_code" r = Some (exn_status e) /\
    assoc "asin" r = Some (JStr asin).
Proof.
  intros Hreq Hexc ->. unfold Details.process_asin.
  cbv beta zeta delta [Details.call_oxylabs]. rewrite Hreq. cbn [try_except]. rewrite Hexc.
  eexists. split; [reflexivity|]. repeat split; reflexivity.
Qed.

(** ** The Otto URL encoding of the marketplace2 job *)

Lemma hex_upper_val k : (k < 16)%nat -> Listing.hex_val (M2.hex_upper k) = Some k.
Proof. intros Hk. do 16 (destruct k as [|k]; [reflexivity|]). lia. Qed.

Lemma hex_upper_safe k : (k < 16)%nat -> M2.quote_safe (M2.hex_upper k) = true.
Proof. intros Hk. do 16 (destruct k as [|k]; [reflexivity|]). lia. Qed.

Lemma quote_cons c r :
  M2.quote (String c r) =
  if M2.quote_safe c then String c (M2.quote r)
  else String "%" (String (M2.hex_upper (nat_of_ascii c / 16))
                          (String (M2.hex_upper (nat_of_ascii c mod 16)) (M2.quote r))).
Proof. reflexivity. Qed.

Lemma unquote_cons_other c q :
  Ascii.eqb c "%" = false -> Listing.unquote (String c q) = String c (Listing.unquote q).
Proof. intros H. cbn [Listing.unquote]. rewrite H. reflexivity. Qed.

Lemma unquote_pct h1 h2 q a b :
  Listing.hex_val h1 = Some a -> Listing.hex_val h2 = Some b ->
  Listing.unquote (String "%" (String h1 (String h2 q)))
  = String (ascii_of_nat (a * 16 + b)) (Listing.unquote q).
Proof. intros H1 H2. cbn [Listing.unquote]. rewrite Ascii.eqb_refl, H1, H2. reflexivity. Qed.

Lemma unquote_quote s : Listing.unquote (M2.quote s) = s.
Proof.
  induction s as [|c r IH]; [reflexivity|]. rewrite quote_cons.
  destruct (M2.quote_safe c) eqn:Hs.
  - rewrite unquote_cons_other, IH; [reflexivity|].
    destruct (Ascii.eqb c "%") eqn:E; [|reflexivity].
    apply Ascii.eqb_eq in E. subst c. discriminate Hs.
  - pose proof (nat_ascii_bounded c) as Hb.
    rewrite (unquote_pct _ _ _ (nat_of_ascii c / 16) (nat_of_ascii c mod 16)),
      IH by (apply hex_upper_val; apply Nat.Div0.div_lt_upper_bound || apply Nat.mod_upper_bound; lia).
    f_equal. rewrite Nat.mul_comm, <- Nat.div_mod_eq. apply ascii_nat_embedding.
Qed.

Lemma unquote_app_nopct a b :
  str_contains "%" a = false -> Listing.unquote (a ++ b) = (a ++ Listing.unquote b)%string.
Proof.
  induction a as [|x a IH]; intros H; [reflexivity|].
  change (str_contains "%" (String x a)) with (Ascii.eqb "%" x && true || str_contains "%" a) in H.
  destruct (Ascii.eqb "%" x) eqn:X; [discriminate|]. simpl in H.
  rewrite str_app_cons, unquote_cons_other, IH by (exact H || (rewrite Ascii.eqb_sym; exact X)).
  reflexivity.
Qed.

(** [_encode_otto_url] loses nothing: percent-decoding the encoded URL
    (as [urllib.parse.unquote] does) gives back the item URL, as long
    as the scheme before the first [://] has no [%]. *)
Theorem encode_otto_url_round_trip url scheme rest :
  M2.split_once "://" url = Some (scheme, rest) -> str_contains "%" scheme = false ->
  exists enc, M2.encode_otto_url url = Ret enc /\ Listing.unquote enc = url.
Proof.
  intros Hs Hp. unfold M2.encode_otto_url. rewrite Hs. eexists. split; [reflexivity|].
  rewrite unquote_app_nopct by exact Hp. rewrite (split_once_app _ _ _ _ Hs). f_equal.
  change (Listing.unquote (":%2F%2F" ++ M2.quote rest))
    with ("://" ++ Listing.unquote (M2.quote rest))%string.
  rewrite unquote_quote. reflexivity.
Qed.

Lemma hex_upper_digit k :
  (k < 16)%nat -> In (M2.hex_upper k) (list_ascii_of_string "0123456789ABCDEF").
Proof.
  intros Hk.
  do 16 (destruct k as [|k]; [cbn; repeat (try (left; reflexivity); right)|]). lia.
Qed.

Lemma hex_upper_not_pct k : (k < 16)%nat -> M2.hex_upper k <> "%"%char.
Proof. intros Hk. do 16 (destruct k as [|k]; [discriminate|]). lia. Qed.

Lemma quote_pct_escapes s pre post :
  list_ascii_of_string (M2.quote s) = pre ++ "%"%char :: post ->
  exists h1 h2 rest, post = h1 :: h2 :: rest /\
    In h1 (list_ascii_of_string "0123456789ABCDEF") /\
    In h2 (list_ascii_of_string "0123456789ABCDEF").
Proof.
  revert pre post. induction s as [|c r IH]; intros pre post H.
  - destruct pre; discriminate.
  - rewrite quote_cons in H. pose proof (nat_ascii_bounded c) as Hb.
    assert (H1 : (nat_of_ascii c / 16 < 16)%nat) by (apply Nat.Div0.div_lt_upper_bound; lia).
    assert (H2 : (nat_of_ascii c mod 16 < 16)%nat) by (apply Nat.mod_upper_bound; lia).
    destruct (M2.quote_safe c) eqn:Hs; cbn [list_ascii_of_string] in H.
    + destruct pre as [|c' pre]; cbn [app] in H; injection H as Hc Hr.
      * subst c. discriminate Hs.
      * exact (IH _ _ Hr).
    + destruct pre as [|a1 [|a2 [|a3 pre]]]; cbn [app] in H.
      * injection H as Hp. subst post. do 3 eexists. split; [reflexivity|].
        split; apply hex_upper_digit; assumption.
      * injection H as _ Hr _. exfalso. exact (hex_upper_not_pct _ H1 Hr).
      * injection H as _ _ Hr _. exfalso. exact (hex_upper_not_pct _ H2 Hr).
      * injection H as _ _ _ Hr. exact (IH _ _ Hr).
Qed.

(** Every character [urllib.parse.quote(rest, safe="=")] outputs in
    [_encode_otto_url] is a letter, a digit, one of [_ . - ~ =], or a
    [%], and every [%] starts an escape: it is followed by two
    upper-case hex digits.  So the encoded path has no [/], [?], [&],
    [#] or space left. *)
Theorem quote_output_charset s :
  Forall (fun c => M2.quote_safe c = true \/ c = "%"%char) (list_ascii_of_string (M2.quote s)) /\
  forall pre post,
    list_ascii_of_string (M2.quote s) = pre ++ "%"%char :: post ->
    exists h1 h2 rest, post = h1 :: h2 :: rest /\
      In h1 (list_ascii_of_string "0123456789ABCDEF") /\
      In h2 (list_ascii_of_string "0123456789ABCDEF").
Proof.
  split; [|exact (quote_pct_escapes s)].
  induction s as [|c r IH]; [constructor|]. rewrite quote_cons.
  destruct (M2.quote_safe c) eqn:Hs; cbn [list_ascii_of_string].
  - constructor; [left; exact Hs|exact IH].
  - pose proof (nat_ascii_bounded c) as Hb.
    constructor; [right; reflexivity|].
    constructor; [left; apply hex_upper_safe, Nat.Div0.div_lt_upper_bound; lia|].
    constructor; [left; apply hex_upper_safe, Nat.mod_upper_bound; lia|exact IH].
Qed.

(** ** The params of the listing loops *)

Lemma assoc_app k l1 l2 :
  assoc k (l1 ++ l2) = match assoc k l1 with Some v => Some v | None => assoc k l2 end.
Proof.
  induction l1 as [|[k' v'] r IH]; [reflexivity|]. simpl.
  destruct (String.eqb k k'); [reflexivity|exact IH].
Qed.

Lemma assoc_update_lookup d e k :
  assoc k (assoc_update d e) = match assoc k (rev e) with Some v => Some v | None => assoc k d end.
Proof.
  unfold assoc_update. revert d. induction e as [|[k' v'] e IH]; intros d; [reflexivity|].
  cbn [fold_left]. rewrite IH. cbn [rev]. rewrite assoc_app.
  destruct (assoc k (rev e)); [reflexivity|]. simpl.
  destruct (String.eqb_spec k k') as [->|Hne]; [apply assoc_set_same|].
  apply assoc_set_other, Hne.
Qed.

(** One turn of the jobs version of the listing loop moves to the next
    page number and merges the page's [serpapi_pagination] dict (or [{}]
    when it has none) into the search params: a key of the pagination
    dict takes its value there (the last one, for a repeated key), every
    other key keeps its value. *)
Theorem listing_job_advance_params page_num params results pkv n' params' :
  py_get_d results "serpapi_pagination" (JObj []) = Ret (JObj pkv) ->
  ListingJob.advance page_num params results = Ret (n', params') ->
  n' = page_num + 1 /\
  forall k, assoc k params' =
            match assoc k (rev pkv) with Some v => Some v | None => assoc k params end.
Proof.
  intros Hp H. unfold ListingJob.advance in H. rewrite Hp in H.
  cbn [py_bind Serp.dict_update] in H. injection H as <- <-.
  split; [reflexivity|]. intros k. apply assoc_update_lookup.
Qed.

(** ** Error rows of the details normalizer *)

(** A payload holding ["error"] and no ["results"] (what [call_oxylabs]
    returns on a failed request, and the placeholders for an empty
    payload or a missing result) gives an error row: [item_status]
    ["error"], [error_message] the payload's ["error"], [status_code] its
    ["status_code"] (or [None]), the input ASIN, and no content. *)
Theorem details_error_payload_row t cl nl asin kv err :
  assoc "error" kv = Some err -> assoc "results" kv = None ->
  exists r, Details.normalize_one t cl nl asin (JObj kv) = Ret r /\
    assoc "item_status" r = Some (JStr "error") /\
    assoc "error_message" r = Some err /\
    assoc "status_code" r = Some (default JNull (assoc "status_code" kv)) /\
    assoc "asin" r = Some (JStr asin) /\
    assoc "title" r = Some JNull /\ assoc "price" r = Some JNull.
Proof.
  intros He Hr.
  assert (H1 : py_in "error" (JObj kv) = Ret true) by (simpl; rewrite He; reflexivity).
  assert (H2 : py_in "results" (JObj kv) = Ret false) by (simpl; rewrite Hr; reflexivity).
  assert (H3 : py_get (JObj kv) "error" = Ret err) by (simpl; rewrite He; reflexivity).
  unfold Details.normalize_one. rewrite H1, H2, H3.
  eexists. split; [reflexivity|].
  do 5 (split; [vm_compute; reflexivity|]). vm_compute; reflexivity.
Qed.

(** ** The JSON text of raw payloads *)

Lemma printable_of_forallb s :
  forallb (fun c => (32 <=? nat_of_ascii c)%nat) (list_ascii_of_string s) = true ->
  Forall (fun c => (32 <= nat_of_ascii c)%nat) (list_ascii_of_string s).
Proof.
  intros H. apply (proj2 (List.Forall_forall _ _)). intros c Hc.
  apply Nat.leb_le. exact (proj1 (forallb_forall _ _) H c Hc).
Qed.

Lemma list_ascii_of_string_app a b :
  list_ascii_of_string (a ++ b) = list_ascii_of_string a ++ list_ascii_of_string b.
Proof. induction a as [|c a IH]; [reflexivity|]. rewrite str_app_cons. simpl. f_equal. exact IH. Qed.

Lemma hex_digit_code k : (k < 16)%nat -> (48 <= nat_of_ascii (Json.hex_digit k))%nat.
Proof.
  intros Hk. do 16 (destruct k as [|k]; [apply Nat.leb_le; reflexivity|]). lia.
Qed.

Lemma escape_char_printable c :
  Forall (fun c => (32 <= nat_of_ascii c)%nat) (list_ascii_of_string (Json.escape_char c)).
Proof.
  unfold Json.escape_char. cbv zeta.
  destruct (nat_of_ascii c =? 34)%nat; [apply printable_of_forallb; reflexivity|].
  destruct (nat_of_ascii c =? 92)%nat; [apply printable_of_forallb; reflexivity|].
  destruct (nat_of_ascii c =? 10)%nat; [apply printable_of_forallb; reflexivity|].
  destruct (nat_of_ascii c =? 13)%nat; [apply printable_of_forallb; reflexivity|].
  destruct (nat_of_ascii c =? 9)%nat; [apply printable_of_forallb; reflexivity|].
  destruct (nat_of_ascii c =? 8)%nat; [apply printable_of_forallb; reflexivity|].
  destruct (nat_of_ascii c =? 12)%nat; [apply printable_of_forallb; reflexivity|].
  destruct (nat_of_ascii c <? 32)%nat eqn:Hlt.
  - apply Nat.ltb_lt in Hlt. cbn [list_ascii_of_string].
    do 4 (constructor; [apply Nat.leb_le; reflexivity|]).
    assert (H1 : (nat_of_ascii c / 16 < 16)%nat) by (apply Nat.Div0.div_lt_upper_bound; lia).
    assert (H2 : (nat_of_ascii c mod 16 < 16)%nat) by (apply Nat.mod_upper_bound; lia).
    apply hex_digit_code in H1. apply hex_digit_code in H2.
    constructor; [lia|]. constructor; [lia|constructor].
  - apply Nat.ltb_ge in Hlt. constructor; [exact Hlt|constructor].
Qed.

(** The string escaping of [json.dumps] (as the details job writes
    [payload_raw] and the JSON columns) leaves no control character
    (code below 32) in its output: newlines, tabs and the like come out
    as backslash escapes. *)
Theorem escape_no_control_chars s :
  Forall (fun c => (32 <= nat_of_ascii c)%nat) (list_ascii_of_string (Json.escape s)).
Proof.
  induction s as [|c r IH]; [constructor|]. cbn [Json.escape].
  rewrite list_ascii_of_string_app. apply Forall_app. split; [apply escape_char_printable|exact IH].
Qed.

(** ** Witnesses of the further properties *)

Lemma bigquery_sql_as_m2_witness :
  "asin"%string <> EmptyString /\ str_contains " " "asin" = false /\
  str_contains " " "proj.ds.items" = false /\
  Inputs.bigquery_sql "proj.ds.items" "asin" (Some "active = TRUE"%string) (Some 10) true =
  Inputs.bigquery_sql_m2 "proj.ds.items" ((if true then "DISTINCT " else EmptyString) ++ "asin")%string
    (Some "active = TRUE"%string) (Some 10).
Proof.
  assert (H1 : "asin"%string <> EmptyString) by discriminate.
  assert (H2 : str_contains " " "asin" = false) by reflexivity.
  assert (H3 : str_contains " " "proj.ds.items" = false) by reflexivity.
  split; [exact H1|]. split; [exact H2|]. split; [exact H3|].
  apply (bigquery_sql_as_m2 "proj.ds.items" "asin" (Some "active = TRUE"%string) (Some 10) true
           H1 H2 H3).
Defined.

Lemma normalize_products_rows_by_page_witness :
  exists rows,
    Products.normalize_products_to_dataframe
      [Fixtures.serp_products 0%nat []; Fixtures.serp_products 1%nat []] (JStr "cat") = Ret rows /\
    length rows = 4%nat /\
    exists groups, rows = List.concat groups /\ length groups = 2%nat.
Proof.
  exists (match Products.normalize_products_to_dataframe
                  [Fixtures.serp_products 0%nat []; Fixtures.serp_products 1%nat []] (JStr "cat")
          with Ret rs => rs | Raise _ => [] end).
  assert (H : Products.normalize_products_to_dataframe
                [Fixtures.serp_products 0%nat []; Fixtures.serp_products 1%nat []] (JStr "cat")
              = Ret (match Products.normalize_products_to_dataframe
                             [Fixtures.serp_products 0%nat []; Fixtures.serp_products 1%nat []]
                             (JStr "cat") with Ret rs => rs | Raise _ => [] end))
    by (vm_compute; reflexivity).
  split; [exact H|]. split; [vm_compute; reflexivity|].
  destruct (normalize_products_rows_by_page _ _ _ H) as (groups & Hr & Hl & _).
  exists groups. split; [exact Hr|exact Hl].
Defined.

Lemma normalize_products_null_link_witness :
  [Fixtures.serp_products 0%nat []; JObj [("organic_results", JArr [JObj [("asin", JStr "B03"); ("link", JNull)]])]]
    !! 1%nat = Some (JObj [("organic_results", JArr [JObj [("asin", JStr "B03"); ("link", JNull)]])]) /\
  Products.organic (JObj [("organic_results", JArr [JObj [("asin", JStr "B03"); ("link", JNull)]])])
    = Ret [JObj [("asin", JStr "B03"); ("link", JNull)]] /\
  exists e, Products.normalize_products_to_dataframe
              [Fixtures.serp_products 0%nat [];
               JObj [("organic_results", JArr [JObj [("asin", JStr "B03"); ("link", JNull)]])]]
              (JStr "cat") = Raise e.
Proof.
  split; [reflexivity|]. split; [reflexivity|].
  eapply (normalize_products_null_link _ (JStr "cat") 1%nat _ _ [("asin", JStr "B03"); ("link", JNull)]).
  - reflexivity.
  - reflexivity.
  - left. reflexivity.
  - reflexivity.
Defined.

Lemma listing_rows_carry_run_timestamp_witness :
  exists pages rows,
    Serp.fetch_pages ListingJob.advance Fixtures.serp_products "T" 5%nat
      (Fixtures.listing_config (JInt 2)) = Ret (Some pages) /\
    Products.normalize_products_to_dataframe pages (JStr "cat") = Ret rows /\
    length rows = 2%nat /\
    Forall (fun r => assoc "extracted_at" r = Some (JStr "T") /\
                     exists b, assoc "is_sponsored" r = Some (JBool b)) rows.
Proof.
  exists (match Serp.fetch_pages ListingJob.advance Fixtures.serp_products "T" 5%nat
                  (Fixtures.listing_config (JInt 2)) with Ret (Some ps) => ps | _ => [] end).
  exists (match Products.normalize_products_to_dataframe
                  (match Serp.fetch_pages ListingJob.advance Fixtures.serp_products "T" 5%nat
                           (Fixtures.listing_config (JInt 2)) with Ret (Some ps) => ps | _ => [] end)
                  (JStr "cat") with Ret rs => rs | Raise _ => [] end).
  assert (H1 : Serp.fetch_pages ListingJob.advance Fixtures.serp_products "T" 5%nat
                 (Fixtures.listing_config (JInt 2))
               = Ret (Some (match Serp.fetch_pages ListingJob.advance Fixtures.serp_products "T" 5%nat
                                   (Fixtures.listing_config (JInt 2)) with Ret (Some ps) => ps | _ => [] end)))
    by (vm_compute; reflexivity).
  assert (H2 : Products.normalize_products_to_dataframe
                 (match Serp.fetch_pages ListingJob.advance Fixtures.serp_products "T" 5%nat
                          (Fixtures.listing_config (JInt 2)) with Ret (Some ps) => ps | _ => [] end)
                 (JStr "cat")
               = Ret (match Products.normalize_products_to_dataframe
                             (match Serp.fetch_pages ListingJob.advance Fixtures.serp_products "T" 5%nat
                                      (Fixtures.listing_config (JInt 2)) with Ret (Some ps) => ps | _ => [] end)
                             (JStr "cat") with Ret rs => rs | Raise _ => [] end))
    by (vm_compute; reflexivity).
  split; [exact H1|]. split; [exact H2|]. split; [vm_compute; reflexivity|].
  exact (listing_rows_carry_run_timestamp _ _ _ _ _ _ _ _ H1 H2).
Defined.

Lemma flatten_pricing_rows_per_offer_witness :
  exists rows,
    assoc "pricing" [("asin", JStr "B01");
                     ("pricing", JArr [JObj [("seller", JStr "S1");
                                             ("delivery_options", JArr [JObj [("type", JStr "std")];
                                                                        JObj [("type", JStr "exp")]])];
                                       JObj [("seller", JStr "S2")]])]
    = Some (JArr [JObj [("seller", JStr "S1");
                        ("delivery_options", JArr [JObj [("type", JStr "std")];
                                                   JObj [("type", JStr "exp")]])];
                  JObj [("seller", JStr "S2")]]) /\
    Price.flatten_pricing
      (JObj [("asin", JStr "B01");
             ("pricing", JArr [JObj [("seller", JStr "S1");
                                     ("delivery_options", JArr [JObj [("type", JStr "std")];
                                                                JObj [("type", JStr "exp")]])];
                               JObj [("seller", JStr "S2")]])])
      (JStr "cat") (JStr "T") JNull = Ret rows /\
    length rows = 3%nat /\
    exists groups, rows = List.concat groups /\ length groups = 2%nat.
Proof.
  set (offers := [JObj [("seller", JStr "S1");
                         ("delivery_options", JArr [JObj [("type", JStr "std")];
                                                    JObj [("type", JStr "exp")]])];
                   JObj [("seller", JStr "S2")]]).
  set (kv := [("asin", JStr "B01"); ("pricing", JArr offers)]).
  exists (match Price.flatten_pricing (JObj kv) (JStr "cat") (JStr "T") JNull
          with Ret rs => rs | Raise _ => [] end).
  assert (Hp : assoc "pricing" kv = Some (JArr offers)) by reflexivity.
  assert (Hf : Price.flatten_pricing (JObj kv) (JStr "cat") (JStr "T") JNull
               = Ret (match Price.flatten_pricing (JObj kv) (JStr "cat") (JStr "T") JNull
                      with Ret rs => rs | Raise _ => [] end))
    by (unfold kv, offers; vm_compute; reflexivity).
  split; [exact Hp|]. split; [exact Hf|]. split; [unfold kv, offers; vm_compute; reflexivity|].
  destruct (flatten_pricing_rows_per_offer _ _ _ _ _ _ Hp Hf) as (groups & Hr & Hl & _).
  exists groups. split; [exact Hr|exact Hl].
Defined.

Lemma process_asin_empty_delivery_options_witness :
  exists r,
    Price.process_asin
      (Fixtures.net_ok (Fixtures.price_response [JObj [("seller", JStr "S1"); ("delivery_options", JArr [])]]))
      (Ret tt) "B01" "user" "pass" (JStr "de") (JStr "amazon_pricing") "https://oxylabs.test"
      (JStr "cat") JNull (JStr "T") = Ret ([r], JNull) /\
    assoc "pricing_status" r = Some (JStr "no_offers") /\ assoc "offer_position" r = Some JNull.
Proof.
  apply (process_asin_empty_delivery_options _ _ _ _ _ _ _ _ _ _ _
           (Fixtures.price_response [JObj [("seller", JStr "S1"); ("delivery_options", JArr [])]])
           [("asin", JStr "B01"); ("title", JStr "Kettle");
            ("pricing", JArr [JObj [("seller", JStr "S1"); ("delivery_options", JArr [])]])]
           [JObj [("seller", JStr "S1"); ("delivery_options", JArr [])]]).
  - vm_compute. reflexivity.
  - vm_compute. reflexivity.
  - vm_compute. reflexivity.
  - reflexivity.
  - constructor; [|constructor]. eexists. split; reflexivity.
  - reflexivity.
Defined.

Lemma process_asin_failed_request_witness :
  Price.process_asin Fixtures.net_down (Ret tt) "B01" "user" "pass" (JStr "de")
    (JStr "amazon_pricing") "https://oxylabs.test" (JStr "cat") JNull (JStr "T")
  = Ret (Price.build_error_row "B01" (JStr "cat") (JStr "T") JNull
           (JStr (exn_str (ReqErr "Connection refused" None))),
         JStr (exn_str (ReqErr "Connection refused" None))).
Proof.
  apply process_asin_failed_request.
  - intros auth payload. reflexivity.
  - reflexivity.
  - reflexivity.
Defined.

Lemma details_failed_request_row_witness :
  exists r,
    (payload <- Details.payload_of
                  (Details.process_asin Fixtures.net_down (Ret tt) "https://oxylabs.test" "user" "pass"
                     "B01" (JStr "amazon_product") (JStr "de") JNull);;
     Details.normalize_one "T" (JStr "cat") JNull "B01" payload) = Ret r /\
    assoc "item_status" r = Some (JStr "error") /\
    assoc "error_message" r = Some (JStr (exn_str (ReqErr "Connection refused" None))) /\
    assoc "status_code" r = Some (exn_status (ReqErr "Connection refused" None)) /\
    assoc "asin" r = Some (JStr "B01").
Proof.
  apply details_failed_request_row.
  - intros auth payload. reflexivity.
  - reflexivity.
  - reflexivity.
Defined.

Lemma encode_otto_url_round_trip_witness :
  M2.split_once "://" "https://www.otto.de/p/kessel-1/#variationId=2"
    = Some ("https"%string, "www.otto.de/p/kessel-1/#variationId=2"%string) /\
  str_contains "%" "https" = false /\
  exists enc, M2.encode_otto_url "https://www.otto.de/p/kessel-1/#variationId=2" = Ret enc /\
              Listing.unquote enc = "https://www.otto.de/p/kessel-1/#variationId=2"%string.
Proof.
  assert (H1 : M2.split_once "://" "https://www.otto.de/p/kessel-1/#variationId=2"
               = Some ("https"%string, "www.otto.de/p/kessel-1/#variationId=2"%string))
    by (vm_compute; reflexivity).
  assert (H2 : str_contains "%" "https" = false) by reflexivity.
  split; [exact H1|]. split; [exact H2|].
  exact (encode_otto_url_round_trip _ _ _ H1 H2).
Defined.

Lemma quote_output_charset_witness :
  list_ascii_of_string (M2.quote "a/b") = ["a"%char] ++ "%"%char :: ["2"%char; "F"%char; "b"%char] /\
  exists h1 h2 rest, ["2"%char; "F"%char; "b"%char] = h1 :: h2 :: rest /\
    In h1 (list_ascii_of_string "0123456789ABCDEF") /\
    In h2 (list_ascii_of_string "0123456789ABCDEF").
Proof.
  assert (H : list_ascii_of_string (M2.quote "a/b")
              = ["a"%char] ++ "%"%char :: ["2"%char; "F"%char; "b"%char])
    by (vm_compute; reflexivity).
  split; [exact H|].
  exact (proj2 (quote_output_charset "a/b") _ _ H).
Defined.

Lemma listing_job_advance_params_witness :
  py_get_d (JObj [("serpapi_pagination", JObj [("current", JInt 1); ("next", JStr "u")])])
    "serpapi_pagination" (JObj []) = Ret (JObj [("current", JInt 1); ("next", JStr "u")]) /\
  ListingJob.advance 1 [("engine", JStr "amazon"); ("page", JInt 1)]
    (JObj [("serpapi_pagination", JObj [("current", JInt 1); ("next", JStr "u")])])
  = Ret (2, [("engine", JStr "amazon"); ("page", JInt 1); ("current", JInt 1); ("next", JStr "u")]) /\
  2 = 1 + 1 /\
  assoc "next" [("engine", JStr "amazon"); ("page", JInt 1); ("current", JInt 1); ("next", JStr "u")]
  = Some (JStr "u").
Proof.
  assert (H1 : py_get_d (JObj [("serpapi_pagination", JObj [("current", JInt 1); ("next", JStr "u")])])
                 "serpapi_pagination" (JObj []) = Ret (JObj [("current", JInt 1); ("next", JStr "u")]))
    by reflexivity.
  assert (H2 : ListingJob.advance 1 [("engine", JStr "amazon"); ("page", JInt 1)]
                 (JObj [("serpapi_pagination", JObj [("current", JInt 1); ("next", JStr "u")])])
               = Ret (2, [("engine", JStr "amazon"); ("page", JInt 1); ("current", JInt 1);
                          ("next", JStr "u")]))
    by (vm_compute; reflexivity).
  destruct (listing_job_advance_params _ _ _ _ _ _ H1 H2) as [Hn Hk].
  split; [exact H1|]. split; [exact H2|]. split; [exact Hn|]. rewrite Hk. reflexivity.
Defined.

Lemma details_error_payload_row_witness :
  assoc "error" [("error", JStr "Missing result")] = Some (JStr "Missing result") /\
  assoc "results" [("error", JStr "Missing result")] = None /\
  exists r, Details.normalize_one "T" (JStr "cat") JNull "B01" (JObj [("error", JStr "Missing result")])
            = Ret r /\
    assoc "item_status" r = Some (JStr "error") /\
    assoc "error_message" r = Some (JStr "Missing result") /\
    assoc "status_code" r = Some (default JNull (assoc "status_code" [("error", JStr "Missing result")])) /\
    assoc "asin" r = Some (JStr "B01") /\
    assoc "title" r = Some JNull /\ assoc "price" r = Some JNull.
Proof.
  split; [reflexivity|]. split; [reflexivity|].
  apply details_error_payload_row; reflexivity.
Defined.
